(** * The matchmaking and message-protocol core of [useHumanChat]

    The repository carries two near-duplicate implementations of the
    hook [useHumanChat]:

    - the variant that keeps a persistent lobby subscription and
      polls the presence snapshot every two seconds (module [Lobby],
      embedded from src/unnamed/part_001, second document);
    - the variant that joins the lobby on [connect] and reacts to every
      presence [sync] (module [Join], embedded from
      src/unnamed/part_002, first document).

    Both are embedded over one state record.  React state cells, refs,
    the hook arguments and the parts of the environment the hook talks
    to (clock, timers, the transport's open flags, localStorage and the
    log of outbound calls) are fields of [State]; a state setter is read
    as an immediate update, and a callback runs to completion before the
    next one starts (the event loop is single threaded). *)

From Stdlib Require Import ZArith NArith String List Bool Lia.
From Stdlib Require Import Sorting.Sorted.
From stdpp Require Import base decidable option list gmap strings pretty sorting.

Local Open Scope string_scope.
Local Open Scope list_scope.
Local Open Scope Z_scope.

(** ** Data model *)

(** Modelled from the spec: [types.ts] is not among the sources.  The
    field list follows section 3 of the specification; the hook itself
    only reads [username]. *)
Record UserProfile := mkProfile {
  username : string;
  age : string;
  gender : string;
  location : string;
  interests : list string
}.

Inductive PresenceStatus := idle | waiting | busy.

(** One entry of the presence snapshot, as published by [channel.track]. *)
Record PresenceState := mkPresence {
  p_peerId : string;
  p_status : PresenceStatus;
  p_timestamp : Z;
  p_profile : option UserProfile
}.

Inductive ChatMode := IDLE | SEARCHING | WAITING | CONNECTED | DISCONNECTED.

Inductive Sender := me | stranger | system.
Inductive DataType := text | image | audio.
Inductive MsgStatus := sent | seen.

Record Reaction := mkReaction { emoji : string; r_sender : Sender }.

(** A chat message.  Optional fields of the TypeScript interface are
    options: an object literal that does not mention [status] yields
    [None], the spread [{...msg, status: 'seen'}] yields [Some seen]. *)
Record Message := mkMessage {
  m_id : string;
  m_sender : Sender;
  m_timestamp : Z;
  m_type : DataType;
  m_reactions : option (list Reaction);
  m_text : option string;
  m_fileData : option string;
  m_status : option MsgStatus;
  m_isEdited : option bool
}.

(** The wire envelope [{type, payload, dataType?, id?, messageId?}], one
    constructor per value of [type] the handlers look at, each with the
    fields that handler reads at the type it uses them. *)
Inductive PeerData :=
| Dmessage (payload : string) (dataType : option DataType) (id : option string)
| Dseen (messageId : option string)
| Dtyping (payload : bool)
| Drecording (payload : bool)
| Dprofile (payload : UserProfile)
| Dvanish_mode (payload : bool)
| Dreaction (payload : string) (messageId : option string)
| Dedit_message (payload : string) (messageId : option string)
| Dfriend_request (payload : UserProfile)
| Dfriend_accept (payload : UserProfile)
| Ddisconnect
| Dother (type : string).

Inductive ConnectionMetadata := random | direct.

(** A PeerJS [DataConnection]: [conn_ref] stands for the identity of the
    object (what [===] compares), [peer] is the remote peer id.  Whether
    it is open is the transport's business and lives in [openConns]. *)
Record DataConnection := mkConn { conn_ref : nat; peer : string }.

Record Peer := mkPeer { peer_id : option string }.

Record Friend := mkFriend {
  f_id : string;
  f_profile : UserProfile;
  addedAt : Z;
  lastSeen : Z
}.

Record FriendRequest := mkRequest { fr_profile : UserProfile; fr_peerId : string }.

Record RecentPeer := mkRecent {
  r_id : string;
  r_peerId : string;
  r_profile : UserProfile;
  metAt : Z
}.

Record DirectMessageEvent := mkDirectMessage { dm_peerId : string; dm_message : Message }.

Inductive StatusKind := typing | recording.
Record DirectStatusEvent := mkDirectStatus {
  ds_peerId : string;
  ds_type : StatusKind;
  ds_value : bool
}.

(** [incomingReaction]; the lobby variant also records the peer. *)
Record ReactionEvent := mkReactionEvent {
  re_peerId : option string;
  re_messageId : string;
  re_emoji : string;
  re_sender : Sender
}.

(** What a pending [setTimeout] callback does when it fires. *)
Inductive TimerAction :=
| ClearTyping        (* () => setPartnerTyping(false) *)
| ClearRecording     (* () => setPartnerRecording(false) *)
| CloseMain          (* the delayed close of cleanupMain *)
| MatchTimeout.      (* the connection-establishment timeout *)

Record Timer := mkTimer { tid : nat; due : Z; action : TimerAction }.

(** Calls into the transport and the presence channel, in call order. *)
Inductive Effect :=
| Send (conn : nat) (data : PeerData)
| Close (conn : nat)
| Connect (target : string) (metadata : option ConnectionMetadata)
| Track (entry : PresenceState)
| Untrack
| RemoveChannel.

#[global] Instance PresenceStatus_eq_dec : EqDecision PresenceStatus.
Proof. solve_decision. Defined.
#[global] Instance ChatMode_eq_dec : EqDecision ChatMode.
Proof. solve_decision. Defined.
#[global] Instance Sender_eq_dec : EqDecision Sender.
Proof. solve_decision. Defined.
#[global] Instance DataType_eq_dec : EqDecision DataType.
Proof. solve_decision. Defined.
#[global] Instance MsgStatus_eq_dec : EqDecision MsgStatus.
Proof. solve_decision. Defined.
#[global] Instance TimerAction_eq_dec : EqDecision TimerAction.
Proof. solve_decision. Defined.
#[global] Instance ConnectionMetadata_eq_dec : EqDecision ConnectionMetadata.
Proof. solve_decision. Defined.

(** ** The hook state *)

Record State := mkState {
  messages : list Message;
  status : ChatMode;
  partnerTyping : bool;
  partnerRecording : bool;
  partnerProfile : option UserProfile;
  remoteVanishMode : option bool;
  partnerPeerId : option string;
  onlineUsers : list PresenceState;
  myPeerId : option string;
  incomingDirectMessage : option DirectMessageEvent;
  incomingReaction : option ReactionEvent;
  incomingDirectStatus : option DirectStatusEvent;
  activeDirectConnections : gset string;
  friends : list Friend;
  friendRequests : list FriendRequest;
  peerRef : option Peer;
  mainConnRef : option DataConnection;
  directConnsRef : gmap string DataConnection;
  channelRef : option string;
  myPeerIdRef : option string;
  isMatchmakerRef : bool;
  isConnectingRef : bool;
  connectionTimeoutRef : option nat;
  typingTimeoutRef : option nat;
  recordingTimeoutRef : option nat;
  userProfile : option UserProfile;
  now : Z;
  timers : list Timer;
  nextTimer : nat;
  openConns : gset nat;
  recent_peers : option (list RecentPeer);
  chat_friends : option (list Friend);
  storageFull : bool;
  effects : list Effect
}.

Definition setMessages (v : list Message) (s : State) : State :=
  mkState v (status s) (partnerTyping s) (partnerRecording s)
    (partnerProfile s) (remoteVanishMode s) (partnerPeerId s) (onlineUsers s)
    (myPeerId s) (incomingDirectMessage s) (incomingReaction s)
    (incomingDirectStatus s) (activeDirectConnections s) (friends s)
    (friendRequests s) (peerRef s) (mainConnRef s) (directConnsRef s)
    (channelRef s) (myPeerIdRef s) (isMatchmakerRef s) (isConnectingRef s)
    (connectionTimeoutRef s) (typingTimeoutRef s) (recordingTimeoutRef s)
    (userProfile s) (now s) (timers s) (nextTimer s) (openConns s)
    (recent_peers s) (chat_friends s) (storageFull s) (effects s).
Definition setStatus (v : ChatMode) (s : State) : State :=
  mkState (messages s) v (partnerTyping s) (partnerRecording s)
    (partnerProfile s) (remoteVanishMode s) (partnerPeerId s) (onlineUsers s)
    (myPeerId s) (incomingDirectMessage s) (incomingReaction s)
    (incomingDirectStatus s) (activeDirectConnections s) (friends s)
    (friendRequests s) (peerRef s) (mainConnRef s) (directConnsRef s)
    (channelRef s) (myPeerIdRef s) (isMatchmakerRef s) (isConnectingRef s)
    (connectionTimeoutRef s) (typingTimeoutRef s) (recordingTimeoutRef s)
    (userProfile s) (now s) (timers s) (nextTimer s) (openConns s)
    (recent_peers s) (chat_friends s) (storageFull s) (effects s).
Definition setPartnerTyping (v : bool) (s : State) : State :=
  mkState (messages s) (status s) v (partnerRecording s) (partnerProfile s)
    (remoteVanishMode s) (partnerPeerId s) (onlineUsers s) (myPeerId s)
    (incomingDirectMessage s) (incomingReaction s) (incomingDirectStatus s)
    (activeDirectConnections s) (friends s) (friendRequests s) (peerRef s)
    (mainConnRef s) (directConnsRef s) (channelRef s) (myPeerIdRef s)
    (isMatchmakerRef s) (isConnectingRef s) (connectionTimeoutRef s)
    (typingTimeoutRef s) (recordingTimeoutRef s) (userProfile s) (now s)
    (timers s) (nextTimer s) (openConns s) (recent_peers s) (chat_friends s)
    (storageFull s) (effects s).
Definition setPartnerRecording (v : bool) (s : State) : State :=
  mkState (messages s) (status s) (partnerTyping s) v (partnerProfile s)
    (remoteVanishMode s) (partnerPeerId s) (onlineUsers s) (myPeerId s)
    (incomingDirectMessage s) (incomingReaction s) (incomingDirectStatus s)
    (activeDirectConnections s) (friends s) (friendRequests s) (peerRef s)
    (mainConnRef s) (directConnsRef s) (channelRef s) (myPeerIdRef s)
    (isMatchmakerRef s) (isConnectingRef s) (connectionTimeoutRef s)
    (typingTimeoutRef s) (recordingTimeoutRef s) (userProfile s) (now s)
    (timers s) (nextTimer s) (openConns s) (recent_peers s) (chat_friends s)
    (storageFull s) (effects s).
Definition setPartnerProfile (v : option UserProfile) (s : State) : State :=
  mkState (messages s) (status s) (partnerTyping s) (partnerRecording s) v
    (remoteVanishMode s) (partnerPeerId s) (onlineUsers s) (myPeerId s)
    (incomingDirectMessage s) (incomingReaction s) (incomingDirectStatus s)
    (activeDirectConnections s) (friends s) (friendRequests s) (peerRef s)
    (mainConnRef s) (directConnsRef s) (channelRef s) (myPeerIdRef s)
    (isMatchmakerRef s) (isConnectingRef s) (connectionTimeoutRef s)
    (typingTimeoutRef s) (recordingTimeoutRef s) (userProfile s) (now s)
    (timers s) (nextTimer s) (openConns s) (recent_peers s) (chat_friends s)
    (storageFull s) (effects s).
Definition setRemoteVanishMode (v : option bool) (s : State) : State :=
  mkState (messages s) (status s) (partnerTyping s) (partnerRecording s)
    (partnerProfile s) v (partnerPeerId s) (onlineUsers s) (myPeerId s)
    (incomingDirectMessage s) (incomingReaction s) (incomingDirectStatus s)
    (activeDirectConnections s) (friends s) (friendRequests s) (peerRef s)
    (mainConnRef s) (directConnsRef s) (channelRef s) (myPeerIdRef s)
    (isMatchmakerRef s) (isConnectingRef s) (connectionTimeoutRef s)
    (typingTimeoutRef s) (recordingTimeoutRef s) (userProfile s) (now s)
    (timers s) (nextTimer s) (openConns s) (recent_peers s) (chat_friends s)
    (storageFull s) (effects s).
Definition setPartnerPeerId (v : option string) (s : State) : State :=
  mkState (messages s) (status s) (partnerTyping s) (partnerRecording s)
    (partnerProfile s) (remoteVanishMode s) v (onlineUsers s) (myPeerId s)
    (incomingDirectMessage s) (incomingReaction s) (incomingDirectStatus s)
    (activeDirectConnections s) (friends s) (friendRequests s) (peerRef s)
    (mainConnRef s) (directConnsRef s) (channelRef s) (myPeerIdRef s)
    (isMatchmakerRef s) (isConnectingRef s) (connectionTimeoutRef s)
    (typingTimeoutRef s) (recordingTimeoutRef s) (userProfile s) (now s)
    (timers s) (nextTimer s) (openConns s) (recent_peers s) (chat_friends s)
    (storageFull s) (effects s).
Definition setOnlineUsers (v : list PresenceState) (s : State) : State :=
  mkState (messages s) (status s) (partnerTyping s) (partnerRecording s)
    (partnerProfile s) (remoteVanishMode s) (partnerPeerId s) v (myPeerId s)
    (incomingDirectMessage s) (incomingReaction s) (incomingDirectStatus s)
    (activeDirectConnections s) (friends s) (friendRequests s) (peerRef s)
    (mainConnRef s) (directConnsRef s) (channelRef s) (myPeerIdRef s)
    (isMatchmakerRef s) (isConnectingRef s) (connectionTimeoutRef s)
    (typingTimeoutRef s) (recordingTimeoutRef s) (userProfile s) (now s)
    (timers s) (nextTimer s) (openConns s) (recent_peers s) (chat_friends s)
    (storageFull s) (effects s).
Definition setMyPeerId (v : option string) (s : State) : State :=
  mkState (messages s) (status s) (partnerTyping s) (partnerRecording s)
    (partnerProfile s) (remoteVanishMode s) (partnerPeerId s) (onlineUsers s)
    v (incomingDirectMessage s) (incomingReaction s) (incomingDirectStatus s)
    (activeDirectConnections s) (friends s) (friendRequests s) (peerRef s)
    (mainConnRef s) (directConnsRef s) (channelRef s) (myPeerIdRef s)
    (isMatchmakerRef s) (isConnectingRef s) (connectionTimeoutRef s)
    (typingTimeoutRef s) (recordingTimeoutRef s) (userProfile s) (now s)
    (timers s) (nextTimer s) (openConns s) (recent_peers s) (chat_friends s)
    (storageFull s) (effects s).
Definition setIncomingDirectMessage (v : option DirectMessageEvent) (s : State) : State :=
  mkState (messages s) (status s) (partnerTyping s) (partnerRecording s)
    (partnerProfile s) (remoteVanishMode s) (partnerPeerId s) (onlineUsers s)
    (myPeerId s) v (incomingReaction s) (incomingDirectStatus s)
    (activeDirectConnections s) (friends s) (friendRequests s) (peerRef s)
    (mainConnRef s) (directConnsRef s) (channelRef s) (myPeerIdRef s)
    (isMatchmakerRef s) (isConnectingRef s) (connectionTimeoutRef s)
    (typingTimeoutRef s) (recordingTimeoutRef s) (userProfile s) (now s)
    (timers s) (nextTimer s) (openConns s) (recent_peers s) (chat_friends s)
    (storageFull s) (effects s).
Definition setIncomingReaction (v : option ReactionEvent) (s : State) : State :=
  mkState (messages s) (status s) (partnerTyping s) (partnerRecording s)
    (partnerProfile s) (remoteVanishMode s) (partnerPeerId s) (onlineUsers s)
    (myPeerId s) (incomingDirectMessage s) v (incomingDirectStatus s)
    (activeDirectConnections s) (friends s) (friendRequests s) (peerRef s)
    (mainConnRef s) (directConnsRef s) (channelRef s) (myPeerIdRef s)
    (isMatchmakerRef s) (isConnectingRef s) (connectionTimeoutRef s)
    (typingTimeoutRef s) (recordingTimeoutRef s) (userProfile s) (now s)
    (timers s) (nextTimer s) (openConns s) (recent_peers s) (chat_friends s)
    (storageFull s) (effects s).
Definition setIncomingDirectStatus (v : option DirectStatusEvent) (s : State) : State :=
  mkState (messages s) (status s) (partnerTyping s) (partnerRecording s)
    (partnerProfile s) (remoteVanishMode s) (partnerPeerId s) (onlineUsers s)
    (myPeerId s) (incomingDirectMessage s) (incomingReaction s) v
    (activeDirectConnections s) (friends s) (friendRequests s) (peerRef s)
    (mainConnRef s) (directConnsRef s) (channelRef s) (myPeerIdRef s)
    (isMatchmakerRef s) (isConnectingRef s) (connectionTimeoutRef s)
    (typingTimeoutRef s) (recordingTimeoutRef s) (userProfile s) (now s)
    (timers s) (nextTimer s) (openConns s) (recent_peers s) (chat_friends s)
    (storageFull s) (effects s).
Definition setActiveDirectConnections (v : gset string) (s : State) : State :=
  mkState (messages s) (status s) (partnerTyping s) (partnerRecording s)
    (partnerProfile s) (remoteVanishMode s) (partnerPeerId s) (onlineUsers s)
    (myPeerId s) (incomingDirectMessage s) (incomingReaction s)
    (incomingDirectStatus s) v (friends s) (friendRequests s) (peerRef s)
    (mainConnRef s) (directConnsRef s) (channelRef s) (myPeerIdRef s)
    (isMatchmakerRef s) (isConnectingRef s) (connectionTimeoutRef s)
    (typingTimeoutRef s) (recordingTimeoutRef s) (userProfile s) (now s)
    (timers s) (nextTimer s) (openConns s) (recent_peers s) (chat_friends s)
    (storageFull s) (effects s).
Definition setFriends (v : list Friend) (s : State) : State :=
  mkState (messages s) (status s) (partnerTyping s) (partnerRecording s)
    (partnerProfile s) (remoteVanishMode s) (partnerPeerId s) (onlineUsers s)
    (myPeerId s) (incomingDirectMessage s) (incomingReaction s)
    (incomingDirectStatus s) (activeDirectConnections s) v (friendRequests s)
    (peerRef s) (mainConnRef s) (directConnsRef s) (channelRef s)
    (myPeerIdRef s) (isMatchmakerRef s) (isConnectingRef s)
    (connectionTimeoutRef s) (typingTimeoutRef s) (recordingTimeoutRef s)
    (userProfile s) (now s) (timers s) (nextTimer s) (openConns s)
    (recent_peers s) (chat_friends s) (storageFull s) (effects s).
Definition setFriendRequests (v : list FriendRequest) (s : State) : State :=
  mkState (messages s) (status s) (partnerTyping s) (partnerRecording s)
    (partnerProfile s) (remoteVanishMode s) (partnerPeerId s) (onlineUsers s)
    (myPeerId s) (incomingDirectMessage s) (incomingReaction s)
    (incomingDirectStatus s) (activeDirectConnections s) (friends s) v
    (peerRef s) (mainConnRef s) (directConnsRef s) (channelRef s)
    (myPeerIdRef s) (isMatchmakerRef s) (isConnectingRef s)
    (connectionTimeoutRef s) (typingTimeoutRef s) (recordingTimeoutRef s)
    (userProfile s) (now s) (timers s) (nextTimer s) (openConns s)
    (recent_peers s) (chat_friends s) (storageFull s) (effects s).
Definition setPeerRef (v : option Peer) (s : State) : State :=
  mkState (messages s) (status s) (partnerTyping s) (partnerRecording s)
    (partnerProfile s) (remoteVanishMode s) (partnerPeerId s) (onlineUsers s)
    (myPeerId s) (incomingDirectMessage s) (incomingReaction s)
    (incomingDirectStatus s) (activeDirectConnections s) (friends s)
    (friendRequests s) v (mainConnRef s) (directConnsRef s) (channelRef s)
    (myPeerIdRef s) (isMatchmakerRef s) (isConnectingRef s)
    (connectionTimeoutRef s) (typingTimeoutRef s) (recordingTimeoutRef s)
    (userProfile s) (now s) (timers s) (nextTimer s) (openConns s)
    (recent_peers s) (chat_friends s) (storageFull s) (effects s).
Definition setMainConnRef (v : option DataConnection) (s : State) : State :=
  mkState (messages s) (status s) (partnerTyping s) (partnerRecording s)
    (partnerProfile s) (remoteVanishMode s) (partnerPeerId s) (onlineUsers s)
    (myPeerId s) (incomingDirectMessage s) (incomingReaction s)
    (incomingDirectStatus s) (activeDirectConnections s) (friends s)
    (friendRequests s) (peerRef s) v (directConnsRef s) (channelRef s)
    (myPeerIdRef s) (isMatchmakerRef s) (isConnectingRef s)
    (connectionTimeoutRef s) (typingTimeoutRef s) (recordingTimeoutRef s)
    (userProfile s) (now s) (timers s) (nextTimer s) (openConns s)
    (recent_peers s) (chat_friends s) (storageFull s) (effects s).
Definition setDirectConnsRef (v : gmap string DataConnection) (s : State) : State :=
  mkState (messages s) (status s) (partnerTyping s) (partnerRecording s)
    (partnerProfile s) (remoteVanishMode s) (partnerPeerId s) (onlineUsers s)
    (myPeerId s) (incomingDirectMessage s) (incomingReaction s)
    (incomingDirectStatus s) (activeDirectConnections s) (friends s)
    (friendRequests s) (peerRef s) (mainConnRef s) v (channelRef s)
    (myPeerIdRef s) (isMatchmakerRef s) (isConnectingRef s)
    (connectionTimeoutRef s) (typingTimeoutRef s) (recordingTimeoutRef s)
    (userProfile s) (now s) (timers s) (nextTimer s) (openConns s)
    (recent_peers s) (chat_friends s) (storageFull s) (effects s).
Definition setChannelRef (v : option string) (s : State) : State :=
  mkState (messages s) (status s) (partnerTyping s) (partnerRecording s)
    (partnerProfile s) (remoteVanishMode s) (partnerPeerId s) (onlineUsers s)
    (myPeerId s) (incomingDirectMessage s) (incomingReaction s)
    (incomingDirectStatus s) (activeDirectConnections s) (friends s)
    (friendRequests s) (peerRef s) (mainConnRef s) (directConnsRef s) v
    (myPeerIdRef s) (isMatchmakerRef s) (isConnectingRef s)
    (connectionTimeoutRef s) (typingTimeoutRef s) (recordingTimeoutRef s)
    (userProfile s) (now s) (timers s) (nextTimer s) (openConns s)
    (recent_peers s) (chat_friends s) (storageFull s) (effects s).
Definition setMyPeerIdRef (v : option string) (s : State) : State :=
  mkState (messages s) (status s) (partnerTyping s) (partnerRecording s)
    (partnerProfile s) (remoteVanishMode s) (partnerPeerId s) (onlineUsers s)
    (myPeerId s) (incomingDirectMessage s) (incomingReaction s)
    (incomingDirectStatus s) (activeDirectConnections s) (friends s)
    (friendRequests s) (peerRef s) (mainConnRef s) (directConnsRef s)
    (channelRef s) v (isMatchmakerRef s) (isConnectingRef s)
    (connectionTimeoutRef s) (typingTimeoutRef s) (recordingTimeoutRef s)
    (userProfile s) (now s) (timers s) (nextTimer s) (openConns s)
    (recent_peers s) (chat_friends s) (storageFull s) (effects s).
Definition setIsMatchmakerRef (v : bool) (s : State) : State :=
  mkState (messages s) (status s) (partnerTyping s) (partnerRecording s)
    (partnerProfile s) (remoteVanishMode s) (partnerPeerId s) (onlineUsers s)
    (myPeerId s) (incomingDirectMessage s) (incomingReaction s)
    (incomingDirectStatus s) (activeDirectConnections s) (friends s)
    (friendRequests s) (peerRef s) (mainConnRef s) (directConnsRef s)
    (channelRef s) (myPeerIdRef s) v (isConnectingRef s)
    (connectionTimeoutRef s) (typingTimeoutRef s) (recordingTimeoutRef s)
    (userProfile s) (now s) (timers s) (nextTimer s) (openConns s)
    (recent_peers s) (chat_friends s) (storageFull s) (effects s).
Definition setIsConnectingRef (v : bool) (s : State) : State :=
  mkState (messages s) (status s) (partnerTyping s) (partnerRecording s)
    (partnerProfile s) (remoteVanishMode s) (partnerPeerId s) (onlineUsers s)
    (myPeerId s) (incomingDirectMessage s) (incomingReaction s)
    (incomingDirectStatus s) (activeDirectConnections s) (friends s)
    (friendRequests s) (peerRef s) (mainConnRef s) (directConnsRef s)
    (channelRef s) (myPeerIdRef s) (isMatchmakerRef s) v
    (connectionTimeoutRef s) (typingTimeoutRef s) (recordingTimeoutRef s)
    (userProfile s) (now s) (timers s) (nextTimer s) (openConns s)
    (recent_peers s) (chat_friends s) (storageFull s) (effects s).
Definition setConnectionTimeoutRef (v : option nat) (s : State) : State :=
  mkState (messages s) (status s) (partnerTyping s) (partnerRecording s)
    (partnerProfile s) (remoteVanishMode s) (partnerPeerId s) (onlineUsers s)
    (myPeerId s) (incomingDirectMessage s) (incomingReaction s)
    (incomingDirectStatus s) (activeDirectConnections s) (friends s)
    (friendRequests s) (peerRef s) (mainConnRef s) (directConnsRef s)
    (channelRef s) (myPeerIdRef s) (isMatchmakerRef s) (isConnectingRef s) v
    (typingTimeoutRef s) (recordingTimeoutRef s) (userProfile s) (now s)
    (timers s) (nextTimer s) (openConns s) (recent_peers s) (chat_friends s)
    (storageFull s) (effects s).
Definition setTypingTimeoutRef (v : option nat) (s : State) : State :=
  mkState (messages s) (status s) (partnerTyping s) (partnerRecording s)
    (partnerProfile s) (remoteVanishMode s) (partnerPeerId s) (onlineUsers s)
    (myPeerId s) (incomingDirectMessage s) (incomingReaction s)
    (incomingDirectStatus s) (activeDirectConnections s) (friends s)
    (friendRequests s) (peerRef s) (mainConnRef s) (directConnsRef s)
    (channelRef s) (myPeerIdRef s) (isMatchmakerRef s) (isConnectingRef s)
    (connectionTimeoutRef s) v (recordingTimeoutRef s) (userProfile s) (now s)
    (timers s) (nextTimer s) (openConns s) (recent_peers s) (chat_friends s)
    (storageFull s) (effects s).
Definition setRecordingTimeoutRef (v : option nat) (s : State) : State :=
  mkState (messages s) (status s) (partnerTyping s) (partnerRecording s)
    (partnerProfile s) (remoteVanishMode s) (partnerPeerId s) (onlineUsers s)
    (myPeerId s) (incomingDirectMessage s) (incomingReaction s)
    (incomingDirectStatus s) (activeDirectConnections s) (friends s)
    (friendRequests s) (peerRef s) (mainConnRef s) (directConnsRef s)
    (channelRef s) (myPeerIdRef s) (isMatchmakerRef s) (isConnectingRef s)
    (connectionTimeoutRef s) (typingTimeoutRef s) v (userProfile s) (now s)
    (timers s) (nextTimer s) (openConns s) (recent_peers s) (chat_friends s)
    (storageFull s) (effects s).
Definition setNow (v : Z) (s : State) : State :=
  mkState (messages s) (status s) (partnerTyping s) (partnerRecording s)
    (partnerProfile s) (remoteVanishMode s) (partnerPeerId s) (onlineUsers s)
    (myPeerId s) (incomingDirectMessage s) (incomingReaction s)
    (incomingDirectStatus s) (activeDirectConnections s) (friends s)
    (friendRequests s) (peerRef s) (mainConnRef s) (directConnsRef s)
    (channelRef s) (myPeerIdRef s) (isMatchmakerRef s) (isConnectingRef s)
    (connectionTimeoutRef s) (typingTimeoutRef s) (recordingTimeoutRef s)
    (userProfile s) v (timers s) (nextTimer s) (openConns s) (recent_peers s)
    (chat_friends s) (storageFull s) (effects s).
Definition setTimers (v : list Timer) (s : State) : State :=
  mkState (messages s) (status s) (partnerTyping s) (partnerRecording s)
    (partnerProfile s) (remoteVanishMode s) (partnerPeerId s) (onlineUsers s)
    (myPeerId s) (incomingDirectMessage s) (incomingReaction s)
    (incomingDirectStatus s) (activeDirectConnections s) (friends s)
    (friendRequests s) (peerRef s) (mainConnRef s) (directConnsRef s)
    (channelRef s) (myPeerIdRef s) (isMatchmakerRef s) (isConnectingRef s)
    (connectionTimeoutRef s) (typingTimeoutRef s) (recordingTimeoutRef s)
    (userProfile s) (now s) v (nextTimer s) (openConns s) (recent_peers s)
    (chat_friends s) (storageFull s) (effects s).
Definition setNextTimer (v : nat) (s : State) : State :=
  mkState (messages s) (status s) (partnerTyping s) (partnerRecording s)
    (partnerProfile s) (remoteVanishMode s) (partnerPeerId s) (onlineUsers s)
    (myPeerId s) (incomingDirectMessage s) (incomingReaction s)
    (incomingDirectStatus s) (activeDirectConnections s) (friends s)
    (friendRequests s) (peerRef s) (mainConnRef s) (directConnsRef s)
    (channelRef s) (myPeerIdRef s) (isMatchmakerRef s) (isConnectingRef s)
    (connectionTimeoutRef s) (typingTimeoutRef s) (recordingTimeoutRef s)
    (userProfile s) (now s) (timers s) v (openConns s) (recent_peers s)
    (chat_friends s) (storageFull s) (effects s).
Definition setOpenConns (v : gset nat) (s : State) : State :=
  mkState (messages s) (status s) (partnerTyping s) (partnerRecording s)
    (partnerProfile s) (remoteVanishMode s) (partnerPeerId s) (onlineUsers s)
    (myPeerId s) (incomingDirectMessage s) (incomingReaction s)
    (incomingDirectStatus s) (activeDirectConnections s) (friends s)
    (friendRequests s) (peerRef s) (mainConnRef s) (directConnsRef s)
    (channelRef s) (myPeerIdRef s) (isMatchmakerRef s) (isConnectingRef s)
    (connectionTimeoutRef s) (typingTimeoutRef s) (recordingTimeoutRef s)
    (userProfile s) (now s) (timers s) (nextTimer s) v (recent_peers s)
    (chat_friends s) (storageFull s) (effects s).
Definition setRecent_peers (v : option (list RecentPeer)) (s : State) : State :=
  mkState (messages s) (status s) (partnerTyping s) (partnerRecording s)
    (partnerProfile s) (remoteVanishMode s) (partnerPeerId s) (onlineUsers s)
    (myPeerId s) (incomingDirectMessage s) (incomingReaction s)
    (incomingDirectStatus s) (activeDirectConnections s) (friends s)
    (friendRequests s) (peerRef s) (mainConnRef s) (directConnsRef s)
    (channelRef s) (myPeerIdRef s) (isMatchmakerRef s) (isConnectingRef s)
    (connectionTimeoutRef s) (typingTimeoutRef s) (recordingTimeoutRef s)
    (userProfile s) (now s) (timers s) (nextTimer s) (openConns s) v
    (chat_friends s) (storageFull s) (effects s).
Definition setChat_friends (v : option (list Friend)) (s : State) : State :=
  mkState (messages s) (status s) (partnerTyping s) (partnerRecording s)
    (partnerProfile s) (remoteVanishMode s) (partnerPeerId s) (onlineUsers s)
    (myPeerId s) (incomingDirectMessage s) (incomingReaction s)
    (incomingDirectStatus s) (activeDirectConnections s) (friends s)
    (friendRequests s) (peerRef s) (mainConnRef s) (directConnsRef s)
    (channelRef s) (myPeerIdRef s) (isMatchmakerRef s) (isConnectingRef s)
    (connectionTimeoutRef s) (typingTimeoutRef s) (recordingTimeoutRef s)
    (userProfile s) (now s) (timers s) (nextTimer s) (openConns s)
    (recent_peers s) v (storageFull s) (effects s).
Definition setStorageFull (v : bool) (s : State) : State :=
  mkState (messages s) (status s) (partnerTyping s) (partnerRecording s)
    (partnerProfile s) (remoteVanishMode s) (partnerPeerId s) (onlineUsers s)
    (myPeerId s) (incomingDirectMessage s) (incomingReaction s)
    (incomingDirectStatus s) (activeDirectConnections s) (friends s)
    (friendRequests s) (peerRef s) (mainConnRef s) (directConnsRef s)
    (channelRef s) (myPeerIdRef s) (isMatchmakerRef s) (isConnectingRef s)
    (connectionTimeoutRef s) (typingTimeoutRef s) (recordingTimeoutRef s)
    (userProfile s) (now s) (timers s) (nextTimer s) (openConns s)
    (recent_peers s) (chat_friends s) v (effects s).
Definition setEffects (v : list Effect) (s : State) : State :=
  mkState (messages s) (status s) (partnerTyping s) (partnerRecording s)
    (partnerProfile s) (remoteVanishMode s) (partnerPeerId s) (onlineUsers s)
    (myPeerId s) (incomingDirectMessage s) (incomingReaction s)
    (incomingDirectStatus s) (activeDirectConnections s) (friends s)
    (friendRequests s) (peerRef s) (mainConnRef s) (directConnsRef s)
    (channelRef s) (myPeerIdRef s) (isMatchmakerRef s) (isConnectingRef s)
    (connectionTimeoutRef s) (typingTimeoutRef s) (recordingTimeoutRef s)
    (userProfile s) (now s) (timers s) (nextTimer s) (openConns s)
    (recent_peers s) (chat_friends s) (storageFull s) v.


(** ** JavaScript helpers *)

(** Truthiness of an optional string field: [undefined] and the empty
    string are falsy. *)
Definition truthy (o : option string) : bool :=
  match o with
  | Some x => bool_decide (x ≠ "")
  | None => false
  end.

(** [o || d] for an optional string [o]. *)
Definition or_else (o : option string) (d : string) : string :=
  match o with
  | Some x => if bool_decide (x ≠ "") then x else d
  | None => d
  end.

(** [n.toString()] for an integral number. *)
Definition toString (n : Z) : string := pretty n.

(** [Array.prototype.sort] with the comparator [(a, b) => key a - key b].
    The sort is stable (ECMAScript 2019); with this comparator its result
    is the stably sorted permutation of the input, computed here by a
    stable insertion sort. *)
Section StableSort.
Context {A : Type} (key : A → Z).

Fixpoint insert_by (x : A) (l : list A) : list A :=
  match l with
  | [] => [x]
  | y :: l' => if decide (key x ≤ key y) then x :: y :: l' else y :: insert_by x l'
  end.

Fixpoint sort_by (l : list A) : list A :=
  match l with
  | [] => []
  | x :: l' => insert_by x (sort_by l')
  end.
End StableSort.

(** ** Environment: effects, transport flags, timers, localStorage *)

Definition effect (e : Effect) (s : State) : State :=
  setEffects (effects s ++ [e]) s.

(** [conn.send(data)] *)
Definition send (conn : DataConnection) (data : PeerData) (s : State) : State :=
  effect (Send (conn_ref conn) data) s.

(** [conn.close()] *)
Definition close (conn : DataConnection) (s : State) : State :=
  setOpenConns (openConns s ∖ {[conn_ref conn]}) (effect (Close (conn_ref conn)) s).

(** [conn.open] *)
Definition is_open (conn : DataConnection) (s : State) : bool :=
  bool_decide (conn_ref conn ∈ openConns s).

(** [mainConnRef.current?.open], read as a condition *)
Definition main_open (s : State) : bool :=
  match mainConnRef s with
  | Some c => is_open c s
  | None => false
  end.

(** [conn === mainConnRef.current] *)
Definition is_main (conn : DataConnection) (s : State) : bool :=
  match mainConnRef s with
  | Some c => bool_decide (conn_ref c = conn_ref conn)
  | None => false
  end.

(** [channelRef.current.track({peerId, status, timestamp: Date.now(),
    profile: userProfile})], guarded by
    [channelRef.current && myPeerIdRef.current]. *)
Definition track_status (st : PresenceStatus) (s : State) : State :=
  match channelRef s, myPeerIdRef s with
  | Some _, Some myId => effect (Track (mkPresence myId st (now s) (userProfile s))) s
  | _, _ => s
  end.

(** [setTimeout(callback, delay)]: timer ids are positive, so a ref that
    holds one is truthy. *)
Definition setTimeout (a : TimerAction) (delay : Z) (s : State) : nat * State :=
  (nextTimer s,
   setNextTimer (S (nextTimer s))
     (setTimers (timers s ++ [mkTimer (nextTimer s) (now s + delay) a]) s)).

Definition clearTimeout (k : nat) (s : State) : State :=
  setTimers (filter (λ t, tid t ≠ k) (timers s)) s.

(** [if (ref.current) clearTimeout(ref.current)] *)
Definition clearTimeoutRef (r : option nat) (s : State) : State :=
  match r with
  | Some k => clearTimeout k s
  | None => s
  end.

(** [try { mainConnRef.current?.close(); } catch (e) {}
    mainConnRef.current = null;] *)
Definition close_main (s : State) : State :=
  setMainConnRef None
    (match mainConnRef s with Some c => close c s | None => s end).

(** The callback of a timer. *)
Definition fire (a : TimerAction) (s : State) : State :=
  match a with
  | ClearTyping => setPartnerTyping false s
  | ClearRecording => setPartnerRecording false s
  | CloseMain => close_main s
  | MatchTimeout =>
      (* if (isMatchmakerRef.current &&
             (!mainConnRef.current || !mainConnRef.current.open)) *)
      if isMatchmakerRef s && negb (main_open s)
      then setMainConnRef None (setIsMatchmakerRef false s)
      else s
  end.

Definition fire_all (ts : list Timer) (s : State) : State :=
  fold_left (λ st t, fire (action t) st) ts s.

(** The clock moves on by [dt] milliseconds; the timers that have come
    due run, earliest first. *)
Definition advance (dt : N) (s : State) : State :=
  let t := now s + Z.of_N dt in
  let ready := filter (λ x, due x ≤ t) (timers s) in
  let later := filter (λ x, ¬ due x ≤ t) (timers s) in
  fire_all (sort_by due ready) (setTimers later (setNow t s)).

(** [localStorage.setItem] throws when the quota is exceeded. *)
Definition setItem_recent_peers (v : list RecentPeer) (s : State) : option State :=
  if storageFull s then None else Some (setRecent_peers (Some v) s).

Definition setItem_chat_friends (v : list Friend) (s : State) : option State :=
  if storageFull s then None else Some (setChat_friends (Some v) s).

(** ** Persistence: recent peers and friends

    [saveToRecent], [saveFriend] and [removeFriend] read the same in the
    two variants (part_001 lines 802-838, part_002 lines 95-163). *)

Definition saveToRecent (profile : UserProfile) (peerId : string) (s : State) : State :=
  (* existing ? JSON.parse(existing) : [] *)
  let recents := default [] (recent_peers s) in
  let newPeer := mkRecent (toString (now s)) peerId profile (now s) in
  let recents := filter (λ p, username (r_profile p) ≠ username profile) recents in
  let recents := newPeer :: recents in
  let recents := take 20 recents in
  (* try { ... } catch (e) {} *)
  default s (setItem_recent_peers recents s).

Definition saveFriend (profile : UserProfile) (peerId : string) (s : State) : State :=
  let friendList := default [] (chat_friends s) in
  if decide (Exists (λ f, f_id f = peerId) friendList) then s
  else
    let newFriend := mkFriend peerId profile (now s) (now s) in
    let friendList := newFriend :: friendList in
    match setItem_chat_friends friendList s with
    | Some s1 =>
        setFriendRequests
          (filter (λ req, fr_peerId req ≠ peerId) (friendRequests s1))
          (setFriends friendList s1)
    | None => s
    end.

Definition removeFriend (peerId : string) (s : State) : State :=
  let friendList := default [] (chat_friends s) in
  let friendList := filter (λ f, f_id f ≠ peerId) friendList in
  match setItem_chat_friends friendList s with
  | Some s1 => setFriends friendList s1
  | None => s
  end.

Definition rejectFriendRequest (peerId : string) (s : State) : State :=
  setFriendRequests (filter (λ req, fr_peerId req ≠ peerId) (friendRequests s)) s.

(** ** Message updates (object spreads) *)

(** [{...msg, status: st}] *)
Definition with_status (st : MsgStatus) (m : Message) : Message :=
  mkMessage (m_id m) (m_sender m) (m_timestamp m) (m_type m) (m_reactions m)
    (m_text m) (m_fileData m) (Some st) (m_isEdited m).

(** [{...msg, reactions: rs}] *)
Definition with_reactions (rs : list Reaction) (m : Message) : Message :=
  mkMessage (m_id m) (m_sender m) (m_timestamp m) (m_type m) (Some rs)
    (m_text m) (m_fileData m) (m_status m) (m_isEdited m).

(** [{...msg, text: t}] *)
Definition with_text (t : string) (m : Message) : Message :=
  mkMessage (m_id m) (m_sender m) (m_timestamp m) (m_type m) (m_reactions m)
    (Some t) (m_fileData m) (m_status m) (m_isEdited m).

(** [{...msg, text: t, isEdited: true}] *)
Definition with_edit (t : string) (m : Message) : Message :=
  mkMessage (m_id m) (m_sender m) (m_timestamp m) (m_type m) (m_reactions m)
    (Some t) (m_fileData m) (m_status m) (Some true).

(** [dataType === 'image' || dataType === 'audio'] *)
Definition is_media (dataType : option DataType) : bool :=
  match dataType with
  | Some image | Some audio => true
  | _ => false
  end.

(** [msg.id === data.messageId] *)
Definition id_matches (messageId : option string) (m : Message) : bool :=
  bool_decide (messageId = Some (m_id m)).

(** The condition of the [edit_message] branch:
    [msg.sender === 'stranger' && msg.type === 'text' &&
     (!data.messageId || msg.id === data.messageId)] *)
Definition edit_applies (messageId : option string) (m : Message) : bool :=
  bool_decide (m_sender m = stranger) && bool_decide (m_type m = text)
  && (negb (truthy messageId) || id_matches messageId m).

(** The [seen] branch, per message:
    [msg.id === data.messageId ? { ...msg, status: 'seen' } : msg] *)
Definition mark_seen (messageId : option string) (m : Message) : Message :=
  if id_matches messageId m then with_status seen m else m.

(** The [edit_message] branch, per message. *)
Definition apply_edit (payload : string) (messageId : option string)
    (m : Message) : Message :=
  if edit_applies messageId m then with_edit payload m else m.

(** The [profile] branch patches the greeting message. *)
Definition patch_greeting (p : UserProfile) (m : Message) : Message :=
  if bool_decide (m_id m = "init-1")
  then with_text ("Connected with " +:+ username p +:+ ". Say hello!") m
  else m.

(** [friend_request]: enqueue unless already a friend or already queued. *)
Definition enqueue_request (p : UserProfile) (conn : DataConnection) (s : State) : State :=
  if decide (Exists (λ f, f_id f = peer conn) (friends s)) then s
  else if decide (Exists (λ req, fr_peerId req = peer conn) (friendRequests s)) then s
  else setFriendRequests (friendRequests s ++ [mkRequest p (peer conn)]) s.

(** ** Events *)

(** What [peerRef.current.connect] does: it hands back a new connection
    object, hands back nothing, or throws. *)
Inductive ConnectResult := Returned (ref : nat) | ReturnedUndefined | Threw.

(** The callbacks the development follows.  [CallSaveToRecent] and
    [CallSaveFriend] stand for the call sites of these two functions
    outside the data handler ([callPeer], [acceptFriendRequest]);
    [StorageQuota] is the environment filling or freeing localStorage. *)
Inductive Event :=
| Data (data : PeerData) (conn : DataConnection) (rnd : string)
| Advance (dt : N)
| Disconnect
| PresenceSync (myId : string) (allUsers : list PresenceState) (r : ConnectResult)
| MatchTick (r : ConnectResult)
| FriendsPresence
| CallSaveToRecent (profile : UserProfile) (peerId : string)
| CallSaveFriend (profile : UserProfile) (peerId : string)
| RemoveFriend (peerId : string)
| RejectFriendRequest (peerId : string)
| StorageQuota (full : bool).

(** The state of a freshly mounted hook. *)
Definition initial (profile : option UserProfile) : State :=
  mkState [] IDLE false false None None None [] None None None None ∅ [] []
    None None ∅ None None false false None None None profile 0 [] 1 ∅
    None None false [].

(** ** The polling variant (part_001, second document) *)
Module Lobby.

(** [setupConnection], the part that runs at once; the [open], [data],
    [close] and [error] callbacks it registers run as later events. *)
Definition setupConnection (conn : DataConnection)
    (metadata : option ConnectionMetadata) (s : State) : State :=
  match metadata with
  | Some random =>
      let s := setMainConnRef (Some conn) s in
      let s := setPartnerPeerId (Some (peer conn)) s in
      let s := setIsMatchmakerRef false s in
      track_status busy s
  | _ =>
      let s := setDirectConnsRef (<[peer conn := conn]> (directConnsRef s)) s in
      setActiveDirectConnections ({[peer conn]} ∪ activeDirectConnections s) s
  end.

(** The waiters the matchmaking interval looks at (lines 743-745). *)
Definition waiters (myId : string) (users : list PresenceState) : list PresenceState :=
  sort_by p_timestamp
    (filter (λ u, p_status u = waiting ∧ p_peerId u ≠ myId) users).

(** One run of the matchmaking interval (lines 735-786).  The interval
    exists only while the guard of the enclosing effect holds. *)
Definition matchTick (r : ConnectResult) (s : State) : State :=
  match myPeerId s with
  | Some myId =>
      if bool_decide (status s = SEARCHING) && truthy (myPeerId s)
         && bool_decide (is_Some (channelRef s))
         && negb (isMatchmakerRef s) && bool_decide (mainConnRef s = None)
      then
        match waiters myId (onlineUsers s) with
        | target :: _ =>
            let s := setIsMatchmakerRef true s in
            match peerRef s with
            | Some _ =>
                let s := effect (Connect (p_peerId target) (Some random)) s in
                match r with
                | Returned ref =>
                    let conn := mkConn ref (p_peerId target) in
                    let s := setupConnection conn (Some random) s in
                    let s := clearTimeoutRef (connectionTimeoutRef s) s in
                    let '(k, s) := setTimeout MatchTimeout 5000 s in
                    setConnectionTimeoutRef (Some k) s
                | ReturnedUndefined => setIsMatchmakerRef false s
                | Threw => setIsMatchmakerRef false s
                end
            | None => setIsMatchmakerRef false s
            end
        | [] => s
        end
      else s
  | None => s
  end.

(** [cleanupMain] (lines 842-876) *)
Definition cleanupMain (s : State) : State :=
  let s :=
    match mainConnRef s with
    | Some c => snd (setTimeout CloseMain 100 (send c Ddisconnect s))
    | None => setMainConnRef None s
    end in
  let s := clearTimeoutRef (connectionTimeoutRef s) s in
  let s := clearTimeoutRef (typingTimeoutRef s) s in
  let s := clearTimeoutRef (recordingTimeoutRef s) s in
  let s := setIsMatchmakerRef false s in
  let s := setPartnerTyping false s in
  let s := setPartnerRecording false s in
  let s := setPartnerPeerId None s in
  let s := setPartnerProfile None s in
  let s := setRemoteVanishMode None s in
  let s := track_status idle s in
  setStatus DISCONNECTED s.

(** [disconnect] (lines 1054-1057) *)
Definition disconnect (s : State) : State :=
  setMessages [] (cleanupMain s).

(** The [reaction] branch, per message (line 962): the reaction is
    appended to the referenced message. *)
Definition react (payload : string) (messageId : option string)
    (m : Message) : Message :=
  if id_matches messageId m
  then with_reactions (default [] (m_reactions m) ++ [mkReaction payload stranger]) m
  else m.

(** [handleIncomingData] (lines 880-969) *)
Definition handleIncomingData (data : PeerData) (conn : DataConnection)
    (s : State) : State :=
  let isMain := is_main conn s in
  match data with
  | Dmessage payload dataType id =>
      let msgId := or_else id (toString (now s)) in
      let newMessage :=
        mkMessage msgId stranger (now s) (default text dataType) (Some [])
          (if is_media dataType then None else Some payload)
          (if is_media dataType then Some payload else None)
          (Some sent) None in
      if isMain then
        let s := setMessages (messages s ++ [newMessage]) s in
        let s := setPartnerTyping false s in
        send conn (Dseen (Some msgId)) s
      else
        let s := setIncomingDirectMessage
                   (Some (mkDirectMessage (peer conn) newMessage)) s in
        send conn (Dseen (Some msgId)) s
  | Dseen messageId =>
      if isMain then
        setMessages (mark_seen messageId <$> messages s) s
      else s
  | Dtyping payload =>
      if isMain then setPartnerTyping payload s
      else setIncomingDirectStatus
             (Some (mkDirectStatus (peer conn) typing payload)) s
  | Drecording payload =>
      if isMain then setPartnerRecording payload s
      else setIncomingDirectStatus
             (Some (mkDirectStatus (peer conn) recording payload)) s
  | Dprofile payload =>
      let s := saveToRecent payload (peer conn) s in
      if isMain then
        let s := setPartnerProfile (Some payload) s in
        setMessages (patch_greeting payload <$> messages s) s
      else s
  | Dfriend_request payload => enqueue_request payload conn s
  | Dfriend_accept payload => saveFriend payload (peer conn) s
  | Ddisconnect =>
      if isMain then
        let s := setStatus DISCONNECTED s in
        let s := setMessages [] s in
        let s := setPartnerPeerId None s in
        close_main s
      else
        let s := setDirectConnsRef (delete (peer conn) (directConnsRef s)) s in
        setActiveDirectConnections (activeDirectConnections s ∖ {[peer conn]}) s
  | Dvanish_mode payload =>
      if isMain then setRemoteVanishMode (Some payload) s else s
  | Dreaction payload messageId =>
      match messageId with
      | Some mid =>
          if truthy messageId then
            let s := setIncomingReaction
                       (Some (mkReactionEvent (Some (peer conn)) mid payload stranger)) s in
            if isMain then
              setMessages (react payload messageId <$> messages s) s
            else s
          else s
      | None => s
      end
  | Dedit_message payload messageId =>
      if isMain then
        setMessages (apply_edit payload messageId <$> messages s) s
      else s
  | Dother _ => s
  end.

Definition step (e : Event) (s : State) : State :=
  match e with
  | Data data conn _ => handleIncomingData data conn s
  | Advance dt => advance dt s
  | Disconnect => disconnect s
  | PresenceSync _ allUsers _ => setOnlineUsers allUsers s
  | MatchTick r => matchTick r s
  | FriendsPresence => s
  | CallSaveToRecent p peerId => saveToRecent p peerId s
  | CallSaveFriend p peerId => saveFriend p peerId s
  | RemoveFriend peerId => removeFriend peerId s
  | RejectFriendRequest peerId => rejectFriendRequest peerId s
  | StorageQuota full => setStorageFull full s
  end.

Definition run (es : list Event) (s : State) : State := fold_left (λ st e, step e st) es s.

End Lobby.

(** ** The join-on-connect variant (part_002, first document) *)
Module Join.

(** [setupConnection] (lines 340-395), the part that runs at once. *)
Definition setupConnection (conn : DataConnection)
    (metadata : option ConnectionMetadata) (s : State) : State :=
  let s :=
    match connectionTimeoutRef s with
    | Some k => setConnectionTimeoutRef None (clearTimeout k s)
    | None => s
    end in
  (* metadata?.type === 'random' || (!metadata && isMatchmakerRef.current) *)
  if bool_decide (metadata = Some random)
     || (bool_decide (metadata = None) && isMatchmakerRef s)
  then
    let s := setMainConnRef (Some conn) s in
    let s := setIsMatchmakerRef false s in
    let s := setIsConnectingRef false s in
    let s := setPartnerPeerId (Some (peer conn)) s in
    track_status busy s
  else
    setDirectConnsRef (<[peer conn := conn]> (directConnsRef s)) s.

(** [sortedWaiters] of the presence handler (lines 484-486). *)
Definition sortedWaiters (allUsers : list PresenceState) : list PresenceState :=
  sort_by p_timestamp (filter (λ u, p_status u = waiting) allUsers).

(** The presence [sync] handler that [joinLobby] registers
    (lines 477-523); [myId] is the argument of [joinLobby]. *)
Definition onPresenceSync (myId : string) (allUsers : list PresenceState)
    (r : ConnectResult) (s : State) : State :=
  let s := setOnlineUsers allUsers s in
  if isMatchmakerRef s || main_open s then s
  else
    match head (sortedWaiters allUsers) with
    | Some oldestWaiter =>
        if bool_decide (p_peerId oldestWaiter ≠ myId) then
          let s := setIsMatchmakerRef true s in
          match peerRef s with
          | Some _ =>
              let s := effect (Connect (p_peerId oldestWaiter) (Some random)) s in
              match r with
              | Returned ref =>
                  let conn := mkConn ref (p_peerId oldestWaiter) in
                  let s := setupConnection conn (Some random) s in
                  let s := clearTimeoutRef (connectionTimeoutRef s) s in
                  let '(k, s) := setTimeout MatchTimeout 6000 s in
                  setConnectionTimeoutRef (Some k) s
              | ReturnedUndefined => setIsMatchmakerRef false s
              | Threw => setIsMatchmakerRef false s
              end
          | None => setIsMatchmakerRef false s
          end
        else s
    | None => s
    end.

(** [cleanupMain] (lines 170-206) *)
Definition cleanupMain (s : State) : State :=
  let s :=
    match channelRef s with
    | Some _ => setChannelRef None (effect RemoveChannel (effect Untrack s))
    | None => s
    end in
  let s :=
    match mainConnRef s with
    | Some c => snd (setTimeout CloseMain 100 (send c Ddisconnect s))
    | None => setMainConnRef None s
    end in
  let s :=
    match connectionTimeoutRef s with
    | Some k => setConnectionTimeoutRef None (clearTimeout k s)
    | None => s
    end in
  let s := setIsMatchmakerRef false s in
  let s := setIsConnectingRef false s in
  let s := setPartnerTyping false s in
  let s := setPartnerRecording false s in
  let s := setStatus DISCONNECTED s in
  let s := setPartnerPeerId None s in
  let s := clearTimeoutRef (typingTimeoutRef s) s in
  clearTimeoutRef (recordingTimeoutRef s) s.

(** [disconnect] (lines 799-805) *)
Definition disconnect (s : State) : State :=
  let s :=
    match partnerProfile s, mainConnRef s with
    | Some p, Some c =>
        if bool_decide (peer c ≠ "") then saveToRecent p (peer c) s else s
    | _, _ => s
    end in
  setMessages [] (cleanupMain s).

(** The [reaction] branch, per message (lines 253-259): a message that
    already carries this emoji from the stranger is returned as it is. *)
Definition react (payload : string) (messageId : option string)
    (m : Message) : Message :=
  if id_matches messageId m then
    if decide (Exists (λ r, r_sender r = stranger ∧ emoji r = payload)
                 (default [] (m_reactions m)))
    then m
    else with_reactions (default [] (m_reactions m) ++ [mkReaction payload stranger]) m
  else m.

(** [handleIncomingData] (lines 209-337); [rnd] is
    [Math.random().toString()]. *)
Definition handleIncomingData (rnd : string) (data : PeerData)
    (conn : DataConnection) (s : State) : State :=
  let isMain := is_main conn s in
  match data with
  | Dmessage payload dataType id =>
      let msgId := or_else id (toString (now s) +:+ rnd) in
      let newMessage :=
        mkMessage msgId stranger (now s) (default text dataType) (Some [])
          (if is_media dataType then None else Some payload)
          (if is_media dataType then Some payload else None)
          None None in
      if isMain then
        let s := setPartnerTyping false s in
        let s := setPartnerRecording false s in
        let s := clearTimeoutRef (typingTimeoutRef s) s in
        let s := clearTimeoutRef (recordingTimeoutRef s) s in
        let s := setMessages (messages s ++ [newMessage]) s in
        send conn (Dseen (Some msgId)) s
      else
        setIncomingDirectMessage
          (Some (mkDirectMessage (peer conn) newMessage)) s
  | Dseen messageId =>
      if isMain && truthy messageId then
        setMessages (mark_seen messageId <$> messages s) s
      else s
  | Dreaction payload messageId =>
      match messageId with
      | Some mid =>
          if truthy messageId then
            let s := setIncomingReaction
                       (Some (mkReactionEvent None mid payload stranger)) s in
            if isMain then
              setMessages (react payload messageId <$> messages s) s
            else s
          else s
      | None => s
      end
  | Dedit_message payload messageId =>
      if isMain then
        setMessages (apply_edit payload messageId <$> messages s) s
      else s
  | Dtyping payload =>
      if isMain then
        let s := setPartnerTyping payload s in
        let s := clearTimeoutRef (typingTimeoutRef s) s in
        if payload then
          let '(k, s) := setTimeout ClearTyping 4000 s in
          setTypingTimeoutRef (Some k) s
        else s
      else setIncomingDirectStatus
             (Some (mkDirectStatus (peer conn) typing payload)) s
  | Drecording payload =>
      if isMain then
        let s := setPartnerRecording payload s in
        let s := clearTimeoutRef (recordingTimeoutRef s) s in
        if payload then
          let '(k, s) := setTimeout ClearRecording 4000 s in
          setRecordingTimeoutRef (Some k) s
        else s
      else setIncomingDirectStatus
             (Some (mkDirectStatus (peer conn) recording payload)) s
  | Dprofile payload =>
      if isMain then
        let s := setPartnerProfile (Some payload) s in
        let s := saveToRecent payload (peer conn) s in
        setMessages (patch_greeting payload <$> messages s) s
      else saveToRecent payload (peer conn) s
  | Dvanish_mode payload =>
      if isMain then setRemoteVanishMode (Some payload) s else s
  | Dfriend_request payload => enqueue_request payload conn s
  | Dfriend_accept payload => saveFriend payload (peer conn) s
  | Ddisconnect =>
      if isMain then
        let s := setStatus DISCONNECTED s in
        let s := setMessages [] s in
        let s := close_main s in
        setPartnerPeerId None s
      else setDirectConnsRef (delete (peer conn) (directConnsRef s)) s
  | Dother _ => s
  end.

(** The effect that refreshes [lastSeen] of online friends
    (lines 71-92); its [localStorage.setItem] is not guarded. *)
Definition updateFriendsPresence (s : State) : State :=
  match onlineUsers s, friends s with
  | [], _ => s
  | _, [] => s
  | _, _ =>
      let stale (f : Friend) : bool :=
        bool_decide (f_id f ∈ p_peerId <$> onlineUsers s)
        && bool_decide (60000 < now s - lastSeen f) in
      let newFriends :=
        (λ f, if stale f
              then mkFriend (f_id f) (f_profile f) (addedAt f) (now s)
              else f) <$> friends s in
      if existsb stale (friends s) then
        let s := setFriends newFriends s in
        default s (setItem_chat_friends newFriends s)
      else s
  end.

Definition step (e : Event) (s : State) : State :=
  match e with
  | Data data conn rnd => handleIncomingData rnd data conn s
  | Advance dt => advance dt s
  | Disconnect => disconnect s
  | PresenceSync myId allUsers r => onPresenceSync myId allUsers r s
  | MatchTick _ => s
  | FriendsPresence => updateFriendsPresence s
  | CallSaveToRecent p peerId => saveToRecent p peerId s
  | CallSaveFriend p peerId => saveFriend p peerId s
  | RemoveFriend peerId => removeFriend peerId s
  | RejectFriendRequest peerId => rejectFriendRequest peerId s
  | StorageQuota full => setStorageFull full s
  end.

Definition run (es : list Event) (s : State) : State := fold_left (λ st e, step e st) es s.

End Join.

(** * Properties *)

(** ** The stable sort *)

Section StableSortFacts.
Context {A : Type} (key : A → Z).

Definition key_le (a b : A) : Prop := key a ≤ key b.

#[local] Instance key_le_trans : Transitive key_le.
Proof. unfold key_le. intros a b c ? ?. lia. Qed.

(** The first element of smallest key: the spec's "oldest" entry, ties
    going to the entry that comes first. *)
Fixpoint oldest (l : list A) : option A :=
  match l with
  | [] => None
  | x :: l' =>
      match oldest l' with
      | Some y => if decide (key x ≤ key y) then Some x else Some y
      | None => Some x
      end
  end.

Lemma insert_by_perm x l : insert_by key x l ≡ₚ x :: l.
Proof.
  induction l as [|y l IH]; simpl; [done|].
  case_decide; [done|]. rewrite IH. apply Permutation_swap.
Qed.

Lemma sort_by_perm l : sort_by key l ≡ₚ l.
Proof.
  induction l as [|x l IH]; simpl; [done|].
  by rewrite insert_by_perm, IH.
Qed.

Lemma insert_by_sorted x l :
  Sorted key_le l → Sorted key_le (insert_by key x l).
Proof.
  induction 1 as [|y l Hl IH Hhd]; simpl.
  - repeat constructor.
  - case_decide.
    + constructor; [by constructor|]. by constructor.
    + constructor; [done|].
      destruct Hhd as [|z l Hyz]; simpl.
      * constructor. unfold key_le. lia.
      * case_decide; constructor; unfold key_le in *; lia.
Qed.

Lemma sort_by_sorted l : Sorted key_le (sort_by key l).
Proof.
  induction l as [|x l IH]; simpl; [constructor|].
  by apply insert_by_sorted.
Qed.

Lemma insert_by_stable t x l :
  filter (λ a, key a = t) (insert_by key x l) = filter (λ a, key a = t) (x :: l).
Proof.
  induction l as [|y l IH]; simpl; [done|].
  case_decide as Hxy; [done|].
  rewrite (filter_cons _ y), IH, !filter_cons.
  repeat case_decide; try done; lia.
Qed.

Lemma sort_by_stable t l :
  filter (λ a, key a = t) (sort_by key l) = filter (λ a, key a = t) l.
Proof.
  induction l as [|x l IH]; simpl; [done|].
  by rewrite insert_by_stable, !filter_cons, IH.
Qed.

Lemma head_insert_by x l :
  head (insert_by key x l) =
  Some (match head l with
        | Some y => if decide (key x ≤ key y) then x else y
        | None => x
        end).
Proof. destruct l as [|y l]; simpl; [done|]. by case_decide. Qed.

Lemma head_sort_by l : head (sort_by key l) = oldest l.
Proof.
  induction l as [|x l IH]; simpl; [done|].
  rewrite head_insert_by, IH. destruct (oldest l); [|done]. by case_decide.
Qed.

Lemma oldest_None l : oldest l = None ↔ l = [].
Proof.
  destruct l as [|x l]; simpl; [done|].
  split; [|done]. destruct (oldest l); [case_decide|]; done.
Qed.

(** [oldest] picks an entry of smallest key, and the first of them. *)
Lemma oldest_Some l u :
  oldest l = Some u ↔
  ∃ l1 l2, l = l1 ++ u :: l2
           ∧ (∀ v, v ∈ l1 → key u < key v) ∧ (∀ v, v ∈ l2 → key u ≤ key v).
Proof.
  revert u. induction l as [|x l IH]; intros u; simpl.
  - split; [done|]. intros (l1 & l2 & Hl & _). by destruct l1.
  - destruct (oldest l) as [y|] eqn:Hy.
    + pose proof (proj1 (IH y) eq_refl) as (k1 & k2 & -> & Hk1 & Hk2).
      case_decide as Hxy; split.
      * intros [= <-]. exists [], (k1 ++ y :: k2). split; [done|].
        split; [by intros ? ?%elem_of_nil|].
        intros v [Hv|[->|Hv]%elem_of_cons]%elem_of_app.
        -- specialize (Hk1 v Hv). lia.
        -- done.
        -- specialize (Hk2 v Hv). lia.
      * intros (l1 & l2 & Heq & H1 & H2).
        destruct l1 as [|x' l1]; simpl in Heq; injection Heq as -> Heq; [done|].
        assert (u ∈ k1 ++ y :: k2) as Hu
          by (rewrite Heq; apply elem_of_app; right; left).
        assert (x' ∈ x' :: l1) as Hx by left.
        specialize (H1 x' Hx).
        apply elem_of_app in Hu as [Hu|[->|Hu]%elem_of_cons].
        -- specialize (Hk1 u Hu). lia.
        -- lia.
        -- specialize (Hk2 u Hu). lia.
      * intros [= <-]. exists (x :: k1), k2. split; [done|]. split; [|done].
        intros v [->|Hv]%elem_of_cons; [lia|by apply Hk1].
      * intros (l1 & l2 & Heq & H1 & H2).
        destruct l1 as [|x' l1]; simpl in Heq; injection Heq as -> Heq.
        -- assert (y ∈ k1 ++ y :: k2) as Hyin by (apply elem_of_app; right; left).
           rewrite Heq in Hyin. specialize (H2 y Hyin). lia.
        -- apply IH.
           exists l1, l2. split; [done|]. split; [|done].
           intros v Hv. apply H1. by right.
    + apply oldest_None in Hy as ->. split.
      * intros [= <-]. exists [], []. split; [done|].
        split; by intros ? ?%elem_of_nil.
      * intros (l1 & l2 & Heq & _).
        destruct l1 as [|x' l1]; simpl in Heq; injection Heq as -> Heq; [done|].
        by destruct l1.
Qed.

(** Two sorts of the same entries agree when no two entries share a key. *)
Lemma sort_by_unique l1 l2 :
  l1 ≡ₚ l2 → NoDup (key <$> l1) → sort_by key l1 = sort_by key l2.
Proof.
  intros Hp Hnd.
  apply (Sorted_unique_strong key_le); [|apply sort_by_sorted..|].
  - intros x1 x2 Hx1 Hx2 H12 H21. unfold key_le in *.
    rewrite sort_by_perm in Hx1. rewrite sort_by_perm, <- Hp in Hx2.
    assert (key x1 = key x2) as Hk by lia. clear H12 H21.
    induction l1 as [|a l1 IH] in Hnd, Hx1, Hx2 |- *; [by apply elem_of_nil in Hx1|].
    rewrite fmap_cons in Hnd. apply NoDup_cons in Hnd as [Hna Hnd].
    apply elem_of_cons in Hx1 as [->|Hx1]; apply elem_of_cons in Hx2 as [->|Hx2].
    + done.
    + exfalso. apply Hna. rewrite Hk. by apply list_elem_of_fmap_2.
    + exfalso. apply Hna. rewrite <- Hk. by apply list_elem_of_fmap_2.
    + by apply IH.
  - by rewrite !sort_by_perm.
Qed.
End StableSortFacts.

(** ** The order of the waiting peers *)

Definition is_waiting (u : PresenceState) : Prop := p_status u = waiting.

Definition by_timestamp (a b : PresenceState) : Prop := p_timestamp a ≤ p_timestamp b.

Lemma waiters_as_filter myId users :
  Lobby.waiters myId users =
  sort_by p_timestamp (filter (λ u, p_peerId u ≠ myId) (filter is_waiting users)).
Proof.
  unfold Lobby.waiters. f_equal. rewrite list_filter_filter.
  apply list_filter_iff. unfold is_waiting. tauto.
Qed.

Definition snapshot_ab : list PresenceState :=
  [mkPresence "a" waiting 100 None; mkPresence "b" waiting 100 None].

Definition snapshot_ba : list PresenceState :=
  [mkPresence "b" waiting 100 None; mkPresence "a" waiting 100 None].

(** C3, counterexample.  Two snapshots with the same two waiting entries
    of equal timestamp, listed in different order: both variants order the
    waiters differently for the two, and for the second one "b" comes
    before "a" although "a" is the smaller string. *)
Lemma waiters_order_follows_snapshot :
  snapshot_ab ≡ₚ snapshot_ba
  ∧ Join.sortedWaiters snapshot_ab ≠ Join.sortedWaiters snapshot_ba
  ∧ Lobby.waiters "me" snapshot_ab ≠ Lobby.waiters "me" snapshot_ba
  ∧ p_peerId <$> Join.sortedWaiters snapshot_ba = ["b"; "a"]
  ∧ p_peerId <$> Lobby.waiters "me" snapshot_ba = ["b"; "a"]
  ∧ String.ltb "a" "b" = true.
Proof.
  split; [apply Permutation_swap|].
  repeat split; try reflexivity; vm_compute; discriminate.
Qed.

(** C3, as amended.  The matchmaking sort of either variant returns the
    waiting entries (in the polling variant: those of other peers) in
    ascending order of timestamp; entries of equal timestamp keep the
    order they have in the snapshot, whatever their peer ids; and two
    snapshots with the same entries are ordered alike whenever no two
    waiting entries share a timestamp. *)
Theorem waiters_sorted_stable (myId : string) (users : list PresenceState) :
  Sorted by_timestamp (Join.sortedWaiters users)
  ∧ Join.sortedWaiters users ≡ₚ filter is_waiting users
  ∧ (∀ t, filter (λ u, p_timestamp u = t) (Join.sortedWaiters users)
          = filter (λ u, p_timestamp u = t) (filter is_waiting users))
  ∧ Sorted by_timestamp (Lobby.waiters myId users)
  ∧ Lobby.waiters myId users
      ≡ₚ filter (λ u, p_peerId u ≠ myId) (filter is_waiting users)
  ∧ (∀ t, filter (λ u, p_timestamp u = t) (Lobby.waiters myId users)
          = filter (λ u, p_timestamp u = t)
              (filter (λ u, p_peerId u ≠ myId) (filter is_waiting users)))
  ∧ (∀ users',
       users ≡ₚ users' →
       NoDup (p_timestamp <$> filter is_waiting users) →
       Join.sortedWaiters users = Join.sortedWaiters users'
       ∧ Lobby.waiters myId users = Lobby.waiters myId users').
Proof.
  rewrite waiters_as_filter. unfold Join.sortedWaiters. fold is_waiting.
  split; [apply (sort_by_sorted p_timestamp)|].
  split; [apply sort_by_perm|].
  split; [intros t; apply sort_by_stable|].
  split; [apply (sort_by_sorted p_timestamp)|].
  split; [apply sort_by_perm|].
  split; [intros t; apply sort_by_stable|].
  intros users' Hp Hnd. rewrite waiters_as_filter. split.
  - apply sort_by_unique; [by rewrite Hp|done].
  - apply sort_by_unique; [by rewrite Hp|].
    eapply sublist_NoDup; [exact Hnd|].
    apply fmap_sublist, sublist_filter.
Qed.

Lemma waiters_sorted_stable_witness :
  let users := [mkPresence "b" waiting 200 None; mkPresence "a" waiting 100 None] in
  let users' := [mkPresence "a" waiting 100 None; mkPresence "b" waiting 200 None] in
  Join.sortedWaiters users = Join.sortedWaiters users'
  ∧ Lobby.waiters "me" users = Lobby.waiters "me" users'.
Proof.
  intros users users'.
  apply (waiters_sorted_stable "me" users).
  - apply Permutation_swap.
  - apply (bool_decide_unpack _). reflexivity.
Defined.

(** ** Who initiates a connection attempt *)

(** The calls to [peer.connect] in a log of effects. *)
Definition connect_call (e : Effect) : option (string * option ConnectionMetadata) :=
  match e with
  | Connect target metadata => Some (target, metadata)
  | _ => None
  end.

Definition connect_calls (es : list Effect) : list (string * option ConnectionMetadata) :=
  omap connect_call es.

Lemma connect_calls_app es1 es2 :
  connect_calls (es1 ++ es2) = connect_calls es1 ++ connect_calls es2.
Proof. apply omap_app. Qed.

Lemma effects_clearTimeoutRef r s : effects (clearTimeoutRef r s) = effects s.
Proof. by destruct r. Qed.

Lemma connect_calls_track st s :
  connect_calls (effects (track_status st s)) = connect_calls (effects s).
Proof.
  unfold track_status. destruct (channelRef s), (myPeerIdRef s); simpl; try done.
  rewrite connect_calls_app. simpl. by rewrite app_nil_r.
Qed.

Lemma connect_calls_Join_setup conn md s :
  connect_calls (effects (Join.setupConnection conn md s)) = connect_calls (effects s).
Proof.
  unfold Join.setupConnection.
  destruct (connectionTimeoutRef s); simpl;
    case_match; simpl; by rewrite ?connect_calls_track.
Qed.

Lemma connect_calls_Lobby_setup conn md s :
  connect_calls (effects (Lobby.setupConnection conn md s)) = connect_calls (effects s).
Proof.
  unfold Lobby.setupConnection.
  destruct md as [[]|]; simpl; by rewrite ?connect_calls_track.
Qed.

(** The attempt each variant makes on a snapshot, in the words of the
    claim: the join variant looks at the oldest waiting entry and skips
    it when it is its own; the polling variant looks at the oldest
    waiting entry among the other peers. *)
Definition Join_attempt (myId : string) (users : list PresenceState)
    : list (string * option ConnectionMetadata) :=
  match oldest p_timestamp (filter is_waiting users) with
  | Some u => if decide (p_peerId u ≠ myId) then [(p_peerId u, Some random)] else []
  | None => []
  end.

Definition Lobby_attempt (myId : string) (users : list PresenceState)
    : list (string * option ConnectionMetadata) :=
  match oldest p_timestamp
          (filter (λ u, p_peerId u ≠ myId) (filter is_waiting users)) with
  | Some u => [(p_peerId u, Some random)]
  | None => []
  end.

Lemma effects_setTimeout a d s : effects (snd (setTimeout a d s)) = effects s.
Proof. reflexivity. Qed.

Lemma effects_arm_connection a d s :
  effects (let '(k, s0) := setTimeout a d s in setConnectionTimeoutRef (Some k) s0)
  = effects s.
Proof. reflexivity. Qed.

Lemma effects_effect e s : effects (effect e s) = effects s ++ [e].
Proof. reflexivity. Qed.

Lemma Join_sync_attempt myId allUsers r s :
  isMatchmakerRef s = false →
  main_open s = false →
  is_Some (peerRef s) →
  connect_calls (effects (Join.onPresenceSync myId allUsers r s))
  = connect_calls (effects s) ++ Join_attempt myId allUsers.
Proof.
  intros Hm Ho [p Hp]. unfold Join.onPresenceSync, Join_attempt. cbv zeta.
  change (isMatchmakerRef (setOnlineUsers allUsers s)) with (isMatchmakerRef s).
  change (main_open (setOnlineUsers allUsers s)) with (main_open s).
  rewrite Hm, Ho. cbn [orb].
  unfold Join.sortedWaiters. rewrite head_sort_by. fold is_waiting.
  destruct (oldest p_timestamp (filter is_waiting allUsers)) as [u|];
    [|by rewrite app_nil_r].
  case_bool_decide; case_decide; try done; [|by rewrite app_nil_r].
  change (peerRef (setIsMatchmakerRef true (setOnlineUsers allUsers s))) with (peerRef s).
  rewrite Hp.
  assert (connect_calls (effects (effect (Connect (p_peerId u) (Some random))
            (setIsMatchmakerRef true (setOnlineUsers allUsers s))))
          = connect_calls (effects s) ++ [(p_peerId u, Some random)]) as He.
  { rewrite effects_effect, connect_calls_app. reflexivity. }
  destruct r.
  - rewrite effects_arm_connection, effects_clearTimeoutRef, connect_calls_Join_setup.
    exact He.
  - exact He.
  - exact He.
Qed.

Lemma Lobby_tick_attempt myId r s :
  status s = SEARCHING →
  myPeerId s = Some myId →
  myId ≠ "" →
  is_Some (channelRef s) →
  isMatchmakerRef s = false →
  mainConnRef s = None →
  is_Some (peerRef s) →
  connect_calls (effects (Lobby.matchTick r s))
  = connect_calls (effects s) ++ Lobby_attempt myId (onlineUsers s).
Proof.
  intros Hst Hid Hne Hch Hm Hc [p Hp]. unfold Lobby.matchTick, Lobby_attempt.
  rewrite Hid, Hst, Hm, Hc. cbn [truthy negb].
  rewrite !bool_decide_true by done. cbn [andb].
  rewrite <- head_sort_by, <- waiters_as_filter.
  destruct (Lobby.waiters myId (onlineUsers s)) as [|target ws]; cbn [head];
    [by rewrite app_nil_r|]. cbv zeta.
  change (peerRef (setIsMatchmakerRef true s)) with (peerRef s).
  rewrite Hp.
  assert (connect_calls (effects (effect (Connect (p_peerId target) (Some random))
            (setIsMatchmakerRef true s)))
          = connect_calls (effects s) ++ [(p_peerId target, Some random)]) as He.
  { rewrite effects_effect, connect_calls_app. reflexivity. }
  destruct r.
  - rewrite effects_arm_connection, effects_clearTimeoutRef, connect_calls_Lobby_setup.
    exact He.
  - exact He.
  - exact He.
Qed.

(** A client of the polling variant that is searching, with itself as the
    oldest waiter and a younger waiter "p2" in the snapshot. *)
Definition lobby_searching : State :=
  setOnlineUsers
    [mkPresence "me" waiting 100 None; mkPresence "p2" waiting 200 None]
    (setStatus SEARCHING
       (setMyPeerId (Some "me")
          (setMyPeerIdRef (Some "me")
             (setChannelRef (Some "me")
                (setPeerRef (Some (mkPeer (Some "me"))) (initial None)))))).

(** C1, counterexample.  In the polling variant the client is searching,
    has no main connection and no attempt in flight, and is itself the
    oldest waiting entry of the snapshot; it still calls [connect], with
    the younger waiter as target. *)
Lemma lobby_oldest_waiter_initiates :
  status lobby_searching = SEARCHING
  ∧ mainConnRef lobby_searching = None
  ∧ isMatchmakerRef lobby_searching = false
  ∧ p_peerId <$> oldest p_timestamp (filter is_waiting (onlineUsers lobby_searching))
    = Some "me"
  ∧ myPeerId lobby_searching = Some "me"
  ∧ connect_calls (effects (Lobby.matchTick (Returned 1) lobby_searching))
    = [("p2", Some random)].
Proof. repeat split; vm_compute; reflexivity. Qed.

(** C1, as amended.  With no attempt in flight and a peer object at hand:
    the join variant, when no main connection is open, calls [connect]
    exactly when the oldest waiting entry of the snapshot belongs to
    another peer, with that peer as target and metadata [random], and
    calls nothing when the snapshot has no waiter or the client is the
    oldest waiter itself; the polling variant, while searching with no
    main connection recorded, calls [connect] exactly when some other
    peer is waiting, with the oldest waiting entry among the other peers
    as target, whether or not the client is itself an older waiter. *)
Theorem matchmaking_attempt (myId : string) (r : ConnectResult) (s : State) :
  isMatchmakerRef s = false →
  is_Some (peerRef s) →
  (∀ allUsers,
     main_open s = false →
     connect_calls (effects (Join.onPresenceSync myId allUsers r s))
     = connect_calls (effects s) ++ Join_attempt myId allUsers)
  ∧ (status s = SEARCHING →
     myPeerId s = Some myId →
     myId ≠ "" →
     is_Some (channelRef s) →
     mainConnRef s = None →
     connect_calls (effects (Lobby.matchTick r s))
     = connect_calls (effects s) ++ Lobby_attempt myId (onlineUsers s)).
Proof.
  intros Hm Hp. split.
  - intros allUsers Ho. by apply Join_sync_attempt.
  - intros. by apply Lobby_tick_attempt.
Qed.

Lemma matchmaking_attempt_witness :
  connect_calls (effects (Join.onPresenceSync "me"
     [mkPresence "p1" waiting 100 None; mkPresence "me" waiting 200 None]
     (Returned 1) lobby_searching))
  = [("p1", Some random)]
  ∧ connect_calls (effects (Lobby.matchTick (Returned 1) lobby_searching))
    = [("p2", Some random)].
Proof.
  assert (isMatchmakerRef lobby_searching = false) as Hm by reflexivity.
  assert (is_Some (peerRef lobby_searching)) as Hp by (eexists; reflexivity).
  destruct (matchmaking_attempt "me" (Returned 1) lobby_searching Hm Hp) as [HJ HL].
  split.
  - rewrite HJ by reflexivity. reflexivity.
  - rewrite HL; try reflexivity; [done|eexists; reflexivity].
Defined.

(** ** Normal forms of the environment primitives

    Each primitive is a chain of setters on its argument, with the case
    distinctions inside the field values. *)

Definition cleared (r : option nat) (ts : list Timer) : list Timer :=
  match r with
  | Some k => filter (λ t, tid t ≠ k) ts
  | None => ts
  end.

Lemma clearTimeoutRef_eq r s :
  clearTimeoutRef r s = setTimers (cleared r (timers s)) s.
Proof. destruct r; [reflexivity|]. by destruct s. Qed.

Definition tracked (st : PresenceStatus) (s : State) : list Effect :=
  match channelRef s, myPeerIdRef s with
  | Some _, Some myId => [Track (mkPresence myId st (now s) (userProfile s))]
  | _, _ => []
  end.

Lemma track_status_eq st s :
  track_status st s = setEffects (effects s ++ tracked st s) s.
Proof.
  unfold track_status, tracked.
  destruct (channelRef s), (myPeerIdRef s); try reflexivity;
    rewrite app_nil_r; by destruct s.
Qed.

(** ** Generated message ids *)

Lemma pretty_N_go_length x s :
  (String.length s ≤ String.length (pretty_N_go x s))%nat.
Proof.
  revert s. induction (N.lt_wf_0 x) as [x _ IH]; intros s.
  destruct (decide (x = 0)%N) as [->|Hx]; [by rewrite pretty_N_go_0|].
  rewrite pretty_N_go_step by lia.
  etrans; [|apply IH; apply N.div_lt; lia]. simpl. lia.
Qed.

Lemma pretty_N_nonempty (x : N) : pretty x ≠ "".
Proof.
  unfold pretty, pretty_N. case_decide; [done|].
  rewrite pretty_N_go_step by lia. intros Heq.
  pose proof (pretty_N_go_length (x `div` 10)
                (String (pretty_N_char (x `mod` 10)) "")) as Hlen.
  rewrite Heq in Hlen. simpl in Hlen. lia.
Qed.

Lemma toString_nonempty n : toString n ≠ "".
Proof.
  unfold toString, pretty, pretty_Z. destruct n as [|p|p]; [done| |done].
  apply pretty_N_nonempty.
Qed.

Lemma toString_append_nonempty n rnd : toString n +:+ rnd ≠ "".
Proof.
  pose proof (toString_nonempty n) as Hn.
  destruct (toString n); [done|]. done.
Qed.

Lemma or_else_present i d : i ≠ "" → or_else (Some i) d = i.
Proof. intros Hi. unfold or_else. by rewrite bool_decide_true. Qed.

Lemma or_else_absent o d : truthy o = false → or_else o d = d.
Proof. destruct o as [i|]; simpl; [|done]. by intros ->. Qed.

(** ** Inbound [message] envelopes *)

(** The message the handlers build for an inbound envelope. *)
Definition inbound (msgId payload : string) (dataType : option DataType)
    (st : option MsgStatus) (t : Z) : Message :=
  mkMessage msgId stranger t (default text dataType) (Some [])
    (if is_media dataType then None else Some payload)
    (if is_media dataType then Some payload else None) st None.

Lemma Lobby_message_main payload dataType id conn s :
  is_main conn s = true →
  let msgId := or_else id (toString (now s)) in
  let s' := Lobby.handleIncomingData (Dmessage payload dataType id) conn s in
  messages s' = messages s ++ [inbound msgId payload dataType (Some sent) (now s)]
  ∧ effects s' = effects s ++ [Send (conn_ref conn) (Dseen (Some msgId))]
  ∧ incomingDirectMessage s' = incomingDirectMessage s.
Proof. intros Hm. cbv zeta. unfold Lobby.handleIncomingData. rewrite Hm. done. Qed.

Lemma Lobby_message_direct payload dataType id conn s :
  is_main conn s = false →
  let msgId := or_else id (toString (now s)) in
  let s' := Lobby.handleIncomingData (Dmessage payload dataType id) conn s in
  incomingDirectMessage s'
  = Some (mkDirectMessage (peer conn)
            (inbound msgId payload dataType (Some sent) (now s)))
  ∧ effects s' = effects s ++ [Send (conn_ref conn) (Dseen (Some msgId))]
  ∧ messages s' = messages s.
Proof. intros Hm. cbv zeta. unfold Lobby.handleIncomingData. rewrite Hm. done. Qed.

Lemma Join_message_main rnd payload dataType id conn s :
  is_main conn s = true →
  let msgId := or_else id (toString (now s) +:+ rnd) in
  let s' := Join.handleIncomingData rnd (Dmessage payload dataType id) conn s in
  messages s' = messages s ++ [inbound msgId payload dataType None (now s)]
  ∧ effects s' = effects s ++ [Send (conn_ref conn) (Dseen (Some msgId))]
  ∧ incomingDirectMessage s' = incomingDirectMessage s.
Proof.
  intros Hm. cbv zeta. unfold Join.handleIncomingData. rewrite Hm.
  cbv zeta. rewrite !clearTimeoutRef_eq. done.
Qed.

Lemma Join_message_direct rnd payload dataType id conn s :
  is_main conn s = false →
  let msgId := or_else id (toString (now s) +:+ rnd) in
  let s' := Join.handleIncomingData rnd (Dmessage payload dataType id) conn s in
  incomingDirectMessage s'
  = Some (mkDirectMessage (peer conn) (inbound msgId payload dataType None (now s)))
  ∧ effects s' = effects s
  ∧ messages s' = messages s.
Proof. intros Hm. cbv zeta. unfold Join.handleIncomingData. rewrite Hm. done. Qed.

Lemma inbound_fields msgId payload dataType st t :
  m_id (inbound msgId payload dataType st t) = msgId
  ∧ m_sender (inbound msgId payload dataType st t) = stranger
  ∧ m_status (inbound msgId payload dataType st t) = st
  ∧ (is_media dataType = false →
     m_text (inbound msgId payload dataType st t) = Some payload).
Proof. repeat split. simpl. by intros ->. Qed.

Definition conn_b : DataConnection := mkConn 7 "peer-b".

(** A connected client whose main connection is [conn_b]. *)
Definition chatting : State :=
  setOpenConns {[7%nat]}
    (setStatus CONNECTED
       (setPartnerPeerId (Some "peer-b")
          (setMainConnRef (Some conn_b) (initial None)))).

(** C2, counterexample.  Scenario B run on the join variant: on the main
    connection the appended message carries no status at all, and on a
    direct connection the message is surfaced but no envelope is sent
    back. *)
Lemma join_message_without_status_or_direct_ack :
  let d := Dmessage "hi" (Some text) (Some "m1") in
  is_main conn_b chatting = true
  ∧ m_status <$> messages (Join.handleIncomingData "0.5" d conn_b chatting) = [None]
  ∧ is_main conn_b (initial None) = false
  ∧ incomingDirectMessage (Join.handleIncomingData "0.5" d conn_b (initial None))
    = Some (mkDirectMessage "peer-b" (inbound "m1" "hi" (Some text) None 0))
  ∧ effects (Join.handleIncomingData "0.5" d conn_b (initial None)) = [].
Proof. repeat split; vm_compute; reflexivity. Qed.

(** C2, as amended.  An inbound [message] envelope with id [i]:
    on the main connection both variants append one stranger message
    with id [i] and the envelope's payload, and send
    [{type: 'seen', messageId: i}] on that connection; the polling
    variant gives the message status [sent], the join variant gives it
    no status.  On a direct connection both variants surface the message
    as an incoming-direct-message event keyed by the sender's peer id
    and leave the history alone; the polling variant sends the same ack,
    the join variant sends nothing. *)
Theorem inbound_message (rnd payload : string) (dataType : option DataType)
    (i : string) (conn : DataConnection) (s : State) :
  i ≠ "" →
  let d := Dmessage payload dataType (Some i) in
  let ack := Send (conn_ref conn) (Dseen (Some i)) in
  let L := Lobby.handleIncomingData d conn s in
  let J := Join.handleIncomingData rnd d conn s in
  (is_main conn s = true →
     messages L = messages s ++ [inbound i payload dataType (Some sent) (now s)]
     ∧ effects L = effects s ++ [ack]
     ∧ messages J = messages s ++ [inbound i payload dataType None (now s)]
     ∧ effects J = effects s ++ [ack])
  ∧ (is_main conn s = false →
     incomingDirectMessage L
     = Some (mkDirectMessage (peer conn)
               (inbound i payload dataType (Some sent) (now s)))
     ∧ messages L = messages s
     ∧ effects L = effects s ++ [ack]
     ∧ incomingDirectMessage J
       = Some (mkDirectMessage (peer conn) (inbound i payload dataType None (now s)))
     ∧ messages J = messages s
     ∧ effects J = effects s).
Proof.
  intros Hi d ack L J. split; intros Hm.
  - destruct (Lobby_message_main payload dataType (Some i) conn s Hm) as (HL1 & HL2 & _).
    destruct (Join_message_main rnd payload dataType (Some i) conn s Hm) as (HJ1 & HJ2 & _).
    rewrite or_else_present in HL1, HL2, HJ1, HJ2 by done. done.
  - destruct (Lobby_message_direct payload dataType (Some i) conn s Hm) as (HL1 & HL2 & HL3).
    destruct (Join_message_direct rnd payload dataType (Some i) conn s Hm) as (HJ1 & HJ2 & HJ3).
    rewrite or_else_present in HL1, HL2, HJ1 by done. done.
Qed.

Lemma inbound_message_witness :
  let d := Dmessage "hi" (Some text) (Some "m1") in
  messages (Lobby.handleIncomingData d conn_b chatting)
  = [inbound "m1" "hi" (Some text) (Some sent) 0]
  ∧ effects (Lobby.handleIncomingData d conn_b chatting)
    = [Send 7 (Dseen (Some "m1"))].
Proof.
  assert ("m1" ≠ "") as Hi by done.
  assert (is_main conn_b chatting = true) as Hm by reflexivity.
  destruct (inbound_message "0.5" "hi" (Some text) "m1" conn_b chatting Hi)
    as [Hmain _].
  destruct (Hmain Hm) as (H1 & H2 & _). split; [exact H1|exact H2].
Defined.

(** ** Inbound [message] envelopes without an id *)

(** C10, counterexample.  A message without id on a direct connection of
    the join variant: it is surfaced under the generated id, and no
    [seen] ack goes out. *)
Lemma join_direct_message_without_id_no_ack :
  let s' := Join.handleIncomingData "0.5" (Dmessage "hi" None None) conn_b (initial None) in
  (m_id ∘ dm_message) <$> incomingDirectMessage s' = Some "00.5"
  ∧ effects s' = [].
Proof. split; vm_compute; reflexivity. Qed.

(** C10, as amended.  An inbound [message] envelope whose id is missing
    (or empty) is handled exactly as the same envelope carrying the
    generated id: the decimal clock reading in the polling variant, the
    clock reading followed by the random suffix in the join variant.  On
    the main connection the message is appended under that id and the
    [seen] ack names it; on a direct connection it is surfaced under that
    id, and the ack, which only the polling variant sends there, names
    it too. *)
Theorem message_without_id (rnd payload : string) (dataType : option DataType)
    (id : option string) (conn : DataConnection) (s : State) :
  truthy id = false →
  let gen1 := toString (now s) in
  let gen2 := toString (now s) +:+ rnd in
  let L := Lobby.handleIncomingData (Dmessage payload dataType id) conn s in
  let J := Join.handleIncomingData rnd (Dmessage payload dataType id) conn s in
  L = Lobby.handleIncomingData (Dmessage payload dataType (Some gen1)) conn s
  ∧ J = Join.handleIncomingData rnd (Dmessage payload dataType (Some gen2)) conn s
  ∧ (is_main conn s = true →
     messages L = messages s ++ [inbound gen1 payload dataType (Some sent) (now s)]
     ∧ effects L = effects s ++ [Send (conn_ref conn) (Dseen (Some gen1))]
     ∧ messages J = messages s ++ [inbound gen2 payload dataType None (now s)]
     ∧ effects J = effects s ++ [Send (conn_ref conn) (Dseen (Some gen2))])
  ∧ (is_main conn s = false →
     incomingDirectMessage L
     = Some (mkDirectMessage (peer conn)
               (inbound gen1 payload dataType (Some sent) (now s)))
     ∧ effects L = effects s ++ [Send (conn_ref conn) (Dseen (Some gen1))]
     ∧ incomingDirectMessage J
       = Some (mkDirectMessage (peer conn)
                 (inbound gen2 payload dataType None (now s)))
     ∧ effects J = effects s).
Proof.
  intros Hid gen1 gen2 L J. split; [|split; [|split]].
  - unfold L, Lobby.handleIncomingData.
    rewrite (or_else_absent id) by done.
    rewrite (or_else_present gen1) by apply toString_nonempty. reflexivity.
  - unfold J, Join.handleIncomingData.
    rewrite (or_else_absent id) by done.
    rewrite (or_else_present gen2) by apply toString_append_nonempty. reflexivity.
  - intros Hm.
    destruct (Lobby_message_main payload dataType id conn s Hm) as (HL1 & HL2 & _).
    destruct (Join_message_main rnd payload dataType id conn s Hm) as (HJ1 & HJ2 & _).
    rewrite or_else_absent in HL1, HL2, HJ1, HJ2 by done. done.
  - intros Hm.
    destruct (Lobby_message_direct payload dataType id conn s Hm) as (HL1 & HL2 & _).
    destruct (Join_message_direct rnd payload dataType id conn s Hm) as (HJ1 & HJ2 & _).
    rewrite or_else_absent in HL1, HL2, HJ1 by done. done.
Qed.

Lemma message_without_id_witness :
  messages (Lobby.handleIncomingData (Dmessage "hi" None None) conn_b chatting)
  = [inbound "0" "hi" None (Some sent) 0]
  ∧ effects (Join.handleIncomingData "0.5" (Dmessage "hi" None None) conn_b chatting)
    = [Send 7 (Dseen (Some "00.5"))].
Proof.
  assert (truthy None = false) as Hid by reflexivity.
  assert (is_main conn_b chatting = true) as Hm by reflexivity.
  destruct (message_without_id "0.5" "hi" None None conn_b chatting Hid)
    as (_ & _ & Hmain & _).
  destruct (Hmain Hm) as (H1 & _ & _ & H4). split; [exact H1|exact H4].
Defined.

(** ** Inbound [reaction], [seen] and [edit_message] envelopes *)

Lemma fmap_unchanged {A} (f : A → A) (l : list A) :
  (∀ x, x ∈ l → f x = x) → f <$> l = l.
Proof.
  induction l as [|x l IH]; intros Hf; [done|].
  rewrite fmap_cons, Hf by left. f_equal. apply IH. intros y Hy. apply Hf. by right.
Qed.

Lemma Join_react_idem payload messageId m :
  Join.react payload messageId (Join.react payload messageId m)
  = Join.react payload messageId m.
Proof.
  set (r := mkReaction payload stranger).
  assert (Join.react payload messageId m = m
          ∨ Join.react payload messageId m
            = with_reactions (default [] (m_reactions m) ++ [r]) m
            ∧ id_matches messageId m = true) as [Hr|[Hr Hid]].
  { unfold Join.react. destruct (id_matches messageId m); [|by left].
    case_decide; [by left|by right]. }
  - by rewrite !Hr.
  - rewrite Hr. unfold Join.react.
    change (id_matches messageId (with_reactions (default [] (m_reactions m) ++ [r]) m))
      with (id_matches messageId m).
    rewrite Hid. rewrite decide_True; [done|].
    simpl. apply Exists_app. right. by constructor.
Qed.

Lemma Join_reaction_messages rnd payload messageId conn s :
  messages (Join.handleIncomingData rnd (Dreaction payload messageId) conn s)
  = if truthy messageId && is_main conn s
    then Join.react payload messageId <$> messages s
    else messages s.
Proof.
  unfold Join.handleIncomingData. destruct messageId as [mid|]; [|done].
  destruct (truthy (Some mid)); [|done]. cbn [andb].
  cbv zeta. by destruct (is_main conn s).
Qed.

Lemma Join_reaction_main rnd payload messageId conn s :
  is_main conn (Join.handleIncomingData rnd (Dreaction payload messageId) conn s)
  = is_main conn s.
Proof.
  unfold Join.handleIncomingData. destruct messageId as [mid|]; [|done].
  destruct (truthy (Some mid)); [|done].
  cbv zeta. by destruct (is_main conn s) eqn:Hm.
Qed.

(** The join variant: handling the same [reaction] envelope a second
    time leaves the history as the first handling made it. *)
Lemma Join_reaction_idempotent rnd payload messageId conn s :
  let h := Join.handleIncomingData rnd (Dreaction payload messageId) conn in
  messages (h (h s)) = messages (h s).
Proof.
  cbv zeta. rewrite (Join_reaction_messages _ _ _ _ (Join.handleIncomingData _ _ _ _)).
  rewrite Join_reaction_main, Join_reaction_messages.
  destruct (truthy messageId && is_main conn s); [|done].
  rewrite <- list_fmap_compose. apply list_fmap_ext.
  intros ? m _. apply Join_react_idem.
Qed.

Definition hello : Message := inbound "m1" "hi" (Some text) (Some sent) 0.

(** C4.  The polling variant at the failing input: the main history
    holds the message "m1", and the envelope
    [{type: 'reaction', payload: "+1", messageId: "m1"}] arrives twice on
    the main connection.  After the first it carries the reaction once,
    after the second twice. *)
Theorem lobby_reaction_twice_duplicates :
  let s := setMessages [hello] chatting in
  let h := Lobby.handleIncomingData (Dreaction "+1" (Some "m1")) conn_b in
  m_reactions <$> messages (h s) = [Some [mkReaction "+1" stranger]]
  ∧ m_reactions <$> messages (h (h s))
    = [Some [mkReaction "+1" stranger; mkReaction "+1" stranger]]
  ∧ messages (h (h s)) ≠ messages (h s).
Proof. repeat split; vm_compute; [reflexivity..|discriminate]. Qed.

(** No message of the history has the id the envelope refers to; an
    envelope without [messageId] refers to none. *)
Definition unreferenced (messageId : option string) (l : list Message) : Prop :=
  ∀ m, m ∈ l → messageId ≠ Some (m_id m).

Lemma id_matches_unreferenced messageId l m :
  unreferenced messageId l → m ∈ l → id_matches messageId m = false.
Proof. intros Hu Hm. apply bool_decide_eq_false. by apply Hu. Qed.

Lemma mark_seen_unreferenced messageId l :
  unreferenced messageId l → mark_seen messageId <$> l = l.
Proof.
  intros Hu. apply fmap_unchanged. intros m Hm.
  unfold mark_seen. by rewrite (id_matches_unreferenced _ l).
Qed.

Lemma Lobby_react_unreferenced payload messageId l :
  unreferenced messageId l → Lobby.react payload messageId <$> l = l.
Proof.
  intros Hu. apply fmap_unchanged. intros m Hm.
  unfold Lobby.react. by rewrite (id_matches_unreferenced _ l).
Qed.

Lemma Join_react_unreferenced payload messageId l :
  unreferenced messageId l → Join.react payload messageId <$> l = l.
Proof.
  intros Hu. apply fmap_unchanged. intros m Hm.
  unfold Join.react. by rewrite (id_matches_unreferenced _ l).
Qed.

Lemma apply_edit_unreferenced payload messageId l :
  truthy messageId = true →
  unreferenced messageId l → apply_edit payload messageId <$> l = l.
Proof.
  intros Ht Hu. apply fmap_unchanged. intros m Hm.
  unfold apply_edit, edit_applies.
  rewrite Ht, (id_matches_unreferenced _ l) by done.
  by rewrite andb_false_r.
Qed.

(** What an [edit_message] envelope without id does to a message. *)
Definition edit_any (payload : string) (m : Message) : Message :=
  if bool_decide (m_sender m = stranger) && bool_decide (m_type m = text)
  then with_edit payload m
  else m.

Lemma apply_edit_without_id payload messageId m :
  truthy messageId = false → apply_edit payload messageId m = edit_any payload m.
Proof.
  intros Ht. unfold apply_edit, edit_applies, edit_any.
  rewrite Ht. cbn [negb orb]. by rewrite andb_true_r.
Qed.

Lemma Lobby_seen_messages messageId conn s :
  messages (Lobby.handleIncomingData (Dseen messageId) conn s)
  = if is_main conn s then mark_seen messageId <$> messages s else messages s.
Proof. unfold Lobby.handleIncomingData. by destruct (is_main conn s). Qed.

Lemma Join_seen_messages rnd messageId conn s :
  messages (Join.handleIncomingData rnd (Dseen messageId) conn s)
  = if is_main conn s && truthy messageId
    then mark_seen messageId <$> messages s
    else messages s.
Proof.
  unfold Join.handleIncomingData. by destruct (is_main conn s && truthy messageId).
Qed.

Lemma Lobby_reaction_messages payload messageId conn s :
  messages (Lobby.handleIncomingData (Dreaction payload messageId) conn s)
  = if truthy messageId && is_main conn s
    then Lobby.react payload messageId <$> messages s
    else messages s.
Proof.
  unfold Lobby.handleIncomingData. destruct messageId as [mid|]; [|done].
  destruct (truthy (Some mid)); [|done]. cbn [andb].
  cbv zeta. by destruct (is_main conn s).
Qed.

Lemma Lobby_edit_messages payload messageId conn s :
  messages (Lobby.handleIncomingData (Dedit_message payload messageId) conn s)
  = if is_main conn s
    then apply_edit payload messageId <$> messages s
    else messages s.
Proof. unfold Lobby.handleIncomingData. by destruct (is_main conn s). Qed.

Lemma Join_edit_messages rnd payload messageId conn s :
  messages (Join.handleIncomingData rnd (Dedit_message payload messageId) conn s)
  = if is_main conn s
    then apply_edit payload messageId <$> messages s
    else messages s.
Proof. unfold Join.handleIncomingData. by destruct (is_main conn s). Qed.

(** C6, counterexample.  The history holds one text message of the
    stranger; an [edit_message] envelope without [messageId] arrives on
    the main connection.  Both variants rewrite the message. *)
Lemma edit_without_id_rewrites_history :
  let s := setMessages [hello] chatting in
  let d := Dedit_message "bye" None in
  m_text <$> messages s = [Some "hi"]
  ∧ m_text <$> messages (Lobby.handleIncomingData d conn_b s) = [Some "bye"]
  ∧ m_text <$> messages (Join.handleIncomingData "0.5" d conn_b s) = [Some "bye"]
  ∧ messages (Lobby.handleIncomingData d conn_b s) ≠ messages s
  ∧ messages (Join.handleIncomingData "0.5" d conn_b s) ≠ messages s.
Proof. repeat split; vm_compute; [reflexivity..|discriminate|discriminate]. Qed.

(** C6, as amended.  When no message of the history has the id an
    inbound envelope refers to, or the envelope has no [messageId]:
    [seen] and [reaction] leave the history as it is, in both variants;
    [edit_message] leaves it as it is when the envelope carries a
    non-empty id.  An [edit_message] envelope without id is not ignored:
    on the main connection it rewrites every text message of the
    stranger. *)
Theorem unreferenced_envelope (rnd payload : string) (messageId : option string)
    (conn : DataConnection) (s : State) :
  (unreferenced messageId (messages s) →
     messages (Lobby.handleIncomingData (Dseen messageId) conn s) = messages s
     ∧ messages (Join.handleIncomingData rnd (Dseen messageId) conn s) = messages s
     ∧ messages (Lobby.handleIncomingData (Dreaction payload messageId) conn s)
       = messages s
     ∧ messages (Join.handleIncomingData rnd (Dreaction payload messageId) conn s)
       = messages s
     ∧ (truthy messageId = true →
        messages (Lobby.handleIncomingData (Dedit_message payload messageId) conn s)
        = messages s
        ∧ messages (Join.handleIncomingData rnd (Dedit_message payload messageId) conn s)
          = messages s))
  ∧ (truthy messageId = false →
     is_main conn s = true →
     messages (Lobby.handleIncomingData (Dedit_message payload messageId) conn s)
     = edit_any payload <$> messages s
     ∧ messages (Join.handleIncomingData rnd (Dedit_message payload messageId) conn s)
       = edit_any payload <$> messages s).
Proof.
  split.
  - intros Hu.
    rewrite Lobby_seen_messages, Join_seen_messages, Lobby_reaction_messages,
      Join_reaction_messages, Lobby_edit_messages, Join_edit_messages.
    rewrite mark_seen_unreferenced, Lobby_react_unreferenced,
      Join_react_unreferenced by done.
    repeat split; try by case_match.
    all: rewrite apply_edit_unreferenced by done; by case_match.
  - intros Ht Hm. rewrite Lobby_edit_messages, Join_edit_messages, Hm.
    split; apply list_fmap_ext; intros ? m _; by apply apply_edit_without_id.
Qed.

Lemma unreferenced_envelope_witness :
  let s := setMessages [hello] chatting in
  messages (Lobby.handleIncomingData (Dreaction "+1" (Some "m2")) conn_b s) = [hello]
  ∧ messages (Join.handleIncomingData "0.5" (Dedit_message "bye" (Some "m2")) conn_b s)
    = [hello]
  ∧ messages (Join.handleIncomingData "0.5" (Dedit_message "bye" None) conn_b s)
    = [edit_any "bye" hello].
Proof.
  intros s.
  destruct (unreferenced_envelope "0.5" "+1" (Some "m2") conn_b s) as [H1 _].
  destruct (unreferenced_envelope "0.5" "bye" (Some "m2") conn_b s) as [H2 _].
  destruct (unreferenced_envelope "0.5" "bye" None conn_b s) as [_ H3].
  assert (unreferenced (Some "m2") (messages s)) as Hu.
  { intros m Hm. apply list_elem_of_singleton in Hm as ->. discriminate. }
  destruct (H1 Hu) as (_ & _ & Hr & _).
  destruct (H2 Hu) as (_ & _ & _ & _ & He).
  destruct (He eq_refl) as [_ HeJ].
  destruct (H3 eq_refl eq_refl) as [_ HnJ].
  split; [exact Hr|split; [exact HeJ|exact HnJ]].
Defined.

(** ** Normal forms of the persistence operations *)

(** The list [saveToRecent] writes: the new entry on top of the entries
    of other usernames, cut to 20. *)
Definition recents_after (profile : UserProfile) (peerId : string) (t : Z)
    (old : list RecentPeer) : list RecentPeer :=
  take 20 (mkRecent (toString t) peerId profile t
             :: filter (λ p, username (r_profile p) ≠ username profile) old).

Lemma saveToRecent_eq profile peerId s :
  saveToRecent profile peerId s
  = setRecent_peers
      (if storageFull s then recent_peers s
       else Some (recents_after profile peerId (now s) (default [] (recent_peers s))))
      s.
Proof.
  unfold saveToRecent, setItem_recent_peers, recents_after.
  destruct (storageFull s); [by destruct s|reflexivity].
Qed.

(** [saveFriend] goes through when the peer is not yet in the stored list
    and the write is accepted. *)
Definition friend_saved (peerId : string) (s : State) : bool :=
  negb (bool_decide (Exists (λ f, f_id f = peerId) (default [] (chat_friends s))))
  && negb (storageFull s).

Lemma saveFriend_eq profile peerId s :
  saveFriend profile peerId s
  = let friendList :=
      mkFriend peerId profile (now s) (now s) :: default [] (chat_friends s) in
    setFriendRequests
      (if friend_saved peerId s
       then filter (λ req, fr_peerId req ≠ peerId) (friendRequests s)
       else friendRequests s)
      (setFriends (if friend_saved peerId s then friendList else friends s)
         (setChat_friends
            (if friend_saved peerId s then Some friendList else chat_friends s) s)).
Proof.
  unfold saveFriend, friend_saved, setItem_chat_friends.
  case_decide as Hex.
  - rewrite bool_decide_true by done. by destruct s.
  - rewrite bool_decide_false by done. destruct (storageFull s); [by destruct s|done].
Qed.

Lemma removeFriend_eq peerId s :
  removeFriend peerId s
  = let friendList := filter (λ f, f_id f ≠ peerId) (default [] (chat_friends s)) in
    setFriends (if storageFull s then friends s else friendList)
      (setChat_friends (if storageFull s then chat_friends s else Some friendList) s).
Proof.
  unfold removeFriend, setItem_chat_friends.
  destruct (storageFull s); [by destruct s|done].
Qed.

Lemma enqueue_request_eq p conn s :
  enqueue_request p conn s
  = setFriendRequests
      (if decide (Exists (λ f, f_id f = peer conn) (friends s)) then friendRequests s
       else if decide (Exists (λ req, fr_peerId req = peer conn) (friendRequests s))
            then friendRequests s
            else friendRequests s ++ [mkRequest p (peer conn)]) s.
Proof. unfold enqueue_request. repeat case_decide; try done; by destruct s. Qed.

Lemma updateFriendsPresence_eq s :
  ∃ fs,
    Join.updateFriendsPresence s
    = setChat_friends (if storageFull s then chat_friends s else Some fs)
        (setFriends fs s)
    ∧ f_id <$> fs = f_id <$> friends s
  ∨ Join.updateFriendsPresence s = s.
Proof.
  unfold Join.updateFriendsPresence.
  destruct (onlineUsers s) as [|u us] eqn:Hu; [exists []; by right|].
  destruct (friends s) as [|f fs] eqn:Hf; [exists []; by right|].
  cbv zeta. match goal with |- context [existsb ?g ?l] => destruct (existsb g l) end.
  - eexists. left. split.
    + unfold setItem_chat_friends.
      change (storageFull (setFriends ?v s)) with (storageFull s).
      destruct (storageFull s); [|reflexivity]. simpl.
      match goal with |- setFriends ?v s = _ => by destruct s end.
    + rewrite <- list_fmap_compose. apply list_fmap_ext.
      intros ? x _. simpl. by case_match.
  - exists []. by right.
Qed.

Definition closed_main (s : State) : list Effect :=
  match mainConnRef s with
  | Some c => [Close (conn_ref c)]
  | None => []
  end.

Definition open_after_close (s : State) : gset nat :=
  match mainConnRef s with
  | Some c => openConns s ∖ {[conn_ref c]}
  | None => openConns s
  end.

Lemma close_main_eq s :
  close_main s
  = setMainConnRef None
      (setOpenConns (open_after_close s) (setEffects (effects s ++ closed_main s) s)).
Proof.
  unfold close_main, open_after_close, closed_main.
  destruct (mainConnRef s); [reflexivity|]. rewrite app_nil_r. by destruct s.
Qed.

Ltac normal_forms :=
  rewrite ?clearTimeoutRef_eq, ?track_status_eq, ?saveFriend_eq,
    ?removeFriend_eq, ?enqueue_request_eq, ?close_main_eq, ?saveToRecent_eq.

(** ** What a callback does to the stored lists *)

(** The part of the state the persistence claims are about: the two
    stored lists, the friends cell, the quota flag and the clock. *)
Definition stored (s : State)
    : option (list RecentPeer) * option (list Friend) * list Friend * bool * Z :=
  (recent_peers s, chat_friends s, friends s, storageFull s, now s).

Inductive StoreOp :=
| Keep
| Recent (profile : UserProfile) (peerId : string)
| Befriend (profile : UserProfile) (peerId : string)
| Unfriend (peerId : string)
| Refresh
| Quota (full : bool)
| Elapse (dt : N).

Definition apply_op (op : StoreOp) (s : State) : State :=
  match op with
  | Keep => s
  | Recent p peerId => saveToRecent p peerId s
  | Befriend p peerId => saveFriend p peerId s
  | Unfriend peerId => removeFriend peerId s
  | Refresh => Join.updateFriendsPresence s
  | Quota full => setStorageFull full s
  | Elapse dt => setNow (now s + Z.of_N dt) s
  end.

Lemma stored_fire_all ts s : stored (fire_all ts s) = stored s.
Proof.
  revert s. induction ts as [|t ts IH]; intros s; [done|].
  unfold fire_all in *. simpl. rewrite IH.
  destruct (action t); simpl; try done.
  - by rewrite close_main_eq.
  - by destruct (isMatchmakerRef s && negb (main_open s)).
Qed.

Lemma stored_advance dt s : stored (advance dt s) = stored (apply_op (Elapse dt) s).
Proof. unfold advance. by rewrite stored_fire_all. Qed.

(** Pick the operation a branch of a handler performs on the store. *)
Ltac stored_case s :=
  first
    [ by exists Keep; normal_forms
    | match goal with
      | |- context [saveToRecent ?p ?i _] =>
          by exists (Recent p i); cbn [apply_op]; normal_forms
      | |- context [saveFriend ?p ?i _] =>
          by exists (Befriend p i); cbn [apply_op]; normal_forms
      | |- context [removeFriend ?i _] =>
          by exists (Unfriend i); cbn [apply_op]; normal_forms
      end ].

Lemma Lobby_data_stored data conn s :
  ∃ op, stored (Lobby.handleIncomingData data conn s) = stored (apply_op op s).
Proof.
  destruct data as [| | | | | |? messageId|? messageId| | | |];
    unfold Lobby.handleIncomingData; cbv zeta;
    try (destruct messageId; [destruct (truthy _)|]);
    try (destruct (is_main conn s));
    stored_case s.
Qed.

Lemma Join_data_stored rnd data conn s :
  ∃ op, stored (Join.handleIncomingData rnd data conn s) = stored (apply_op op s).
Proof.
  destruct data as [|messageId|b|b| | |? messageId|? messageId| | | |];
    unfold Join.handleIncomingData; cbv zeta;
    try (destruct messageId; [destruct (truthy _)|]);
    try (destruct b);
    try (destruct (is_main conn s)); cbn [andb];
    stored_case s.
Qed.

(** Read a field through the setters stacked on a state. *)
Ltac read_through p :=
  repeat match goal with
  | |- context [p ?x] =>
      lazymatch x with _ _ => idtac end;
      let v := eval cbn in (p x) in
      let H := fresh in
      assert (p x = v) as H by reflexivity;
      rewrite !H; clear H
  end.

Ltac read_fields :=
  read_through mainConnRef; read_through channelRef;
  read_through connectionTimeoutRef; read_through typingTimeoutRef;
  read_through recordingTimeoutRef; read_through myPeerIdRef;
  read_through myPeerId; read_through peerRef; read_through partnerProfile;
  read_through isMatchmakerRef; read_through storageFull; read_through status.

Lemma Lobby_cleanupMain_stored s : stored (Lobby.cleanupMain s) = stored s.
Proof.
  unfold Lobby.cleanupMain. cbv zeta. normal_forms.
  by destruct (mainConnRef s).
Qed.

Lemma Join_cleanupMain_stored s : stored (Join.cleanupMain s) = stored s.
Proof.
  unfold Join.cleanupMain. cbv zeta. normal_forms.
  destruct (channelRef s); read_fields;
    destruct (mainConnRef s); read_fields;
    destruct (connectionTimeoutRef s); done.
Qed.

Lemma Lobby_setup_stored conn md s :
  stored (Lobby.setupConnection conn md s) = stored s.
Proof. unfold Lobby.setupConnection. destruct md as [[]|]; by normal_forms. Qed.

Lemma Join_setup_stored conn md s :
  stored (Join.setupConnection conn md s) = stored s.
Proof.
  unfold Join.setupConnection. cbv zeta.
  destruct (connectionTimeoutRef s); read_fields;
    case_match; by normal_forms.
Qed.

Lemma stored_arm a d ref s :
  stored (let '(k, s0) := setTimeout a d (clearTimeoutRef ref s) in
          setConnectionTimeoutRef (Some k) s0) = stored s.
Proof. by rewrite clearTimeoutRef_eq. Qed.

Lemma Lobby_matchTick_stored r s : stored (Lobby.matchTick r s) = stored s.
Proof.
  unfold Lobby.matchTick.
  destruct (myPeerId s); [|done]. case_match; [|done].
  destruct (Lobby.waiters _ _); [done|]. cbv zeta. read_fields.
  destruct (peerRef s); [|done].
  destruct r; try done.
  by rewrite stored_arm, Lobby_setup_stored.
Qed.

Lemma Join_sync_stored myId allUsers r s :
  stored (Join.onPresenceSync myId allUsers r s) = stored s.
Proof.
  unfold Join.onPresenceSync. cbv zeta. case_match; [done|].
  destruct (head _); [|done]. case_match; [|done]. read_fields.
  destruct (peerRef s); [|done].
  destruct r; try done.
  by rewrite stored_arm, Join_setup_stored.
Qed.

Lemma stored_setMessages v s : stored (setMessages v s) = stored s.
Proof. reflexivity. Qed.

Lemma Join_disconnect_stored s :
  ∃ op, stored (Join.disconnect s) = stored (apply_op op s).
Proof.
  unfold Join.disconnect. cbv zeta. rewrite stored_setMessages, Join_cleanupMain_stored.
  destruct (partnerProfile s) as [p|]; [|by exists Keep].
  destruct (mainConnRef s) as [c|]; [|by exists Keep].
  case_bool_decide; [by exists (Recent p (peer c))|by exists Keep].
Qed.

Lemma Lobby_step_stored e s :
  ∃ op, stored (Lobby.step e s) = stored (apply_op op s).
Proof.
  destruct e; simpl.
  - apply Lobby_data_stored.
  - exists (Elapse dt). apply stored_advance.
  - exists Keep. unfold Lobby.disconnect.
    by rewrite stored_setMessages, Lobby_cleanupMain_stored.
  - by exists Keep.
  - exists Keep. apply Lobby_matchTick_stored.
  - by exists Keep.
  - by exists (Recent profile peerId).
  - by exists (Befriend profile peerId).
  - by exists (Unfriend peerId).
  - by exists Keep.
  - by exists (Quota full).
Qed.

Lemma Join_step_stored e s :
  ∃ op, stored (Join.step e s) = stored (apply_op op s).
Proof.
  destruct e; simpl.
  - apply Join_data_stored.
  - exists (Elapse dt). apply stored_advance.
  - apply Join_disconnect_stored.
  - exists Keep. apply Join_sync_stored.
  - by exists Keep.
  - by exists Refresh.
  - by exists (Recent profile peerId).
  - by exists (Befriend profile peerId).
  - by exists (Unfriend peerId).
  - by exists Keep.
  - by exists (Quota full).
Qed.

(** ** The recent-peers list *)

Definition uname (q : RecentPeer) : string := username (r_profile q).

Definition newer_first (a b : RecentPeer) : Prop := metAt b ≤ metAt a.

(** The stored recent-peers list is well kept: at most 20 entries, no
    username twice, most recent first, nothing from the future. *)
#[global] Instance newer_first_dec : RelDecision newer_first.
Proof. intros a b. unfold newer_first. apply _. Defined.

Definition recents_wf (t : Z) (l : list RecentPeer) : Prop :=
  (length l ≤ 20)%nat
  ∧ NoDup (uname <$> l)
  ∧ StronglySorted newer_first l
  ∧ Forall (λ q, metAt q ≤ t) l.

Definition recents_ok (s : State) : Prop :=
  recents_wf (now s) (default [] (recent_peers s)).

Lemma StronglySorted_sublist {A} (R : A → A → Prop) l1 l2 :
  l1 `sublist_of` l2 → StronglySorted R l2 → StronglySorted R l1.
Proof.
  induction 1 as [|x l1 l2 Hs IH|x l1 l2 Hs IH]; intros Hl2; [done|..].
  - apply StronglySorted_inv in Hl2 as [Hl2 Hx]. constructor; [by apply IH|].
    apply Forall_forall. intros y Hy.
    rewrite Forall_forall in Hx. apply Hx. by eapply elem_of_sublist.
  - apply StronglySorted_inv in Hl2 as [Hl2 _]. by apply IH.
Qed.

(** The entry [saveToRecent] creates, and the stored entries it keeps. *)
Definition new_entry (p : UserProfile) (peerId : string) (t : Z) : RecentPeer :=
  mkRecent (toString t) peerId p t.

Definition other_users (p : UserProfile) (old : list RecentPeer) : list RecentPeer :=
  filter (λ q, username (r_profile q) ≠ username p) old.


Lemma recents_after_head p peerId t old :
  recents_after p peerId t old = new_entry p peerId t :: take 19 (other_users p old).
Proof. reflexivity. Qed.

Lemma recents_after_length p peerId t old :
  (length (recents_after p peerId t old) ≤ 20)%nat.
Proof. unfold recents_after. rewrite length_take. lia. Qed.

Lemma recents_after_sublist p peerId t old :
  recents_after p peerId t old `sublist_of` new_entry p peerId t :: other_users p old.
Proof. apply sublist_take. Qed.

Lemma recents_after_NoDup p peerId t old :
  NoDup (uname <$> old) → NoDup (uname <$> recents_after p peerId t old).
Proof.
  intros Hnd. eapply sublist_NoDup; [|apply fmap_sublist, recents_after_sublist].
  rewrite fmap_cons. apply NoDup_cons. split.
  - intros (q & Hq & Hin)%list_elem_of_fmap.
    apply list_elem_of_filter in Hin as [Hne _]. by apply Hne.
  - eapply sublist_NoDup; [exact Hnd|]. apply fmap_sublist, sublist_filter.
Qed.

Lemma recents_after_sorted p peerId t old :
  StronglySorted newer_first old →
  Forall (λ q, metAt q ≤ t) old →
  StronglySorted newer_first (recents_after p peerId t old).
Proof.
  intros Hs Hb. eapply StronglySorted_sublist; [apply recents_after_sublist|].
  constructor.
  - eapply StronglySorted_sublist; [apply sublist_filter|done].
  - apply Forall_forall. intros q [_ Hq]%list_elem_of_filter.
    rewrite Forall_forall in Hb. by apply Hb.
Qed.

Lemma recents_after_bound p peerId t old :
  Forall (λ q, metAt q ≤ t) old →
  Forall (λ q, metAt q ≤ t) (recents_after p peerId t old).
Proof.
  intros Hb. apply Forall_take. constructor; [simpl; lia|].
  apply Forall_forall. intros q [_ Hq]%list_elem_of_filter.
  rewrite Forall_forall in Hb. by apply Hb.
Qed.

(** Nobody else in the new list has the username of the new entry. *)
Lemma recents_after_replaces p old q :
  q ∈ take 19 (other_users p old) → uname q ≠ username p.
Proof.
  intros Hq. assert (q ∈ other_users p old) as Hq'.
  { eapply elem_of_sublist; [exact Hq|apply sublist_take]. }
  by apply list_elem_of_filter in Hq' as [Hne _].
Qed.

Lemma filter_all {A} (P : A → Prop) `{∀ x, Decision (P x)} (l : list A) :
  (∀ x, x ∈ l → P x) → filter P l = l.
Proof.
  induction l as [|x l IH]; intros HP; [done|].
  rewrite filter_cons_True by (apply HP; left).
  f_equal. apply IH. intros y Hy. apply HP. by right.
Qed.

(** A full list and a new username: the last entry goes. *)
Lemma recents_after_evicts p peerId t l x :
  length l = 19%nat →
  (∀ q, q ∈ l ++ [x] → uname q ≠ username p) →
  recents_after p peerId t (l ++ [x]) = new_entry p peerId t :: l.
Proof.
  intros Hlen Hfresh. rewrite recents_after_head. f_equal.
  unfold other_users. rewrite filter_all by exact Hfresh.
  by rewrite take_app_length'.
Qed.

Lemma recents_after_wf p peerId t old :
  recents_wf t old → recents_wf t (recents_after p peerId t old).
Proof.
  intros (Hlen & Hnd & Hs & Hb).
  split; [apply recents_after_length|].
  split; [by apply recents_after_NoDup|].
  split; [by apply recents_after_sorted|by apply recents_after_bound].
Qed.

Lemma recents_ok_stored s s' : stored s = stored s' → recents_ok s → recents_ok s'.
Proof. unfold stored, recents_ok. intros [= <- _ _ _ <-]. done. Qed.

Lemma recents_ok_op op s : recents_ok s → recents_ok (apply_op op s).
Proof.
  intros Hok. destruct op; cbn [apply_op].
  - done.
  - rewrite saveToRecent_eq. destruct (storageFull s); [done|].
    by apply recents_after_wf.
  - by rewrite saveFriend_eq.
  - by rewrite removeFriend_eq.
  - destruct (updateFriendsPresence_eq s) as [fs [[-> _]| ->]]; done.
  - done.
  - destruct Hok as (Hlen & Hnd & Hs & Hb). repeat split; try done.
    eapply Forall_impl; [exact Hb|]. simpl. lia.
Qed.

Lemma recents_ok_initial profile : recents_ok (initial profile).
Proof. repeat split; try constructor. simpl. lia. Qed.

Lemma Lobby_run_recents es s : recents_ok s → recents_ok (Lobby.run es s).
Proof.
  revert s. induction es as [|e es IH]; intros s Hs; [done|].
  unfold Lobby.run in *. simpl. apply IH.
  destruct (Lobby_step_stored e s) as [op Hop].
  eapply recents_ok_stored; [symmetry; exact Hop|]. by apply recents_ok_op.
Qed.

Lemma Join_run_recents es s : recents_ok s → recents_ok (Join.run es s).
Proof.
  revert s. induction es as [|e es IH]; intros s Hs; [done|].
  unfold Join.run in *. simpl. apply IH.
  destruct (Join_step_stored e s) as [op Hop].
  eapply recents_ok_stored; [symmetry; exact Hop|]. by apply recents_ok_op.
Qed.

(** C7.  Starting from a well-kept list, [saveToRecent] leaves a
    well-kept list: at most 20 entries, most recent first, no username
    twice.  When the write goes through, the new entry is on top, the
    older entries of the same username are gone, the others keep their
    order, and a list that was full loses its last, oldest entry.  The
    list stays well kept under every later callback of either variant,
    and it is well kept in every state reached from a fresh hook. *)
Theorem recent_peers_kept (p : UserProfile) (peerId : string) (s : State) :
  recents_ok s →
  let old := default [] (recent_peers s) in
  let s' := saveToRecent p peerId s in
  recents_ok s'
  ∧ (storageFull s = false →
     recent_peers s'
     = Some (new_entry p peerId (now s) :: take 19 (other_users p old))
     ∧ (∀ q, q ∈ take 19 (other_users p old) → uname q ≠ username p)
     ∧ (∀ l x,
          old = l ++ [x] → length l = 19%nat →
          (∀ q, q ∈ old → uname q ≠ username p) →
          recent_peers s' = Some (new_entry p peerId (now s) :: l)))
  ∧ (∀ es, recents_ok (Lobby.run es s') ∧ recents_ok (Join.run es s'))
  ∧ (∀ profile es,
       recents_ok (Lobby.run es (initial profile))
       ∧ recents_ok (Join.run es (initial profile))).
Proof.
  intros Hok old s'.
  assert (recents_ok s') as Hok' by apply (recents_ok_op (Recent p peerId) s Hok).
  split; [exact Hok'|]. split; [|split].
  - intros Hfull. unfold s'. rewrite saveToRecent_eq, Hfull.
    split; [reflexivity|]. split; [apply recents_after_replaces|].
    intros l x Hold Hlen Hfresh. cbn [recent_peers setRecent_peers].
    fold old. rewrite Hold in *. by rewrite recents_after_evicts.
  - intros es. split; [by apply Lobby_run_recents|by apply Join_run_recents].
  - intros profile es.
    split; [apply Lobby_run_recents|apply Join_run_recents]; apply recents_ok_initial.
Qed.

(** Twenty recent peers "user20" down to "user1", met at times 20 to 1. *)
Definition twenty_recents : list RecentPeer :=
  (λ i, mkRecent (toString i) "peer" (mkProfile ("user" +:+ toString i) "" "" "" []) i)
    <$> reverse (seqZ 1 20).

Definition full_recents : State :=
  setNow 100 (setRecent_peers (Some twenty_recents) (initial None)).

Lemma recent_peers_kept_witness :
  let p := mkProfile "newcomer" "" "" "" [] in
  recents_ok (saveToRecent p "peer-x" full_recents)
  ∧ recent_peers (saveToRecent p "peer-x" full_recents)
    = Some (new_entry p "peer-x" 100 :: take 19 twenty_recents).
Proof.
  intros p.
  assert (recents_ok full_recents) as Hok.
  { repeat split; apply (bool_decide_unpack _); vm_compute; exact I. }
  destruct (recent_peers_kept p "peer-x" full_recents Hok) as (H1 & H2 & _).
  split; [exact H1|].
  destruct (H2 eq_refl) as (_ & _ & Hev).
  apply (Hev (take 19 twenty_recents) (mkRecent "1" "peer" (mkProfile "user1" "" "" "" []) 1)).
  - vm_compute. reflexivity.
  - vm_compute. reflexivity.
  - apply Forall_forall. apply (bool_decide_unpack _). vm_compute. exact I.
Defined.

(** ** The friend list *)

(** No peer id occurs twice, neither in the stored friend list nor in
    the [friends] cell that is written back to it. *)
Definition friends_ok (s : State) : Prop :=
  NoDup (f_id <$> default [] (chat_friends s)) ∧ NoDup (f_id <$> friends s).

Lemma friends_ok_stored s s' : stored s = stored s' → friends_ok s → friends_ok s'.
Proof. unfold stored, friends_ok. intros [= _ <- <- _ _]. done. Qed.

Lemma NoDup_ids_filter (P : Friend → Prop) `{∀ f, Decision (P f)} l :
  NoDup (f_id <$> l) → NoDup (f_id <$> filter P l).
Proof.
  intros Hnd. eapply sublist_NoDup; [exact Hnd|]. apply fmap_sublist, sublist_filter.
Qed.

Lemma friends_ok_op op s : friends_ok s → friends_ok (apply_op op s).
Proof.
  intros [Hst Hfr]. destruct op; cbn [apply_op].
  - done.
  - by rewrite saveToRecent_eq.
  - rewrite saveFriend_eq. unfold friends_ok. cbv zeta.
    cbn [chat_friends friends setFriendRequests setFriends setChat_friends].
    unfold friend_saved. case_bool_decide as Hex; cbn [negb andb]; [done|].
    destruct (storageFull s); cbn [negb]; [done|].
    assert (NoDup (f_id <$> mkFriend peerId profile (now s) (now s)
                               :: default [] (chat_friends s))) as Hnew.
    { rewrite fmap_cons. apply NoDup_cons. split; [|done].
      intros (f & Hf & Hin)%list_elem_of_fmap. apply Hex.
      apply Exists_exists. eauto. }
    done.
  - rewrite removeFriend_eq. unfold friends_ok. cbv zeta.
    cbn [chat_friends friends setFriends setChat_friends].
    destruct (storageFull s); [done|]. split; by apply NoDup_ids_filter.
  - destruct (updateFriendsPresence_eq s) as [fs [[-> Hids]| ->]]; [|done].
    unfold friends_ok. cbn [chat_friends friends setFriends setChat_friends].
    rewrite <- Hids in Hfr. by destruct (storageFull s).
  - done.
  - done.
Qed.

Lemma friends_ok_initial profile : friends_ok (initial profile).
Proof. split; constructor. Qed.

Lemma Lobby_run_friends es s : friends_ok s → friends_ok (Lobby.run es s).
Proof.
  revert s. induction es as [|e es IH]; intros s Hs; [done|].
  unfold Lobby.run in *. simpl. apply IH.
  destruct (Lobby_step_stored e s) as [op Hop].
  eapply friends_ok_stored; [symmetry; exact Hop|]. by apply friends_ok_op.
Qed.

Lemma Join_run_friends es s : friends_ok s → friends_ok (Join.run es s).
Proof.
  revert s. induction es as [|e es IH]; intros s Hs; [done|].
  unfold Join.run in *. simpl. apply IH.
  destruct (Join_step_stored e s) as [op Hop].
  eapply friends_ok_stored; [symmetry; exact Hop|]. by apply friends_ok_op.
Qed.

Lemma saveFriend_existing profile peerId s :
  Exists (λ f, f_id f = peerId) (default [] (chat_friends s)) →
  saveFriend profile peerId s = s.
Proof. intros Hex. unfold saveFriend. by rewrite decide_True. Qed.

(** C9.  In a state whose stored friend list and [friends] cell hold
    no peer id twice, this stays so under every callback of either
    variant, and it is so in every state reached from a fresh hook.
    [saveFriend] with a peer id that is already stored returns the state
    as it got it, so a [friend_accept] from a stored friend changes
    nothing, in either variant.  When the write goes through,
    [removeFriend] stores and publishes the list without any record of
    the given peer id, the other records in their order. *)
Theorem friend_list_unique (profile : UserProfile) (peerId : string) (s : State) :
  friends_ok s →
  (∀ es, friends_ok (Lobby.run es s) ∧ friends_ok (Join.run es s))
  ∧ (∀ p es,
       friends_ok (Lobby.run es (initial p)) ∧ friends_ok (Join.run es (initial p)))
  ∧ (Exists (λ f, f_id f = peerId) (default [] (chat_friends s)) →
     saveFriend profile peerId s = s
     ∧ ∀ conn rnd,
         peer conn = peerId →
         Lobby.handleIncomingData (Dfriend_accept profile) conn s = s
         ∧ Join.handleIncomingData rnd (Dfriend_accept profile) conn s = s)
  ∧ (storageFull s = false →
     let kept := filter (λ f, f_id f ≠ peerId) (default [] (chat_friends s)) in
     chat_friends (removeFriend peerId s) = Some kept
     ∧ friends (removeFriend peerId s) = kept
     ∧ ∀ f, f ∈ kept → f_id f ≠ peerId).
Proof.
  intros Hok. split; [|split; [|split]].
  - intros es. split; [by apply Lobby_run_friends|by apply Join_run_friends].
  - intros p es.
    split; [apply Lobby_run_friends|apply Join_run_friends]; apply friends_ok_initial.
  - intros Hex. split; [by apply saveFriend_existing|].
    intros conn rnd <-. split; by apply saveFriend_existing.
  - intros Hfull kept. rewrite removeFriend_eq, Hfull.
    split; [reflexivity|]. split; [reflexivity|].
    by intros f [Hne _]%list_elem_of_filter.
Qed.

Definition friend_b : Friend := mkFriend "peer-b" (mkProfile "bee" "" "" "" []) 5 5.

Definition befriended : State :=
  setFriends [friend_b] (setChat_friends (Some [friend_b]) chatting).

Lemma friend_list_unique_witness :
  Lobby.handleIncomingData (Dfriend_accept (mkProfile "bee" "" "" "" [])) conn_b befriended
  = befriended
  ∧ chat_friends (removeFriend "peer-b" befriended) = Some [].
Proof.
  assert (friends_ok befriended) as Hok.
  { split; apply (bool_decide_unpack _); vm_compute; exact I. }
  destruct (friend_list_unique (mkProfile "bee" "" "" "" []) "peer-b" befriended Hok)
    as (_ & _ & Hdup & Hrem).
  assert (Exists (λ f, f_id f = "peer-b") (default [] (chat_friends befriended)))
    as Hex by (apply Exists_cons_hd; reflexivity).
  destruct (Hdup Hex) as [_ Hacc].
  destruct (Hacc conn_b "0.5" eq_refl) as [HL _].
  split; [exact HL|apply (Hrem eq_refl)].
Defined.

(** ** Ending the main session *)

(** The timer ids held by the three timeout refs have been handed out. *)
Definition refs_below (s : State) : Prop :=
  ∀ k, connectionTimeoutRef s = Some k ∨ typingTimeoutRef s = Some k
       ∨ recordingTimeoutRef s = Some k →
       (k < nextTimer s)%nat.

Lemma cleared_keeps r ts t :
  r ≠ Some (tid t) → t ∈ ts → t ∈ cleared r ts.
Proof.
  intros Hr Ht. destruct r as [k|]; simpl; [|done].
  apply list_elem_of_filter. split; [|done]. intros Heq. apply Hr. by rewrite Heq.
Qed.

(** The state [c] was the main connection of is closed for good. *)
Definition main_closed (c : DataConnection) (s : State) : Prop :=
  mainConnRef s = None ∧ (conn_ref c ∉ openConns s) ∧ (Close (conn_ref c) ∈ effects s).

Lemma fire_keeps_closed c a s :
  isMatchmakerRef s = false → main_closed c s →
  isMatchmakerRef (fire a s) = false ∧ main_closed c (fire a s).
Proof.
  intros Hm (Hc & Ho & He). destruct a; simpl; try done.
  - rewrite close_main_eq. unfold main_closed, open_after_close, closed_main.
    rewrite Hc. simpl. rewrite app_nil_r. done.
  - by rewrite Hm.
Qed.

Lemma fire_all_keeps_closed c ts s :
  isMatchmakerRef s = false → main_closed c s →
  isMatchmakerRef (fire_all ts s) = false ∧ main_closed c (fire_all ts s).
Proof.
  revert s. induction ts as [|t ts IH]; intros s Hm Hcl; [done|].
  unfold fire_all in *. simpl.
  destruct (fire_keeps_closed c (action t) s Hm Hcl) as [Hm' Hcl']. by apply IH.
Qed.

Lemma fire_all_closes c ts s :
  isMatchmakerRef s = false →
  mainConnRef s = Some c →
  (∃ t, t ∈ ts ∧ action t = CloseMain) →
  main_closed c (fire_all ts s).
Proof.
  revert s. induction ts as [|t ts IH]; intros s Hm Hc (x & Hx & Hax).
  { by apply elem_of_nil in Hx. }
  unfold fire_all in *. simpl.
  destruct (action t) eqn:Hat.
  - apply IH; [done|done|]. apply elem_of_cons in Hx as [->|Hx]; [congruence|eauto].
  - apply IH; [done|done|]. apply elem_of_cons in Hx as [->|Hx]; [congruence|eauto].
  - apply fire_all_keeps_closed; [by rewrite close_main_eq|].
    simpl. rewrite close_main_eq. unfold main_closed, open_after_close, closed_main.
    rewrite Hc. simpl. split; [done|].
    split; [intros [_ Hn]%elem_of_difference; apply Hn; by apply elem_of_singleton|].
    apply elem_of_app. right. by left.
  - simpl. rewrite Hm. simpl.
    apply IH; [done|done|]. apply elem_of_cons in Hx as [->|Hx]; [congruence|eauto].
Qed.

(** The timer [cleanupMain] arms for the delayed close. *)
Definition close_timer (s : State) : Timer :=
  mkTimer (nextTimer s) (now s + 100) CloseMain.

Definition timers_after_cleanup (s : State) : list Timer :=
  cleared (recordingTimeoutRef s)
    (cleared (typingTimeoutRef s)
       (cleared (connectionTimeoutRef s) (timers s ++ [close_timer s]))).

Lemma close_timer_pending s :
  refs_below s → close_timer s ∈ timers_after_cleanup s.
Proof.
  intros Hb. unfold timers_after_cleanup.
  repeat apply cleared_keeps;
    try (intros Hk; specialize (Hb (nextTimer s)); simpl in Hk;
         assert (nextTimer s < nextTimer s)%nat by (apply Hb; tauto); lia).
  apply elem_of_app. right. by left.
Qed.

Lemma Lobby_disconnect_fields c ch myId s :
  mainConnRef s = Some c → channelRef s = Some ch → myPeerIdRef s = Some myId →
  let s' := Lobby.disconnect s in
  partnerProfile s' = None ∧ partnerTyping s' = false ∧ partnerRecording s' = false
  ∧ remoteVanishMode s' = None ∧ partnerPeerId s' = None
  ∧ status s' = DISCONNECTED ∧ messages s' = []
  ∧ effects s'
    = effects s ++ [Send (conn_ref c) Ddisconnect;
                    Track (mkPresence myId idle (now s) (userProfile s))]
  ∧ isMatchmakerRef s' = false ∧ mainConnRef s' = Some c ∧ now s' = now s
  ∧ timers s' = timers_after_cleanup s.
Proof.
  intros Hc Hch Hid. cbv zeta. unfold Lobby.disconnect, Lobby.cleanupMain. cbv zeta.
  rewrite Hc. normal_forms. unfold tracked. read_fields. rewrite Hch, Hid.
  repeat split; try reflexivity; try exact Hc.
  cbn. by rewrite <- app_assoc.
Qed.

Lemma Join_cleanupMain_fields c s :
  mainConnRef s = Some c →
  let s' := Join.cleanupMain s in
  partnerProfile s' = partnerProfile s ∧ remoteVanishMode s' = remoteVanishMode s
  ∧ partnerTyping s' = false ∧ partnerRecording s' = false
  ∧ partnerPeerId s' = None ∧ status s' = DISCONNECTED
  ∧ effects s'
    = effects s
      ++ match channelRef s with Some _ => [Untrack; RemoveChannel] | None => [] end
      ++ [Send (conn_ref c) Ddisconnect]
  ∧ isMatchmakerRef s' = false ∧ mainConnRef s' = Some c ∧ now s' = now s
  ∧ timers s' = timers_after_cleanup s.
Proof.
  intros Hc. cbv zeta. unfold Join.cleanupMain, timers_after_cleanup. cbv zeta.
  destruct (channelRef s) as [ch|] eqn:Hch; read_fields; rewrite Hc; cbv iota;
    read_fields;
    destruct (connectionTimeoutRef s) as [k|] eqn:Hk; read_fields;
    normal_forms; read_fields; rewrite ?Hk;
    (repeat split; try reflexivity; try exact Hc);
    cbn; by rewrite <- ?app_assoc.
Qed.

Lemma Join_disconnect_fields c s :
  mainConnRef s = Some c →
  let s' := Join.disconnect s in
  partnerProfile s' = partnerProfile s ∧ remoteVanishMode s' = remoteVanishMode s
  ∧ partnerTyping s' = false ∧ partnerRecording s' = false
  ∧ partnerPeerId s' = None ∧ status s' = DISCONNECTED ∧ messages s' = []
  ∧ effects s'
    = effects s
      ++ match channelRef s with Some _ => [Untrack; RemoveChannel] | None => [] end
      ++ [Send (conn_ref c) Ddisconnect]
  ∧ isMatchmakerRef s' = false ∧ mainConnRef s' = Some c ∧ now s' = now s
  ∧ timers s' = timers_after_cleanup s.
Proof.
  intros Hc. cbv zeta. unfold Join.disconnect. cbv zeta. rewrite Hc.
  assert (∃ v, (match partnerProfile s with
                | Some p =>
                    if bool_decide (peer c ≠ "") then saveToRecent p (peer c) s else s
                | None => s
                end) = setRecent_peers v s) as [v ->].
  { destruct (partnerProfile s); [case_bool_decide|].
    - rewrite saveToRecent_eq. eauto.
    - exists (recent_peers s). by destruct s.
    - exists (recent_peers s). by destruct s. }
  assert (mainConnRef (setRecent_peers v s) = Some c) as Hc' by exact Hc.
  pose proof (Join_cleanupMain_fields c _ Hc') as Hf. cbv zeta in Hf.
  remember (Join.cleanupMain (setRecent_peers v s)) as x eqn:Hx. clear Hx.
  destruct Hf as (H1 & H2 & H3 & H4 & H5 & H6 & H7 & H8 & H9 & H10 & H11).
  repeat split; first [assumption | reflexivity].
Qed.

(** An inbound [disconnect] envelope on the main connection: the same
    lines in both variants, up to their order. *)
Lemma peer_disconnect_fields rnd c conn s :
  mainConnRef s = Some c → conn_ref c = conn_ref conn →
  let L := Lobby.handleIncomingData Ddisconnect conn s in
  let J := Join.handleIncomingData rnd Ddisconnect conn s in
  (status L = DISCONNECTED ∧ messages L = [] ∧ partnerPeerId L = None
   ∧ mainConnRef L = None ∧ openConns L = openConns s ∖ {[conn_ref c]}
   ∧ effects L = effects s ++ [Close (conn_ref c)]
   ∧ partnerProfile L = partnerProfile s ∧ partnerTyping L = partnerTyping s
   ∧ partnerRecording L = partnerRecording s
   ∧ remoteVanishMode L = remoteVanishMode s ∧ timers L = timers s)
  ∧ (status J = DISCONNECTED ∧ messages J = [] ∧ partnerPeerId J = None
     ∧ mainConnRef J = None ∧ openConns J = openConns s ∖ {[conn_ref c]}
     ∧ effects J = effects s ++ [Close (conn_ref c)]
     ∧ partnerProfile J = partnerProfile s ∧ partnerTyping J = partnerTyping s
     ∧ partnerRecording J = partnerRecording s
     ∧ remoteVanishMode J = remoteVanishMode s ∧ timers J = timers s).
Proof.
  intros Hc Hid. cbv zeta.
  assert (is_main conn s = true) as Hm.
  { unfold is_main. rewrite Hc. by apply bool_decide_eq_true. }
  unfold Lobby.handleIncomingData, Join.handleIncomingData. rewrite Hm. cbv zeta.
  normal_forms. unfold open_after_close, closed_main. read_fields. rewrite Hc.
  repeat split; reflexivity.
Qed.


Lemma delayed_close c tm dt s :
  isMatchmakerRef s = false →
  mainConnRef s = Some c →
  tm ∈ timers s → action tm = CloseMain → due tm ≤ now s + Z.of_N dt →
  main_closed c (advance dt s).
Proof.
  intros Hm Hc Htm Ha Hdue. unfold advance. cbv zeta.
  apply fire_all_closes; [exact Hm|exact Hc|].
  exists tm. split; [|done].
  rewrite sort_by_perm. by apply list_elem_of_filter.
Qed.

Definition bee : UserProfile := mkProfile "bee" "" "" "" [].

(** A conversation under way: the partner's profile is known, the
    partner is typing and has switched vanish mode on; the client is in
    the lobby channel as "me". *)
Definition mid_chat : State :=
  setPartnerTyping true
    (setPartnerProfile (Some bee)
       (setRemoteVanishMode (Some true)
          (setChannelRef (Some "me") (setMyPeerIdRef (Some "me") chatting)))).

(** C5, counterexample.  The partner's [disconnect] envelope arrives on
    the main connection of [mid_chat].  In both variants the profile,
    the typing flag and the vanish flag stay as they were, and the only
    call is the close of the connection: no [disconnect] envelope, no
    presence update.  A user-initiated disconnect of the join variant
    leaves profile and vanish flag as well, and leaves the channel
    instead of publishing [idle]. *)
Lemma disconnect_keeps_partner_state :
  let L := Lobby.handleIncomingData Ddisconnect conn_b mid_chat in
  let J := Join.handleIncomingData "0.5" Ddisconnect conn_b mid_chat in
  let U := Join.disconnect mid_chat in
  (status L = DISCONNECTED ∧ partnerProfile L = Some bee ∧ partnerTyping L = true
   ∧ remoteVanishMode L = Some true ∧ effects L = [Close 7])
  ∧ (status J = DISCONNECTED ∧ partnerProfile J = Some bee ∧ partnerTyping J = true
     ∧ remoteVanishMode J = Some true ∧ effects J = [Close 7])
  ∧ (status U = DISCONNECTED ∧ partnerProfile U = Some bee
     ∧ remoteVanishMode U = Some true
     ∧ effects U = [Untrack; RemoveChannel; Send 7 Ddisconnect]).
Proof. repeat split; vm_compute; reflexivity. Qed.

(** C5, as amended.  With a main connection [c] recorded:
    - [disconnect] of the polling variant, in the lobby channel, clears
      the partner profile, the typing and recording flags and the
      remote-vanish flag, sends a [disconnect] envelope on [c],
      republishes presence status [idle] and sets DISCONNECTED; [c]
      itself is closed, and the main slot emptied, once 100 ms have
      passed;
    - [disconnect] of the join variant clears the typing and recording
      flags, sends the envelope, sets DISCONNECTED and closes [c] after
      the same delay, but keeps the partner profile and the
      remote-vanish flag and leaves the presence channel without
      publishing [idle];
    - an inbound [disconnect] envelope on [c] sets DISCONNECTED, empties
      the history and the partner peer id and closes [c] at once, in
      both variants; it sends nothing and keeps profile, typing,
      recording and vanish flags. *)
Theorem main_session_end (rnd : string) (c conn : DataConnection) (s : State) :
  mainConnRef s = Some c →
  refs_below s →
  (∀ ch myId,
     channelRef s = Some ch → myPeerIdRef s = Some myId →
     let s' := Lobby.disconnect s in
     partnerProfile s' = None ∧ partnerTyping s' = false
     ∧ partnerRecording s' = false ∧ remoteVanishMode s' = None
     ∧ status s' = DISCONNECTED
     ∧ effects s'
       = effects s ++ [Send (conn_ref c) Ddisconnect;
                       Track (mkPresence myId idle (now s) (userProfile s))]
     ∧ mainConnRef s' = Some c
     ∧ main_closed c (advance 100 s'))
  ∧ (let s' := Join.disconnect s in
     partnerTyping s' = false ∧ partnerRecording s' = false
     ∧ partnerProfile s' = partnerProfile s
     ∧ remoteVanishMode s' = remoteVanishMode s
     ∧ status s' = DISCONNECTED
     ∧ effects s'
       = effects s
         ++ match channelRef s with Some _ => [Untrack; RemoveChannel] | None => [] end
         ++ [Send (conn_ref c) Ddisconnect]
     ∧ mainConnRef s' = Some c
     ∧ main_closed c (advance 100 s'))
  ∧ (conn_ref c = conn_ref conn →
     let L := Lobby.handleIncomingData Ddisconnect conn s in
     let J := Join.handleIncomingData rnd Ddisconnect conn s in
     (status L = DISCONNECTED ∧ messages L = [] ∧ partnerPeerId L = None
      ∧ mainConnRef L = None ∧ openConns L = openConns s ∖ {[conn_ref c]}
      ∧ effects L = effects s ++ [Close (conn_ref c)]
      ∧ partnerProfile L = partnerProfile s ∧ partnerTyping L = partnerTyping s
      ∧ partnerRecording L = partnerRecording s
      ∧ remoteVanishMode L = remoteVanishMode s ∧ timers L = timers s)
     ∧ (status J = DISCONNECTED ∧ messages J = [] ∧ partnerPeerId J = None
        ∧ mainConnRef J = None ∧ openConns J = openConns s ∖ {[conn_ref c]}
        ∧ effects J = effects s ++ [Close (conn_ref c)]
        ∧ partnerProfile J = partnerProfile s ∧ partnerTyping J = partnerTyping s
        ∧ partnerRecording J = partnerRecording s
        ∧ remoteVanishMode J = remoteVanishMode s ∧ timers J = timers s)).
Proof.
  intros Hc Hb. split; [|split].
  - intros ch myId Hch Hid.
    pose proof (Lobby_disconnect_fields c ch myId s Hc Hch Hid) as Hf.
    cbv zeta in *. remember (Lobby.disconnect s) as x eqn:Hx. clear Hx.
    destruct Hf as (H1 & H2 & H3 & H4 & H5 & H6 & H7 & H8 & H9 & H10 & H11 & H12).
    repeat split; try assumption.
    all: eapply (delayed_close c (close_timer s)); try assumption;
      [rewrite H12; by apply close_timer_pending|done|simpl; lia].
  - pose proof (Join_disconnect_fields c s Hc) as Hf.
    cbv zeta in *. remember (Join.disconnect s) as x eqn:Hx. clear Hx.
    destruct Hf as (H1 & H2 & H3 & H4 & H5 & H6 & H7 & H8 & H9 & H10 & H11 & H12).
    repeat split; try assumption.
    all: eapply (delayed_close c (close_timer s)); try assumption;
      [rewrite H12; by apply close_timer_pending|done|simpl; lia].
  - intros Hid. by apply peer_disconnect_fields.
Qed.

Lemma main_session_end_witness :
  partnerProfile (Lobby.disconnect mid_chat) = None
  ∧ effects (Lobby.disconnect mid_chat)
    = [Send 7 Ddisconnect; Track (mkPresence "me" idle 0 None)]
  ∧ main_closed conn_b (advance 100 (Lobby.disconnect mid_chat)).
Proof.
  assert (mainConnRef mid_chat = Some conn_b) as Hc by reflexivity.
  assert (refs_below mid_chat) as Hb.
  { intros k [Hk|[Hk|Hk]]; discriminate Hk. }
  destruct (main_session_end "0.5" conn_b conn_b mid_chat Hc Hb) as (HL & _ & _).
  destruct (HL "me" "me" eq_refl eq_refl) as (H1 & _ & _ & _ & _ & H6 & _ & H8).
  split; [exact H1|split; [exact H6|exact H8]].
Defined.


(** ** The typing and recording indicators

    The indicators, the clock and the timers make a small machine of
    their own.  [tview] projects a state onto it, and every callback of
    the join variant is a short program of that machine. *)

Record TimerView := mkView {
  v_timers : list Timer;
  v_next : nat;
  v_conn : option nat;
  v_typ : option nat;
  v_rec : option nat;
  v_now : Z;
  v_typing : bool;
  v_recording : bool
}.

Definition tview (s : State) : TimerView :=
  mkView (timers s) (nextTimer s) (connectionTimeoutRef s) (typingTimeoutRef s)
    (recordingTimeoutRef s) (now s) (partnerTyping s) (partnerRecording s).

(** The three timeout refs, and the callback each of them guards. *)
Inductive RefKind := KConn | KTyp | KRec.

Definition kind_action (k : RefKind) : TimerAction :=
  match k with
  | KConn => MatchTimeout
  | KTyp => ClearTyping
  | KRec => ClearRecording
  end.

Definition get_ref (k : RefKind) (v : TimerView) : option nat :=
  match k with
  | KConn => v_conn v
  | KTyp => v_typ v
  | KRec => v_rec v
  end.

Definition set_ref (k : RefKind) (r : option nat) (v : TimerView) : TimerView :=
  match k with
  | KConn => mkView (v_timers v) (v_next v) r (v_typ v) (v_rec v) (v_now v)
               (v_typing v) (v_recording v)
  | KTyp => mkView (v_timers v) (v_next v) (v_conn v) r (v_rec v) (v_now v)
              (v_typing v) (v_recording v)
  | KRec => mkView (v_timers v) (v_next v) (v_conn v) (v_typ v) r (v_now v)
              (v_typing v) (v_recording v)
  end.

(** The indicator a ref belongs to ([KConn] has none). *)
Definition get_flag (k : RefKind) (v : TimerView) : bool :=
  match k with
  | KConn => false
  | KTyp => v_typing v
  | KRec => v_recording v
  end.

Definition set_timers (ts : list Timer) (v : TimerView) : TimerView :=
  mkView ts (v_next v) (v_conn v) (v_typ v) (v_rec v) (v_now v)
    (v_typing v) (v_recording v).

Definition fires (a : TimerAction) (ts : list Timer) : bool :=
  existsb (λ t, bool_decide (action t = a)) ts.

Inductive ViewOp :=
| OClear (k : RefKind)              (* if (ref.current) clearTimeout(ref.current) *)
| ONull (k : RefKind)               (* ref.current = null *)
| OArm (k : RefKind) (delay : Z)    (* ref.current = setTimeout(callback, delay) *)
| OCloseLater                       (* setTimeout(close main, 100) *)
| OTyping (b : bool)                (* setPartnerTyping(b) *)
| ORecording (b : bool)             (* setPartnerRecording(b) *)
| OElapse (dt : N).                 (* time passes, due timers fire *)

Definition view_op (op : ViewOp) (v : TimerView) : TimerView :=
  match op with
  | OClear k => set_timers (cleared (get_ref k v) (v_timers v)) v
  | ONull k => set_ref k None v
  | OArm k delay =>
      set_ref k (Some (v_next v))
        (mkView (v_timers v ++ [mkTimer (v_next v) (v_now v + delay) (kind_action k)])
           (S (v_next v)) (v_conn v) (v_typ v) (v_rec v) (v_now v)
           (v_typing v) (v_recording v))
  | OCloseLater =>
      mkView (v_timers v ++ [mkTimer (v_next v) (v_now v + 100) CloseMain])
        (S (v_next v)) (v_conn v) (v_typ v) (v_rec v) (v_now v)
        (v_typing v) (v_recording v)
  | OTyping b =>
      mkView (v_timers v) (v_next v) (v_conn v) (v_typ v) (v_rec v) (v_now v)
        b (v_recording v)
  | ORecording b =>
      mkView (v_timers v) (v_next v) (v_conn v) (v_typ v) (v_rec v) (v_now v)
        (v_typing v) b
  | OElapse dt =>
      let t := v_now v + Z.of_N dt in
      let ready := sort_by due (filter (λ x, due x ≤ t) (v_timers v)) in
      mkView (filter (λ x, ¬ due x ≤ t) (v_timers v)) (v_next v) (v_conn v)
        (v_typ v) (v_rec v) t
        (if fires ClearTyping ready then false else v_typing v)
        (if fires ClearRecording ready then false else v_recording v)
  end.

Definition view_run (ops : list ViewOp) (v : TimerView) : TimerView :=
  fold_left (λ w op, view_op op w) ops v.

(** The program of each callback of the join variant. *)
Definition Join_data_ops (data : PeerData) (conn : DataConnection) (s : State)
    : list ViewOp :=
  if is_main conn s then
    match data with
    | Dmessage _ _ _ => [OTyping false; ORecording false; OClear KTyp; OClear KRec]
    | Dtyping b => [OTyping b; OClear KTyp] ++ (if b then [OArm KTyp 4000] else [])
    | Drecording b => [ORecording b; OClear KRec] ++ (if b then [OArm KRec 4000] else [])
    | _ => []
    end
  else [].

Definition Join_cleanup_ops (s : State) : list ViewOp :=
  match mainConnRef s with Some _ => [OCloseLater] | None => [] end
  ++ match connectionTimeoutRef s with
     | Some _ => [OClear KConn; ONull KConn]
     | None => []
     end
  ++ [OTyping false; ORecording false; OClear KTyp; OClear KRec].

Definition Join_sync_ops (myId : string) (allUsers : list PresenceState)
    (r : ConnectResult) (s : State) : list ViewOp :=
  if isMatchmakerRef s || main_open s then []
  else
    match head (Join.sortedWaiters allUsers), peerRef s, r with
    | Some oldestWaiter, Some _, Returned _ =>
        if bool_decide (p_peerId oldestWaiter ≠ myId)
        then match connectionTimeoutRef s with
             | Some _ => [OClear KConn; ONull KConn]
             | None => []
             end ++ [OClear KConn; OArm KConn 6000]
        else []
    | _, _, _ => []
    end.

Definition Join_ops (e : Event) (s : State) : list ViewOp :=
  match e with
  | Data data conn _ => Join_data_ops data conn s
  | Advance dt => [OElapse dt]
  | Disconnect => Join_cleanup_ops s
  | PresenceSync myId allUsers r => Join_sync_ops myId allUsers r s
  | _ => []
  end.

Lemma fires_spec a ts : fires a ts = true ↔ ∃ t, t ∈ ts ∧ action t = a.
Proof.
  unfold fires. rewrite existsb_exists. split.
  - intros (t & Hin & Ha). exists t. split; [by apply list_elem_of_In|].
    by apply bool_decide_eq_true in Ha.
  - intros (t & Hin & Ha). exists t. split; [by apply list_elem_of_In|].
    by apply bool_decide_eq_true.
Qed.

Lemma tview_fire_all ts s :
  tview (fire_all ts s)
  = mkView (timers s) (nextTimer s) (connectionTimeoutRef s) (typingTimeoutRef s)
      (recordingTimeoutRef s) (now s)
      (if fires ClearTyping ts then false else partnerTyping s)
      (if fires ClearRecording ts then false else partnerRecording s).
Proof.
  revert s. induction ts as [|t ts IH]; intros s; [reflexivity|].
  unfold fire_all in *. cbn [fold_left]. rewrite IH. cbn [fires existsb].
  destruct (action t); cbn [fire]; rewrite ?close_main_eq;
    repeat case_bool_decide; try done; cbn [orb].
  - by destruct (fires ClearTyping ts).
  - by destruct (fires ClearRecording ts).
  - by destruct (isMatchmakerRef s && negb (main_open s)).
Qed.

Lemma tview_advance dt s :
  tview (advance dt s) = view_op (OElapse dt) (tview s).
Proof. unfold advance. cbv zeta. by rewrite tview_fire_all. Qed.

Lemma tview_Join_data rnd data conn s :
  tview (Join.handleIncomingData rnd data conn s)
  = view_run (Join_data_ops data conn s) (tview s).
Proof.
  unfold Join_data_ops.
  destruct data as [|messageId|b|b| | |? messageId|? messageId| | | |];
    unfold Join.handleIncomingData; cbv zeta;
    try (destruct messageId; [destruct (truthy _)|]);
    try (destruct b);
    destruct (is_main conn s); cbn [andb];
    normal_forms; reflexivity.
Qed.

(** Run a view program on the view of [s], symbolically. *)
Ltac view_explicit :=
  cbn [app view_run fold_left view_op get_ref set_ref set_timers tview
       v_timers v_next v_conn v_typ v_rec v_now v_typing v_recording kind_action].

Lemma tview_Join_cleanupMain s :
  tview (Join.cleanupMain s) = view_run (Join_cleanup_ops s) (tview s).
Proof.
  unfold Join.cleanupMain, Join_cleanup_ops. cbv zeta.
  destruct (channelRef s); read_fields;
    destruct (mainConnRef s); read_fields;
    destruct (connectionTimeoutRef s) eqn:Hk; read_fields;
    normal_forms; read_fields; view_explicit;
    first [reflexivity | rewrite Hk; reflexivity].
Qed.

Lemma tview_setRecent_peers v s : tview (setRecent_peers v s) = tview s.
Proof. reflexivity. Qed.

Lemma tview_setMessages v s : tview (setMessages v s) = tview s.
Proof. reflexivity. Qed.

Lemma tview_Join_disconnect s :
  tview (Join.disconnect s) = view_run (Join_cleanup_ops s) (tview s).
Proof.
  unfold Join.disconnect. cbv zeta.
  assert (∃ v, (match partnerProfile s, mainConnRef s with
                | Some p, Some c =>
                    if bool_decide (peer c ≠ "") then saveToRecent p (peer c) s else s
                | _, _ => s
                end) = setRecent_peers v s) as [v ->].
  { destruct (partnerProfile s); [destruct (mainConnRef s); [case_bool_decide|]|];
      rewrite ?saveToRecent_eq; eauto; exists (recent_peers s); by destruct s. }
  rewrite tview_setMessages, tview_Join_cleanupMain. reflexivity.
Qed.

Lemma tview_Join_setup conn s :
  tview (Join.setupConnection conn (Some random) s)
  = view_run (match connectionTimeoutRef s with
              | Some _ => [OClear KConn; ONull KConn]
              | None => []
              end) (tview s).
Proof.
  unfold Join.setupConnection. cbv zeta.
  destruct (connectionTimeoutRef s) eqn:Hk; read_fields;
    rewrite bool_decide_true by done; cbn [orb];
    normal_forms; view_explicit;
    first [reflexivity | rewrite Hk; reflexivity].
Qed.

Lemma tview_arm_connection d s :
  tview (let '(k, s0) := setTimeout MatchTimeout d (clearTimeoutRef (connectionTimeoutRef s) s) in
         setConnectionTimeoutRef (Some k) s0)
  = view_run [OClear KConn; OArm KConn d] (tview s).
Proof. rewrite clearTimeoutRef_eq. reflexivity. Qed.

Lemma view_run_app ops1 ops2 v :
  view_run (ops1 ++ ops2) v = view_run ops2 (view_run ops1 v).
Proof. apply fold_left_app. Qed.

Lemma tview_Join_sync myId allUsers r s :
  tview (Join.onPresenceSync myId allUsers r s)
  = view_run (Join_sync_ops myId allUsers r s) (tview s).
Proof.
  unfold Join.onPresenceSync, Join_sync_ops. cbv zeta.
  read_fields.
  assert (main_open (setOnlineUsers allUsers s) = main_open s) as -> by reflexivity.
  destruct (isMatchmakerRef s || main_open s); [reflexivity|].
  destruct (head (Join.sortedWaiters allUsers)) as [w|]; [|reflexivity].
  case_bool_decide.
  - destruct (peerRef s); [|by destruct r].
    destruct r; try reflexivity.
    rewrite tview_arm_connection, tview_Join_setup, view_run_app.
    read_fields. reflexivity.
  - by destruct (peerRef s), r.
Qed.

Lemma tview_Join_step e s :
  tview (Join.step e s) = view_run (Join_ops e s) (tview s).
Proof.
  destruct e; cbn [Join.step Join_ops].
  - apply tview_Join_data.
  - apply tview_advance.
  - apply tview_Join_disconnect.
  - apply tview_Join_sync.
  - reflexivity.
  - destruct (updateFriendsPresence_eq s) as [fs [[-> _]| ->]]; reflexivity.
  - rewrite saveToRecent_eq. reflexivity.
  - rewrite saveFriend_eq. reflexivity.
  - rewrite removeFriend_eq. reflexivity.
  - reflexivity.
  - reflexivity.
Qed.

(** Invariants of the timer machine. *)

#[global] Instance RefKind_eq_dec : EqDecision RefKind.
Proof. solve_decision. Defined.


(** Pending timers have ids that were handed out, are due in the
    future, and a timer a ref points to runs the callback of that ref;
    the refs themselves hold ids that were handed out. *)
Definition view_wf (v : TimerView) : Prop :=
  (∀ t, t ∈ v_timers v →
        (tid t < v_next v)%nat ∧ v_now v < due t
        ∧ ∀ k, get_ref k v = Some (tid t) → action t = kind_action k)
  ∧ (∀ k r, get_ref k v = Some r → (r < v_next v)%nat).

(** While the indicator of [k] is on, a timer that switches it off is
    pending and due by [B]. *)
Definition expiry_pending (k : RefKind) (B : Z) (v : TimerView) : Prop :=
  get_flag k v = true →
  ∃ t, t ∈ v_timers v ∧ action t = kind_action k ∧ due t ≤ B.

Definition positive_delay (op : ViewOp) : Prop :=
  match op with
  | OArm _ d => 0 < d
  | _ => True
  end.

(** The steps that cannot take the pending expiry away. *)
Definition op_ok (k : RefKind) (v : TimerView) (op : ViewOp) : Prop :=
  match op with
  | OClear k' => k' = k → get_flag k v = false
  | OTyping b => k = KTyp → b = false
  | ORecording b => k = KRec → b = false
  | _ => True
  end.

Fixpoint prog_ok (k : RefKind) (v : TimerView) (ops : list ViewOp) : Prop :=
  match ops with
  | [] => True
  | op :: ops' => positive_delay op ∧ op_ok k v op ∧ prog_ok k (view_op op v) ops'
  end.

Lemma get_set_ref k k' r v :
  get_ref k' (set_ref k r v) = if decide (k = k') then r else get_ref k' v.
Proof. destruct k, k'; reflexivity. Qed.

Lemma kind_action_inj k k' : kind_action k = kind_action k' → k = k'.
Proof. destruct k, k'; simpl; congruence. Qed.


Lemma view_wf_op op v : view_wf v → positive_delay op → view_wf (view_op op v).
Proof.
  intros [Ht Hr] Hd. destruct op as [k|k|k d|  |b|b|dt]; cbn [view_op].
  - split; [|exact Hr]. intros t Hin.
    assert (t ∈ v_timers v) as Hin'.
    { cbn in Hin. destruct (get_ref k v); [|done].
      by apply list_elem_of_filter in Hin as [_ ?]. }
    exact (Ht t Hin').
  - split.
    + intros t Hin. assert (t ∈ v_timers v) as Hin' by (by destruct k).
      destruct (Ht t Hin') as (H1 & H2 & H3).
      split; [by destruct k|]. split; [by destruct k|].
      intros k'. rewrite get_set_ref. case_decide; [done|apply H3].
    + intros k' r. rewrite get_set_ref. case_decide; [done|].
      intros Hk'. specialize (Hr k' r Hk'). by destruct k.
  - set (w := mkView _ _ _ _ _ _ _ _). split.
    + intros t Hin. assert (t ∈ v_timers w) as Hin' by (by destruct k).
      cbn in Hin'. apply elem_of_app in Hin' as [Hin'|Hin'].
      * destruct (Ht t Hin') as (H1 & H2 & H3).
        split; [destruct k; cbn; lia|]. split; [by destruct k|].
        intros k'. rewrite get_set_ref. case_decide.
        -- intros [= Heq]. lia.
        -- apply H3.
      * apply list_elem_of_singleton in Hin' as ->. cbn [tid due action].
        split; [destruct k; cbn; lia|]. split; [destruct k; cbn in *; lia|].
        intros k'. rewrite get_set_ref. case_decide; [by subst|].
        intros Hk'. assert (v_next v < v_next v)%nat; [|lia].
        apply (Hr k'). exact Hk'.
    + intros k' r. rewrite get_set_ref. case_decide.
      * intros [= <-]. destruct k; cbn; lia.
      * intros Hk'. assert (r < v_next v)%nat by (by apply (Hr k')).
        destruct k; cbn; lia.
  - split.
    + intros t Hin. cbn in Hin. apply elem_of_app in Hin as [Hin|Hin].
      * destruct (Ht t Hin) as (H1 & H2 & H3).
        split; [cbn; lia|]. split; [done|]. intros k'. destruct k'; [exact (H3 KConn)|exact (H3 KTyp)|exact (H3 KRec)].
      * apply list_elem_of_singleton in Hin as ->. cbn [tid due action].
        split; [cbn; lia|]. split; [cbn; lia|].
        intros k' Hk'. assert (v_next v < v_next v)%nat; [|lia].
        apply (Hr k'). by destruct k'.
    + intros k' r Hk'. assert (r < v_next v)%nat by (apply (Hr k'); by destruct k').
      cbn. lia.
  - split; [|intros k' r Hk'; apply (Hr k'); by destruct k'].
    intros t Hin. destruct (Ht t Hin) as (H1 & H2 & H3).
    repeat split; done.
  - split; [|intros k' r Hk'; apply (Hr k'); by destruct k'].
    intros t Hin. destruct (Ht t Hin) as (H1 & H2 & H3).
    repeat split; done.
  - cbv zeta. split; [|intros k' r Hk'; apply (Hr k'); by destruct k'].
    intros t Hin. cbn in Hin. apply list_elem_of_filter in Hin as [Hdue Hin].
    destruct (Ht t Hin) as (H1 & H2 & H3).
    split; [done|]. split; [cbn; lia|]. intros k'. destruct k'; [exact (H3 KConn)|exact (H3 KTyp)|exact (H3 KRec)].
Qed.

Lemma view_wf_run ops v :
  view_wf v → Forall positive_delay ops → view_wf (view_run ops v).
Proof.
  revert v. induction ops as [|op ops IH]; intros v Hwf Hpos; [done|].
  apply Forall_cons in Hpos as [Hop Hpos]. unfold view_run in *. cbn [fold_left].
  apply IH; [by apply view_wf_op|done].
Qed.

Lemma expiry_op k B op v :
  view_wf v → expiry_pending k B v → op_ok k v op →
  expiry_pending k B (view_op op v).
Proof.
  intros [Ht Hr] Hp Hok. unfold expiry_pending in *.
  destruct op as [k'|k'|k' d|  |b|b|dt]; cbn [view_op op_ok] in *.
  - intros Hf. assert (get_flag k v = true) as Hf' by (by destruct k).
    destruct (Hp Hf') as (t & Hin & Ha & Hdue). exists t.
    split; [|done]. cbn. apply cleared_keeps; [|done].
    intros Hk'. destruct (Ht t Hin) as (_ & _ & H3).
    specialize (H3 k' Hk'). rewrite Ha in H3. apply kind_action_inj in H3.
    subst k'. rewrite Hok in Hf' by done. discriminate.
  - intros Hf. assert (get_flag k v = true) as Hf' by (by destruct k, k').
    destruct (Hp Hf') as (t & Hin & Ha & Hdue). exists t.
    split; [by destruct k'|done].
  - intros Hf. assert (get_flag k v = true) as Hf' by (by destruct k, k').
    destruct (Hp Hf') as (t & Hin & Ha & Hdue). exists t.
    split; [|done]. assert (t ∈ v_timers v ++
      [mkTimer (v_next v) (v_now v + d) (kind_action k')]) as Hin'
      by (apply elem_of_app; by left).
    by destruct k'.
  - intros Hf. assert (get_flag k v = true) as Hf' by (by destruct k).
    destruct (Hp Hf') as (t & Hin & Ha & Hdue). exists t.
    split; [|done]. cbn. apply elem_of_app. by left.
  - intros Hf. destruct k; cbn in Hf; [done| |exact (Hp Hf)].
    rewrite Hok in Hf by done. discriminate.
  - intros Hf. destruct k; cbn in Hf; [done|exact (Hp Hf)|].
    rewrite Hok in Hf by done. discriminate.
  - cbv zeta. intros Hf.
    set (t' := v_now v + Z.of_N dt) in *.
    set (ready := sort_by due (filter (λ x, due x ≤ t') (v_timers v))) in *.
    assert (get_flag k v = true ∧ fires (kind_action k) ready = false) as [Hf' Hnf].
    { destruct k; cbn in Hf |- *; [done|..].
      - destruct (fires ClearTyping ready); [done|]. by split.
      - destruct (fires ClearRecording ready); [done|]. by split. }
    destruct (Hp Hf') as (t & Hin & Ha & Hdue). exists t.
    split; [|done]. cbn. apply list_elem_of_filter. split; [|done].
    intros Hready. assert (fires (kind_action k) ready = true) as Hfire; [|congruence].
    apply fires_spec. exists t. split; [|done].
    unfold ready. rewrite sort_by_perm. by apply list_elem_of_filter.
Qed.

Lemma prog_inv k B ops v :
  view_wf v → expiry_pending k B v → prog_ok k v ops →
  view_wf (view_run ops v) ∧ expiry_pending k B (view_run ops v).
Proof.
  revert v. induction ops as [|op ops IH]; intros v Hwf Hp Hok; [done|].
  destruct Hok as (Hpos & Hop & Hok). unfold view_run in *. cbn [fold_left].
  apply IH; [by apply view_wf_op|by apply expiry_op|done].
Qed.

(** The envelope that switches the indicator of [k] on. *)
Definition switch_on (k : RefKind) : PeerData :=
  match k with
  | KConn => Dother ""
  | KTyp => Dtyping true
  | KRec => Drecording true
  end.

(** The event is the arrival of that envelope. *)
Definition arrives (k : RefKind) (e : Event) : Prop :=
  match e with
  | Data data _ _ => data = switch_on k
  | _ => False
  end.

Lemma Join_ops_positive e s : Forall positive_delay (Join_ops e s).
Proof.
  destruct e as [data conn rnd|dt| |myId allUsers r| | | | | | |]; cbn [Join_ops];
    try by constructor.
  - unfold Join_data_ops. destruct (is_main conn s); [|constructor].
    destruct data as [| |b|b| | | | | | | |]; try destruct b;
      repeat constructor; cbn; lia.
  - unfold Join_cleanup_ops.
    destruct (mainConnRef s), (connectionTimeoutRef s); repeat constructor.
  - unfold Join_sync_ops. destruct (isMatchmakerRef s || main_open s); [constructor|].
    destruct (head _); [|constructor]. destruct (peerRef s); [|constructor].
    destruct r; try constructor. case_bool_decide; [|constructor].
    destruct (connectionTimeoutRef s); repeat constructor; cbn; lia.
Qed.

Lemma Join_ops_ok k e s :
  k ≠ KConn → ¬ arrives k e → prog_ok k (tview s) (Join_ops e s).
Proof.
  intros Hk Harr.
  destruct e as [data conn rnd|dt| |myId allUsers r| | | | | | |]; cbn [Join_ops];
    try exact I.
  - unfold Join_data_ops. destruct (is_main conn s); [|exact I].
    destruct data as [| |b|b| | | | | | | |]; try exact I.
    + destruct k; [done|..]; cbn; repeat split; done.
    + destruct b.
      * destruct k; [done| |]; cbn in *; [done|].
        repeat split; try done; lia.
      * destruct k; [done|..]; cbn; repeat split; done.
    + destruct b.
      * destruct k; [done| |]; cbn in *; [|done].
        repeat split; try done; lia.
      * destruct k; [done|..]; cbn; repeat split; done.
  - cbn. done.
  - unfold Join_cleanup_ops.
    destruct (mainConnRef s), (connectionTimeoutRef s);
      destruct k; try done; cbn; repeat split; done.
  - unfold Join_sync_ops. destruct (isMatchmakerRef s || main_open s); [exact I|].
    destruct (head _); [|exact I]. destruct (peerRef s); [|exact I].
    destruct r; try exact I. case_bool_decide; [|exact I].
    destruct (connectionTimeoutRef s);
      destruct k; try done; cbn; repeat split; try done; lia.
Qed.

Lemma Join_run_cons e es s : Join.run (e :: es) s = Join.run es (Join.step e s).
Proof. reflexivity. Qed.

Lemma v_now_tview s : v_now (tview s) = now s.
Proof. reflexivity. Qed.

Lemma get_flag_typing s : get_flag KTyp (tview s) = partnerTyping s.
Proof. reflexivity. Qed.

Lemma get_flag_recording s : get_flag KRec (tview s) = partnerRecording s.
Proof. reflexivity. Qed.

(** The timers of a freshly mounted hook are well formed, and every
    callback of the join variant keeps them so. *)
Lemma initial_view_wf profile : view_wf (tview (initial profile)).
Proof.
  split.
  - intros t Hin. cbn in Hin. by apply elem_of_nil in Hin.
  - intros k r Hr. by destruct k.
Qed.

Lemma Join_run_view_wf es s :
  view_wf (tview s) → view_wf (tview (Join.run es s)).
Proof.
  revert s. induction es as [|e es IH]; intros s Hwf; [done|].
  rewrite Join_run_cons. apply IH. rewrite tview_Join_step.
  apply view_wf_run; [done|apply Join_ops_positive].
Qed.

Lemma Join_run_inv k B es s :
  k ≠ KConn → Forall (λ e, ¬ arrives k e) es →
  view_wf (tview s) → expiry_pending k B (tview s) →
  view_wf (tview (Join.run es s)) ∧ expiry_pending k B (tview (Join.run es s)).
Proof.
  intros Hk Hes. revert s.
  induction Hes as [|e es He Hes IH]; intros s Hwf Hp; [done|].
  rewrite Join_run_cons.
  destruct (prog_inv k B (Join_ops e s) (tview s)) as [Hwf' Hp'];
    [done|done|by apply Join_ops_ok|].
  rewrite <- tview_Join_step in Hwf', Hp'. by apply IH.
Qed.

(** What the [true] envelope of [k] does to the timers on the main
    connection. *)
Lemma switch_on_view k v :
  k ≠ KConn → view_wf v →
  let ops := match k with
             | KTyp => [OTyping true; OClear KTyp; OArm KTyp 4000]
             | KRec => [ORecording true; OClear KRec; OArm KRec 4000]
             | KConn => []
             end in
  get_flag k (view_run ops v) = true
  ∧ view_wf (view_run ops v)
  ∧ expiry_pending k (v_now v + 4000) (view_run ops v).
Proof.
  intros Hk Hwf. cbv zeta. destruct k; [done|..].
  - split; [reflexivity|]. split.
    + apply view_wf_run; [done|]. repeat constructor; cbn; lia.
    + intros _. exists (mkTimer (v_next v) (v_now v + 4000) ClearTyping).
      split; [|by split]. cbn. apply elem_of_app. right. by apply list_elem_of_singleton.
  - split; [reflexivity|]. split.
    + apply view_wf_run; [done|]. repeat constructor; cbn; lia.
    + intros _. exists (mkTimer (v_next v) (v_now v + 4000) ClearRecording).
      split; [|by split]. cbn. apply elem_of_app. right. by apply list_elem_of_singleton.
Qed.

(** The join variant.  From a state whose timers are well formed, a
    [typing] (or [recording]) envelope with payload [true] on the main
    connection sets the partner's indicator; whatever callbacks run
    afterwards, if none of them handles a further such envelope, the
    indicator is off once 4000 ms have passed. *)
Theorem Join_indicator_expires k rnd conn s es :
  k ≠ KConn → view_wf (tview s) → is_main conn s = true →
  Forall (λ e, ¬ arrives k e) es →
  let s1 := Join.handleIncomingData rnd (switch_on k) conn s in
  get_flag k (tview s1) = true
  ∧ (now s + 4000 ≤ now (Join.run es s1) → get_flag k (tview (Join.run es s1)) = false).
Proof.
  intros Hk Hwf Hmain Hes. cbv zeta.
  pose proof (tview_Join_data rnd (switch_on k) conn s) as Hv.
  unfold Join_data_ops in Hv. rewrite Hmain in Hv.
  destruct (switch_on_view k (tview s) Hk Hwf) as (Hflag & Hwf1 & Hp1).
  assert (tview (Join.handleIncomingData rnd (switch_on k) conn s)
          = view_run match k with
                     | KTyp => [OTyping true; OClear KTyp; OArm KTyp 4000]
                     | KRec => [ORecording true; OClear KRec; OArm KRec 4000]
                     | KConn => []
                     end (tview s)) as Hv1.
  { rewrite Hv. by destruct k. }
  clear Hv. rewrite <- Hv1 in Hflag, Hwf1, Hp1. clear Hv1.
  split; [done|]. intros Hlate.
  destruct (Join_run_inv k (v_now (tview s) + 4000) es _ Hk Hes Hwf1 Hp1)
    as [[Hts _] Hp].
  destruct (get_flag k (tview (Join.run es _))) eqn:Hf; [|done].
  destruct (Hp Hf) as (t & Hin & _ & Hdue).
  destruct (Hts t Hin) as (_ & Hfuture & _).
  rewrite !v_now_tview in *. lia.
Qed.

Lemma chatting_view_wf : view_wf (tview chatting).
Proof.
  split.
  - intros t Hin. vm_compute in Hin. by apply elem_of_nil in Hin.
  - intros k r Hr. destruct k; vm_compute in Hr; discriminate.
Qed.

Lemma Join_indicator_expires_witness :
  partnerTyping (Join.handleIncomingData "r" (Dtyping true) conn_b chatting) = true
  ∧ partnerTyping
      (Join.run [Data (Dmessage "hi" (Some text) None) (mkConn 9 "peer-c") "r";
                 Advance 4000]
         (Join.handleIncomingData "r" (Dtyping true) conn_b chatting)) = false.
Proof.
  assert (KTyp ≠ KConn) as Hk by discriminate.
  assert (is_main conn_b chatting = true) as Hm by (vm_compute; reflexivity).
  assert (Forall (λ e, ¬ arrives KTyp e)
            [Data (Dmessage "hi" (Some text) None) (mkConn 9 "peer-c") "r";
             Advance 4000]) as Hes.
  { repeat constructor; cbn; [discriminate|tauto]. }
  destruct (Join_indicator_expires KTyp "r" conn_b chatting _ Hk chatting_view_wf Hm Hes)
    as [Hon Hoff].
  split; [exact Hon|]. apply Hoff. vm_compute. discriminate.
Defined.

(** C8.  The polling variant at the failing input: on the main
    connection [conn_b] the envelope [{type: 'typing', payload: true}]
    (or [{type: 'recording', payload: true}]) arrives and nothing else
    does.  However much time passes afterwards, 4000 ms included, the
    partner's indicator is still set: the handler arms no timer. *)
Theorem lobby_indicator_never_expires (dt : N) :
  partnerTyping
    (Lobby.run [Data (Dtyping true) conn_b "r"; Advance dt] chatting) = true
  ∧ partnerRecording
      (Lobby.run [Data (Drecording true) conn_b "r"; Advance dt] chatting) = true.
Proof.
  split.
  - change (Lobby.run _ chatting)
      with (advance dt (Lobby.handleIncomingData (Dtyping true) conn_b chatting)).
    rewrite <- get_flag_typing, tview_advance.
    assert (tview (Lobby.handleIncomingData (Dtyping true) conn_b chatting)
            = mkView [] 1 None None None 0 true false) as ->
      by (vm_compute; reflexivity).
    reflexivity.
  - change (Lobby.run _ chatting)
      with (advance dt (Lobby.handleIncomingData (Drecording true) conn_b chatting)).
    rewrite <- get_flag_recording, tview_advance.
    assert (tview (Lobby.handleIncomingData (Drecording true) conn_b chatting)
            = mkView [] 1 None None None 0 false true) as ->
      by (vm_compute; reflexivity).
    reflexivity.
Qed.

(** * The global room, the senders and the callbacks

    The rest of this file follows the code the sections above leave
    out: the global room, the outbound half of the protocol, the
    connection callbacks and what [App] keeps in [localStorage]. *)

(** ** The global room: [useGlobalChat] (part_002, second document) *)
Module GlobalChat.

Definition MAX_GLOBAL_MESSAGES : nat := 50.

(** A message of the global room, with the fields [sendGlobalMessage]
    fills in. *)
Record GlobalMessage := mkGlobalMessage {
  g_id : string;
  g_text : string;
  g_sender : Sender;
  senderName : string;
  senderPeerId : option string;
  senderProfile : UserProfile;
  g_timestamp : Z;
  g_type : DataType
}.

(** The hook: its one state cell, its channel ref, its two arguments,
    and around it the clock, the [global_chat_history] item of
    localStorage, the payloads handed to [channel.send] and the calls
    of [sendGlobalMessage] that wait at their [await]. *)
Record GState := mkGState {
  globalMessages : list GlobalMessage;
  channelRef : bool;
  userProfile : option UserProfile;
  myPeerId : option string;
  now : Z;
  global_chat_history : option (list GlobalMessage);
  storageFull : bool;
  broadcasts : list GlobalMessage;
  awaiting : list GlobalMessage
}.

Definition setGlobalMessages (v : list GlobalMessage) (s : GState) : GState :=
  mkGState v (channelRef s) (userProfile s) (myPeerId s) (now s)
    (global_chat_history s) (storageFull s) (broadcasts s) (awaiting s).

(** [{ ...newMessage, sender: 'me' }] *)
Definition as_mine (m : GlobalMessage) : GlobalMessage :=
  mkGlobalMessage (g_id m) (g_text m) me (senderName m) (senderPeerId m)
    (senderProfile m) (g_timestamp m) (g_type m).

(** The updater both [setGlobalMessages] calls pass (lines 914-921 and
    952-958): append, then keep the last 50. *)
Definition appended (payload : GlobalMessage) (prev : list GlobalMessage)
    : list GlobalMessage :=
  let updated := prev ++ [payload] in
  if decide (MAX_GLOBAL_MESSAGES < length updated)%nat
  then drop (length updated - MAX_GLOBAL_MESSAGES) updated
  else updated.

(** The effect that saves the history whenever it changes
    (lines 896-904). *)
Definition persist (s : GState) : GState :=
  if decide (0 < length (globalMessages s))%nat then
    if storageFull s then s
    else mkGState (globalMessages s) (channelRef s) (userProfile s) (myPeerId s)
           (now s) (Some (globalMessages s)) (storageFull s) (broadcasts s)
           (awaiting s)
  else s.

(** The [broadcast] handler (lines 913-922). *)
Definition onBroadcast (payload : GlobalMessage) (s : GState) : GState :=
  persist (setGlobalMessages (appended payload (globalMessages s)) s).

(** [sendGlobalMessage] up to its [await] (lines 930-949); [rnd] is
    [Math.random().toString()]. *)
Definition sendGlobalMessage (rnd text_ : string) (s : GState) : GState :=
  match channelRef s, userProfile s with
  | true, Some profile =>
      let newMessage :=
        mkGlobalMessage (toString (now s) +:+ rnd) text_ stranger
          (username profile)
          (if truthy (myPeerId s) then myPeerId s else None)
          profile (now s) text in
      mkGState (globalMessages s) (channelRef s) (userProfile s) (myPeerId s)
        (now s) (global_chat_history s) (storageFull s)
        (broadcasts s ++ [newMessage]) (awaiting s ++ [newMessage])
  | _, _ => s
  end.

(** The rest of [sendGlobalMessage], once the [await] of the call that
    is [i]-th in line returns (lines 951-958). *)
Definition resume (i : nat) (s : GState) : GState :=
  match awaiting s !! i with
  | Some newMessage =>
      let s :=
        mkGState (globalMessages s) (channelRef s) (userProfile s) (myPeerId s)
          (now s) (global_chat_history s) (storageFull s) (broadcasts s)
          (delete i (awaiting s)) in
      persist (setGlobalMessages (appended (as_mine newMessage) (globalMessages s)) s)
  | None => s
  end.

(** The hook after its mount effects (lines 884-893 and 906-928): the
    stored history is loaded, the channel exists when there is a
    profile. *)
Definition mount (profile : option UserProfile) (peerId : option string)
    (t : Z) (stored : option (list GlobalMessage)) (full : bool) : GState :=
  persist
    (mkGState (default [] stored) (bool_decide (is_Some profile)) profile peerId
       t stored full [] []).

Inductive GEvent :=
| Broadcast (payload : GlobalMessage)
| Send (rnd text_ : string)
| Resume (i : nat)
| Elapse (dt : N)
| Quota (full : bool).

Definition step (e : GEvent) (s : GState) : GState :=
  match e with
  | Broadcast payload => onBroadcast payload s
  | Send rnd text_ => sendGlobalMessage rnd text_ s
  | Resume i => resume i s
  | Elapse dt =>
      mkGState (globalMessages s) (channelRef s) (userProfile s) (myPeerId s)
        (now s + Z.of_N dt) (global_chat_history s) (storageFull s)
        (broadcasts s) (awaiting s)
  | Quota full =>
      mkGState (globalMessages s) (channelRef s) (userProfile s) (myPeerId s)
        (now s) (global_chat_history s) full (broadcasts s) (awaiting s)
  end.

Definition run (es : list GEvent) (s : GState) : GState :=
  fold_left (λ st e, step e st) es s.

(** The message an event appends to the history, if any. *)
Definition arrival (e : GEvent) (s : GState) : option GlobalMessage :=
  match e with
  | Broadcast payload => Some payload
  | Resume i => as_mine <$> awaiting s !! i
  | _ => None
  end.

(** Everything a run appends, in order. *)
Fixpoint arrivals (es : list GEvent) (s : GState) : list GlobalMessage :=
  match es with
  | [] => []
  | e :: es' => option_list (arrival e s) ++ arrivals es' (step e s)
  end.

(** The last [n] entries of a list. *)
Definition last_n {A} (n : nat) (l : list A) : list A := drop (length l - n) l.

End GlobalChat.

(** *** Properties of the global room *)

Lemma appended_length p prev :
  length (GlobalChat.appended p prev)
  = Nat.min (S (length prev)) GlobalChat.MAX_GLOBAL_MESSAGES.
Proof.
  unfold GlobalChat.appended, GlobalChat.MAX_GLOBAL_MESSAGES. cbv zeta.
  case_decide as Hlen; rewrite ?length_drop, !length_app in *; simpl in *; lia.
Qed.

Lemma appended_suffix p prev :
  GlobalChat.appended p prev `suffix_of` prev ++ [p].
Proof.
  unfold GlobalChat.appended. cbv zeta. case_decide; [apply suffix_drop|done].
Qed.

Lemma appended_last p prev : last (GlobalChat.appended p prev) = Some p.
Proof.
  unfold GlobalChat.appended, GlobalChat.MAX_GLOBAL_MESSAGES. cbv zeta.
  case_decide as Hlen.
  - rewrite length_app in *. simpl in *.
    rewrite drop_app_le by lia. by rewrite last_snoc.
  - by rewrite last_snoc.
Qed.

Lemma last_n_short {A} n (l : list A) :
  (length l ≤ n)%nat → GlobalChat.last_n n l = l.
Proof.
  intros Hl. unfold GlobalChat.last_n.
  by replace (length l - n)%nat with 0%nat by lia.
Qed.

Lemma appended_last_n p l :
  GlobalChat.appended p (GlobalChat.last_n GlobalChat.MAX_GLOBAL_MESSAGES l)
  = GlobalChat.last_n GlobalChat.MAX_GLOBAL_MESSAGES (l ++ [p]).
Proof.
  unfold GlobalChat.appended, GlobalChat.last_n, GlobalChat.MAX_GLOBAL_MESSAGES.
  cbv zeta. rewrite !length_app, length_drop. simpl.
  destruct (decide (length l < 50)%nat) as [Hs|Hs].
  - replace (length l - 50)%nat with 0%nat by lia.
    replace (length l + 1 - 50)%nat with 0%nat by lia.
    simpl. rewrite decide_False by lia. done.
  - rewrite decide_True by lia.
    rewrite drop_app_le by (rewrite length_drop; lia).
    rewrite drop_drop. rewrite (drop_app_le l) by lia.
    do 2 f_equal. lia.
Qed.

Lemma persist_messages s :
  GlobalChat.globalMessages (GlobalChat.persist s) = GlobalChat.globalMessages s.
Proof.
  unfold GlobalChat.persist. case_decide; [|done].
  by destruct (GlobalChat.storageFull s).
Qed.

Lemma step_messages e s :
  GlobalChat.globalMessages (GlobalChat.step e s)
  = match GlobalChat.arrival e s with
    | Some m => GlobalChat.appended m (GlobalChat.globalMessages s)
    | None => GlobalChat.globalMessages s
    end.
Proof.
  destruct e as [p|rnd t|i|dt|full]; simpl; try done.
  - unfold GlobalChat.onBroadcast. by rewrite persist_messages.
  - unfold GlobalChat.sendGlobalMessage.
    destruct (GlobalChat.channelRef s); [|done].
    by destruct (GlobalChat.userProfile s).
  - unfold GlobalChat.resume.
    destruct (GlobalChat.awaiting s !! i); simpl; [|done].
    by rewrite persist_messages.
Qed.

Lemma run_last_n es s l :
  GlobalChat.globalMessages s
  = GlobalChat.last_n GlobalChat.MAX_GLOBAL_MESSAGES l →
  GlobalChat.globalMessages (GlobalChat.run es s)
  = GlobalChat.last_n GlobalChat.MAX_GLOBAL_MESSAGES (l ++ GlobalChat.arrivals es s).
Proof.
  revert s l. induction es as [|e es IH]; intros s l Hl.
  - simpl. by rewrite app_nil_r.
  - unfold GlobalChat.run in *. cbn [fold_left GlobalChat.arrivals].
    destruct (GlobalChat.arrival e s) as [m|] eqn:Ha; simpl.
    + rewrite (IH _ (l ++ [m])); [by rewrite <- app_assoc|].
      by rewrite step_messages, Ha, Hl, appended_last_n.
    + apply IH. by rewrite step_messages, Ha.
Qed.

(** An append to the global history, whatever the history was before
    (a stored history is loaded as it is): the result has at most 50
    entries, one more than before when that is at most 50; it ends with
    the new message; and it is the tail of the old history followed by
    the new message, so that only the oldest entries go. *)
Theorem global_append_keeps_latest (payload : GlobalChat.GlobalMessage)
    (s : GlobalChat.GState) :
  let prev := GlobalChat.globalMessages s in
  let next := GlobalChat.globalMessages (GlobalChat.onBroadcast payload s) in
  length next = Nat.min (S (length prev)) 50
  ∧ last next = Some payload
  ∧ next `suffix_of` prev ++ [payload].
Proof.
  cbv zeta. unfold GlobalChat.onBroadcast. rewrite persist_messages. simpl.
  split; [apply appended_length|].
  split; [apply appended_last|apply appended_suffix].
Qed.

(** From a history of at most 50 entries, after any sequence of
    broadcasts received, messages sent, time passing and storage
    filling up or freeing, the history is exactly the last 50 of the
    old entries followed by everything that arrived, in arrival order. *)
Theorem global_history_is_last_fifty (es : list GlobalChat.GEvent)
    (s : GlobalChat.GState) :
  (length (GlobalChat.globalMessages s) ≤ 50)%nat →
  GlobalChat.globalMessages (GlobalChat.run es s)
  = GlobalChat.last_n 50 (GlobalChat.globalMessages s ++ GlobalChat.arrivals es s)
  ∧ (length (GlobalChat.globalMessages (GlobalChat.run es s)) ≤ 50)%nat.
Proof.
  intros Hlen.
  assert (GlobalChat.globalMessages (GlobalChat.run es s)
          = GlobalChat.last_n 50
              (GlobalChat.globalMessages s ++ GlobalChat.arrivals es s)) as ->.
  { apply run_last_n. symmetry. by apply last_n_short. }
  split; [done|]. unfold GlobalChat.last_n. rewrite length_drop. lia.
Qed.

Lemma appended_nonempty p prev : (0 < length (GlobalChat.appended p prev))%nat.
Proof. rewrite appended_length. unfold GlobalChat.MAX_GLOBAL_MESSAGES. lia. Qed.

Definition ann : UserProfile := mkProfile "ann" "" "" "" [].

(** A client in the global room, nothing stored. *)
Definition in_room : GlobalChat.GState :=
  GlobalChat.mount (Some ann) (Some "peer-a") 1000 None false.

Definition joke : GlobalChat.GlobalMessage :=
  GlobalChat.mkGlobalMessage "900x" "knock knock" stranger "bob" (Some "peer-b")
    (mkProfile "bob" "" "" "" []) 900 text.

Lemma global_history_is_last_fifty_witness :
  GlobalChat.g_text
  <$> GlobalChat.globalMessages
        (GlobalChat.run
           [GlobalChat.Broadcast joke; GlobalChat.Send "0.5" "who is there";
            GlobalChat.Resume 0] in_room)
  = ["knock knock"; "who is there"].
Proof.
  destruct (global_history_is_last_fifty
              [GlobalChat.Broadcast joke; GlobalChat.Send "0.5" "who is there";
               GlobalChat.Resume 0] in_room) as [-> _].
  - vm_compute. lia.
  - vm_compute. reflexivity.
Defined.

(** [sendGlobalMessage] returns at once, leaving everything as it is,
    when the channel does not exist or there is no profile.  Otherwise
    it hands the channel one message that names the sender [stranger]
    and carries the user's name, profile and (non-empty) peer id, and
    touches nothing else until the [await] returns.  A client that
    receives this payload appends it as it is; the sender, once the
    [await] returns, appends the same message with sender [me]. *)
Theorem global_send_reaches_both (rnd text_ : string) (s r : GlobalChat.GState) :
  (GlobalChat.channelRef s = false ∨ GlobalChat.userProfile s = None →
   GlobalChat.sendGlobalMessage rnd text_ s = s)
  ∧ (∀ profile,
       GlobalChat.channelRef s = true →
       GlobalChat.userProfile s = Some profile →
       let s1 := GlobalChat.sendGlobalMessage rnd text_ s in
       let m :=
         GlobalChat.mkGlobalMessage (toString (GlobalChat.now s) +:+ rnd) text_
           stranger (username profile)
           (if truthy (GlobalChat.myPeerId s) then GlobalChat.myPeerId s else None)
           profile (GlobalChat.now s) text in
       GlobalChat.broadcasts s1 = GlobalChat.broadcasts s ++ [m]
       ∧ GlobalChat.globalMessages s1 = GlobalChat.globalMessages s
       ∧ GlobalChat.global_chat_history s1 = GlobalChat.global_chat_history s
       ∧ last (GlobalChat.globalMessages (GlobalChat.onBroadcast m r)) = Some m
       ∧ last (GlobalChat.globalMessages
                 (GlobalChat.resume (length (GlobalChat.awaiting s)) s1))
         = Some (GlobalChat.as_mine m)).
Proof.
  split.
  - intros [Hc|Hp]; unfold GlobalChat.sendGlobalMessage.
    + by rewrite Hc.
    + rewrite Hp. by destruct (GlobalChat.channelRef s).
  - intros profile Hc Hp. cbv zeta. unfold GlobalChat.sendGlobalMessage.
    rewrite Hc, Hp. cbv zeta. simpl.
    repeat split.
    + unfold GlobalChat.onBroadcast. rewrite persist_messages. apply appended_last.
    + unfold GlobalChat.resume. simpl.
      rewrite lookup_app_r by done. rewrite Nat.sub_diag. simpl.
      rewrite persist_messages. apply appended_last.
Qed.

Lemma global_send_reaches_both_witness :
  GlobalChat.broadcasts (GlobalChat.sendGlobalMessage "0.5" "hi" in_room)
  = [GlobalChat.mkGlobalMessage "10000.5" "hi" stranger "ann" (Some "peer-a") ann
       1000 text]
  ∧ GlobalChat.sendGlobalMessage "0.5" "hi"
      (GlobalChat.mount None None 1000 None false)
    = GlobalChat.mount None None 1000 None false.
Proof.
  destruct (global_send_reaches_both "0.5" "hi" in_room in_room) as [_ Hsend].
  destruct (Hsend ann eq_refl eq_refl) as (Hb & _).
  destruct (global_send_reaches_both "0.5" "hi"
              (GlobalChat.mount None None 1000 None false) in_room) as [Hidle _].
  split.
  - rewrite Hb. vm_compute. reflexivity.
  - apply Hidle. right. reflexivity.
Defined.

(** While localStorage takes the write, every message that arrives is
    stored with the history, and a hook mounted on that storage starts
    from exactly this history.  While the quota is exceeded the history
    still grows, and the stored copy stays as it was. *)
Theorem global_history_reload (e : GlobalChat.GEvent) (s : GlobalChat.GState) :
  is_Some (GlobalChat.arrival e s) →
  let s' := GlobalChat.step e s in
  (GlobalChat.storageFull s = false →
   GlobalChat.global_chat_history s' = Some (GlobalChat.globalMessages s')
   ∧ ∀ profile peerId t full,
       GlobalChat.globalMessages
         (GlobalChat.mount profile peerId t (GlobalChat.global_chat_history s') full)
       = GlobalChat.globalMessages s')
  ∧ (GlobalChat.storageFull s = true →
     GlobalChat.global_chat_history s' = GlobalChat.global_chat_history s
     ∧ last (GlobalChat.globalMessages s') = GlobalChat.arrival e s).
Proof.
  intros [m Hm]. cbv zeta.
  assert (GlobalChat.global_chat_history (GlobalChat.step e s)
          = if GlobalChat.storageFull s then GlobalChat.global_chat_history s
            else Some (GlobalChat.globalMessages (GlobalChat.step e s))
          ) as Hh.
  { rewrite step_messages, Hm.
    destruct e as [p|rnd t|i|dt|full]; simpl in Hm; try discriminate.
    - injection Hm as <-. unfold GlobalChat.step, GlobalChat.onBroadcast,
        GlobalChat.persist. simpl.
      rewrite decide_True by apply appended_nonempty.
      by destruct (GlobalChat.storageFull s).
    - unfold GlobalChat.step, GlobalChat.resume.
      destruct (GlobalChat.awaiting s !! i) as [x|]; [|discriminate].
      injection Hm as <-. unfold GlobalChat.persist. simpl.
      rewrite decide_True by apply appended_nonempty.
      by destruct (GlobalChat.storageFull s). }
  split.
  - intros Hfull. rewrite Hfull in Hh. split; [done|].
    intros profile peerId t full. rewrite Hh. unfold GlobalChat.mount.
    by rewrite persist_messages.
  - intros Hfull. rewrite Hfull in Hh. split; [done|].
    rewrite step_messages, Hm. apply appended_last.
Qed.

Lemma global_history_reload_witness :
  GlobalChat.global_chat_history (GlobalChat.onBroadcast joke in_room) = Some [joke].
Proof.
  destruct (global_history_reload (GlobalChat.Broadcast joke) in_room) as [Hok _].
  - by exists joke.
  - destruct (Hok eq_refl) as [-> _]. vm_compute. reflexivity.
Defined.

(** ** The transport

    PeerJS marks a connection open before it runs its [open] listeners,
    and closed before it runs its [close] listeners. *)
Definition transport_open (conn : DataConnection) (s : State) : State :=
  setOpenConns (openConns s ∪ {[conn_ref conn]}) s.

Definition transport_close (conn : DataConnection) (s : State) : State :=
  setOpenConns (openConns s ∖ {[conn_ref conn]}) s.

(** ** The rest of the join-on-connect hook (part_002, first document)

    The functions the hook hands to its caller, and the callbacks it
    registers on the peer, on the channel and on every connection.  A
    callback that the source registers for later ([open] listeners, the
    [SUBSCRIBED] callback) is a function of its own here, and runs as an
    event of its own.  The [error] cell is only ever written by the hook
    and is left out. *)
Module JoinActions.

(** [mainConnRef.current && status === ChatMode.CONNECTED], the guard of
    every function that sends on the main connection. *)
Definition connected_main (s : State) : option DataConnection :=
  match mainConnRef s with
  | Some c => if bool_decide (status s = CONNECTED) then Some c else None
  | None => None
  end.

(** [sendMessage] (lines 540-555); [rnd] is
    [Math.random().toString(36).substring(2)]. *)
Definition sendMessage (rnd text_ : string) (s : State) : State :=
  let id := toString (now s) +:+ rnd in
  let s :=
    match connected_main s with
    | Some c => send c (Dmessage text_ (Some text) (Some id)) s
    | None => s
    end in
  setMessages
    (messages s
     ++ [mkMessage id me (now s) text (Some []) (Some text_) None (Some sent) None])
    s.

(** [sendImage] (lines 557-572) *)
Definition sendImage (rnd base64Image : string) (s : State) : State :=
  let id := toString (now s) +:+ rnd in
  let s :=
    match connected_main s with
    | Some c => send c (Dmessage base64Image (Some image) (Some id)) s
    | None => s
    end in
  setMessages
    (messages s
     ++ [mkMessage id me (now s) image (Some []) None (Some base64Image)
           (Some sent) None])
    s.

(** [sendAudio] (lines 574-589) *)
Definition sendAudio (rnd base64Audio : string) (s : State) : State :=
  let id := toString (now s) +:+ rnd in
  let s :=
    match connected_main s with
    | Some c => send c (Dmessage base64Audio (Some audio) (Some id)) s
    | None => s
    end in
  setMessages
    (messages s
     ++ [mkMessage id me (now s) audio (Some []) None (Some base64Audio)
           (Some sent) None])
    s.

(** The updater of [sendReaction], per message (lines 593-596). *)
Definition react_mine (messageId emoji_ : string) (m : Message) : Message :=
  if bool_decide (m_id m = messageId)
  then with_reactions (default [] (m_reactions m) ++ [mkReaction emoji_ me]) m
  else m.

(** [sendReaction] (lines 591-602) *)
Definition sendReaction (messageId emoji_ : string) (s : State) : State :=
  let s := setMessages (react_mine messageId emoji_ <$> messages s) s in
  match connected_main s with
  | Some c => send c (Dreaction emoji_ (Some messageId)) s
  | None => s
  end.

(** The updater of [editMessage], per message (line 606). *)
Definition edit_mine (messageId newText : string) (m : Message) : Message :=
  if bool_decide (m_id m = messageId) then with_edit newText m else m.

(** [editMessage] (lines 604-613) *)
Definition editMessage (messageId newText : string) (s : State) : State :=
  let s := setMessages (edit_mine messageId newText <$> messages s) s in
  match connected_main s with
  | Some c => send c (Dedit_message newText (Some messageId)) s
  | None => s
  end.

(** [sendTyping] (lines 728-732) *)
Definition sendTyping (isTyping : bool) (s : State) : State :=
  match connected_main s with
  | Some c => send c (Dtyping isTyping) s
  | None => s
  end.

(** [sendRecording] (lines 734-738) *)
Definition sendRecording (isRecording : bool) (s : State) : State :=
  match connected_main s with
  | Some c => send c (Drecording isRecording) s
  | None => s
  end.

(** [sendVanishMode] (lines 758-762) *)
Definition sendVanishMode (isEnabled : bool) (s : State) : State :=
  match connected_main s with
  | Some c => send c (Dvanish_mode isEnabled) s
  | None => s
  end.

(** [sendFriendRequest] (lines 764-768) *)
Definition sendFriendRequest (s : State) : State :=
  match connected_main s, userProfile s with
  | Some c, Some profile => send c (Dfriend_request profile) s
  | _, _ => s
  end.

(** [peerRef.current.connect(target, { reliable: true, metadata })]
    inside its [try], followed by [setupConnection] when a connection
    comes back: the connection, if any, and the state. *)
Definition connect_direct (target : string) (r : ConnectResult) (s : State)
    : option DataConnection * State :=
  let s := effect (Connect target (Some direct)) s in
  match r with
  | Returned ref =>
      let conn := mkConn ref target in
      (Some conn, Join.setupConnection conn (Some direct) s)
  | ReturnedUndefined => (None, s)
  | Threw => (None, s)
  end.

(** [sendDirectMessage] (lines 616-642) *)
Definition sendDirectMessage (targetPeerId text_ : string) (id : option string)
    (r : ConnectResult) (s : State) : State :=
  let '(conn, s) :=
    match directConnsRef s !! targetPeerId, peerRef s with
    | Some c, _ => (Some c, s)
    | None, Some _ => connect_direct targetPeerId r s
    | None, None => (None, s)
    end in
  match conn with
  | Some c =>
      send c (Dmessage text_ (Some text) (Some (or_else id (toString (now s))))) s
  | None => s
  end.

(** [sendDirectImage] (lines 645-656) *)
Definition sendDirectImage (targetPeerId base64Image : string)
    (id : option string) (s : State) : State :=
  match directConnsRef s !! targetPeerId with
  | Some c =>
      send c
        (Dmessage base64Image (Some image) (Some (or_else id (toString (now s))))) s
  | None => s
  end.

(** [sendDirectAudio] (lines 658-669) *)
Definition sendDirectAudio (targetPeerId base64Audio : string)
    (id : option string) (s : State) : State :=
  match directConnsRef s !! targetPeerId with
  | Some c =>
      send c
        (Dmessage base64Audio (Some audio) (Some (or_else id (toString (now s))))) s
  | None => s
  end.

(** [sendDirectTyping] (lines 671-676) *)
Definition sendDirectTyping (targetPeerId : string) (isTyping : bool)
    (s : State) : State :=
  match directConnsRef s !! targetPeerId with
  | Some c => send c (Dtyping isTyping) s
  | None => s
  end.

(** [sendDirectFriendRequest] (lines 680-706), the part that runs at
    once.  On a fresh connection the request itself goes out from an
    [open] listener, [onRequestOpen] below. *)
Definition sendDirectFriendRequest (targetPeerId : string) (r : ConnectResult)
    (s : State) : State :=
  match userProfile s with
  | None => s
  | Some profile =>
      match directConnsRef s !! targetPeerId with
      | Some c =>
          if is_open c s then send c (Dfriend_request profile) s
          else match peerRef s with
               | Some _ => snd (connect_direct targetPeerId r s)
               | None => s
               end
      | None =>
          match peerRef s with
          | Some _ => snd (connect_direct targetPeerId r s)
          | None => s
          end
      end
  end.

(** The [open] listener [sendDirectFriendRequest] adds to a fresh
    connection (line 700); [profile] is the profile the call saw. *)
Definition onRequestOpen (profile : UserProfile) (conn : DataConnection)
    (s : State) : State :=
  send conn (Dfriend_request profile) s.

(** [initPeer] (lines 399-434), the part that runs at once.  A peer made
    with an id has that id from the start; one made without gets it
    when it opens. *)
Definition initPeer (persistentId : option string) (s : State) : State :=
  match peerRef s with
  | Some _ => s
  | None =>
      setPeerRef (Some (mkPeer (if truthy persistentId then persistentId else None))) s
  end.

(** The [open] listener of the peer (lines 411-414). *)
Definition onPeerOpen (id : string) (s : State) : State :=
  let s :=
    match peerRef s with
    | Some _ => setPeerRef (Some (mkPeer (Some id))) s
    | None => s
    end in
  setMyPeerId (Some id) (setMyPeerIdRef (Some id) s).

(** The [error] listener of the peer (lines 421-431); [unavailable] says
    that [err.type] is ['peer-unavailable']. *)
Definition onPeerError (unavailable : bool) (s : State) : State :=
  if unavailable && isMatchmakerRef s then setIsMatchmakerRef false s else s.

(** [callPeer] (lines 709-725) *)
Definition callPeer (persistentId : option string) (targetPeerId : string)
    (targetProfile : option UserProfile) (r : ConnectResult) (s : State) : State :=
  let s := initPeer persistentId s in
  let s :=
    match targetProfile with
    | Some p => saveToRecent p targetPeerId s
    | None => s
    end in
  match directConnsRef s !! targetPeerId with
  | Some _ => s
  | None =>
      let s := effect (Connect targetPeerId (Some direct)) s in
      match r with
      | Returned ref => Join.setupConnection (mkConn ref targetPeerId) (Some direct) s
      | _ => s
      end
  end.

(** [acceptFriendRequest] (lines 770-797), the part that runs at once.
    When neither an open direct connection nor the main connection
    leads to the requester, the acceptance goes out from the [open]
    listener of a fresh connection, [onAcceptOpen] below. *)
Definition acceptFriendRequest (request : option FriendRequest) (s : State) : State :=
  let target :=
    match request with
    | Some req => Some req
    | None => head (friendRequests s)
    end in
  match target, userProfile s with
  | Some target, Some profile =>
      let s := saveFriend (fr_profile target) (fr_peerId target) s in
      let s :=
        match directConnsRef s !! fr_peerId target with
        | Some directConn =>
            if is_open directConn s
            then send directConn (Dfriend_accept profile) s
            else
              match mainConnRef s with
              | Some c =>
                  if bool_decide (peer c = fr_peerId target)
                  then send c (Dfriend_accept profile) s
                  else
                    match peerRef s with
                    | Some _ => effect (Connect (fr_peerId target) None) s
                    | None => s
                    end
              | None =>
                  match peerRef s with
                  | Some _ => effect (Connect (fr_peerId target) None) s
                  | None => s
                  end
              end
        | None =>
            match mainConnRef s with
            | Some c =>
                if bool_decide (peer c = fr_peerId target)
                then send c (Dfriend_accept profile) s
                else
                  match peerRef s with
                  | Some _ => effect (Connect (fr_peerId target) None) s
                  | None => s
                  end
            | None =>
                match peerRef s with
                | Some _ => effect (Connect (fr_peerId target) None) s
                | None => s
                end
            end
        end in
      setFriendRequests
        (filter (λ req, fr_peerId req ≠ fr_peerId target) (friendRequests s)) s
  | _, _ => s
  end.

(** The [open] listener [acceptFriendRequest] adds to a fresh connection
    (lines 786-789); [profile] is the profile the call saw.  The
    [setTimeout] it starts is [onAcceptTimeout]. *)
Definition onAcceptOpen (profile : UserProfile) (conn : DataConnection)
    (s : State) : State :=
  send conn (Dfriend_accept profile) s.

(** The callback of that [setTimeout] (line 788). *)
Definition onAcceptTimeout (conn : DataConnection) (s : State) : State :=
  close conn s.

(** [updateMyProfile] (lines 740-756).  The envelope type
    ['profile_update'] has no branch in either data handler.  The
    direct connections are visited in the iteration order of the map. *)
Definition updateMyProfile (newProfile : UserProfile) (s : State) : State :=
  let s :=
    match connected_main s with
    | Some c => send c (Dother "profile_update") s
    | None => s
    end in
  let s :=
    fold_left (λ st kc, send kc.2 (Dother "profile_update") st)
      (map_to_list (directConnsRef s)) s in
  match channelRef s, myPeerIdRef s with
  | Some _, Some myId =>
      effect
        (Track (mkPresence myId
                  (if bool_decide (status s = CONNECTED) then busy else waiting)
                  (now s) (Some newProfile))) s
  | _, _ => s
  end.

(** [joinLobby] (lines 460-536), the part that runs at once: the
    channel is made and its handlers are registered. *)
Definition joinLobby (myId : string) (s : State) : State :=
  let s := setStatus SEARCHING s in
  let s :=
    match channelRef s with
    | Some _ => effect RemoveChannel s
    | None => s
    end in
  setChannelRef (Some myId) s.

(** The [subscribe] callback of [joinLobby] on ['SUBSCRIBED']
    (lines 524-535). *)
Definition onSubscribed (myId : string) (s : State) : State :=
  let s := effect (Track (mkPresence myId waiting (now s) (userProfile s))) s in
  let s := setStatus WAITING s in
  setIsConnectingRef false s.

(** [connect] (lines 438-458).  When the peer has no id yet,
    [joinLobby] is left to an [open] listener. *)
Definition connect (persistentId : option string) (s : State) : State :=
  if isConnectingRef s then s
  else
    let s := setIsConnectingRef true s in
    let s := Join.cleanupMain s in
    let s := setMessages [] s in
    let s := setPartnerProfile None s in
    let s := setRemoteVanishMode None s in
    let s := setFriendRequests [] s in
    let s := setIsMatchmakerRef false s in
    let s := initPeer persistentId s in
    match peerRef s with
    | Some p =>
        match peer_id p with
        | Some id => if truthy (peer_id p) then joinLobby id s else s
        | None => s
        end
    | None => s
    end.

Section Callbacks.
(** [INITIAL_GREETING] comes from [constants.ts]. *)
Variable INITIAL_GREETING : Message.

(** The [open] listener of a connection (lines 364-373). *)
Definition onOpen (conn : DataConnection) (s : State) : State :=
  let s :=
    if is_main conn s
    then setMessages [INITIAL_GREETING] (setStatus CONNECTED s)
    else s in
  match userProfile s with
  | Some profile => send conn (Dprofile profile) s
  | None => s
  end.

(** The [close] listener of a connection (lines 377-385).  [status] is
    the value the listener closed over when [setupConnection] was
    made. *)
Definition onClose (status_ : ChatMode) (conn : DataConnection) (s : State) : State :=
  if is_main conn s && bool_decide (status_ = CONNECTED) then
    let s := setStatus DISCONNECTED s in
    let s := setMessages [] s in
    setPartnerPeerId None s
  else setDirectConnsRef (delete (peer conn) (directConnsRef s)) s.

(** The [error] listener of a connection (lines 387-394). *)
Definition onError (status_ : ChatMode) (conn : DataConnection) (s : State) : State :=
  if is_main conn s
     && (bool_decide (status_ = SEARCHING) || bool_decide (status_ = WAITING))
  then setIsMatchmakerRef false s
  else s.

(** Everything that can run, one callback at a time.  [SetMessages] is
    the setter of the history, which the hook hands to its caller. *)
Inductive Call :=
| Inbound (e : Event)
| Incoming (conn : DataConnection) (metadata : option ConnectionMetadata)
| Opened (conn : DataConnection)
| Closed (status_ : ChatMode) (conn : DataConnection)
| Failed (status_ : ChatMode) (conn : DataConnection)
| PeerOpened (id : string)
| PeerFailed (unavailable : bool)
| Subscribed (myId : string)
| JoinLobby (myId : string)
| CallConnect (persistentId : option string)
| SendMessage (rnd text_ : string)
| SendImage (rnd base64Image : string)
| SendAudio (rnd base64Audio : string)
| SendReaction (messageId emoji_ : string)
| EditMessage (messageId newText : string)
| SendTyping (isTyping : bool)
| SendRecording (isRecording : bool)
| SendVanishMode (isEnabled : bool)
| SendFriendRequest
| SendDirectMessage (targetPeerId text_ : string) (id : option string)
    (r : ConnectResult)
| SendDirectImage (targetPeerId base64Image : string) (id : option string)
| SendDirectAudio (targetPeerId base64Audio : string) (id : option string)
| SendDirectTyping (targetPeerId : string) (isTyping : bool)
| SendDirectFriendRequest (targetPeerId : string) (r : ConnectResult)
| RequestOpened (profile : UserProfile) (conn : DataConnection)
| CallPeer (persistentId : option string) (targetPeerId : string)
    (targetProfile : option UserProfile) (r : ConnectResult)
| AcceptFriendRequest (request : option FriendRequest)
| UpdateMyProfile (newProfile : UserProfile)
| SetMessages (v : list Message)
| AcceptOpened (profile : UserProfile) (conn : DataConnection)
| AcceptTimedOut (conn : DataConnection).

Definition call (c : Call) (s : State) : State :=
  match c with
  | Inbound e => Join.step e s
  | Incoming conn metadata => Join.setupConnection conn metadata s
  | Opened conn => onOpen conn (transport_open conn s)
  | Closed status_ conn => onClose status_ conn (transport_close conn s)
  | Failed status_ conn => onError status_ conn s
  | PeerOpened id => onPeerOpen id s
  | PeerFailed unavailable => onPeerError unavailable s
  | Subscribed myId => onSubscribed myId s
  | JoinLobby myId => joinLobby myId s
  | CallConnect persistentId => connect persistentId s
  | SendMessage rnd text_ => sendMessage rnd text_ s
  | SendImage rnd base64Image => sendImage rnd base64Image s
  | SendAudio rnd base64Audio => sendAudio rnd base64Audio s
  | SendReaction messageId emoji_ => sendReaction messageId emoji_ s
  | EditMessage messageId newText => editMessage messageId newText s
  | SendTyping isTyping => sendTyping isTyping s
  | SendRecording isRecording => sendRecording isRecording s
  | SendVanishMode isEnabled => sendVanishMode isEnabled s
  | SendFriendRequest => sendFriendRequest s
  | SendDirectMessage targetPeerId text_ id r =>
      sendDirectMessage targetPeerId text_ id r s
  | SendDirectImage targetPeerId base64Image id =>
      sendDirectImage targetPeerId base64Image id s
  | SendDirectAudio targetPeerId base64Audio id =>
      sendDirectAudio targetPeerId base64Audio id s
  | SendDirectTyping targetPeerId isTyping => sendDirectTyping targetPeerId isTyping s
  | SendDirectFriendRequest targetPeerId r => sendDirectFriendRequest targetPeerId r s
  | RequestOpened profile conn => onRequestOpen profile conn (transport_open conn s)
  | CallPeer persistentId targetPeerId targetProfile r =>
      callPeer persistentId targetPeerId targetProfile r s
  | AcceptFriendRequest request => acceptFriendRequest request s
  | UpdateMyProfile newProfile => updateMyProfile newProfile s
  | SetMessages v => setMessages v s
  | AcceptOpened profile conn => onAcceptOpen profile conn (transport_open conn s)
  | AcceptTimedOut conn => onAcceptTimeout conn s
  end.

Definition calls (cs : list Call) (s : State) : State :=
  fold_left (λ st c, call c st) cs s.

End Callbacks.

End JoinActions.

(** ** The rest of the polling hook (part_001, second document)

    As above. *)
Module LobbyActions.

(** [sendMessage] (lines 1059-1065); [rnd] is [Math.random()] as a
    string. *)
Definition sendMessage (rnd text_ : string) (s : State) : State :=
  match mainConnRef s with
  | Some c =>
      if is_open c s then
        let id := toString (now s) +:+ rnd in
        let s := send c (Dmessage text_ (Some text) (Some id)) s in
        setMessages
          (messages s
           ++ [mkMessage id me (now s) text (Some []) (Some text_) None
                 (Some sent) None])
          s
      else s
  | None => s
  end.

(** [sendImage] (lines 1067-1073) *)
Definition sendImage (rnd b64 : string) (s : State) : State :=
  match mainConnRef s with
  | Some c =>
      if is_open c s then
        let id := toString (now s) +:+ rnd in
        let s := send c (Dmessage b64 (Some image) (Some id)) s in
        setMessages
          (messages s
           ++ [mkMessage id me (now s) image (Some []) None (Some b64)
                 (Some sent) None])
          s
      else s
  | None => s
  end.

(** [sendAudio] (lines 1075-1081) *)
Definition sendAudio (rnd b64 : string) (s : State) : State :=
  match mainConnRef s with
  | Some c =>
      if is_open c s then
        let id := toString (now s) +:+ rnd in
        let s := send c (Dmessage b64 (Some audio) (Some id)) s in
        setMessages
          (messages s
           ++ [mkMessage id me (now s) audio (Some []) None (Some b64)
                 (Some sent) None])
          s
      else s
  | None => s
  end.

(** [if (mainConnRef.current?.open) mainConnRef.current.send(data)] *)
Definition send_if_open (data : PeerData) (s : State) : State :=
  match mainConnRef s with
  | Some c => if is_open c s then send c data s else s
  | None => s
  end.

(** The updater of [sendReaction], per message (line 1085). *)
Definition react_mine (msgId emoji_ : string) (m : Message) : Message :=
  if bool_decide (m_id m = msgId)
  then with_reactions (default [] (m_reactions m) ++ [mkReaction emoji_ me]) m
  else m.

(** [sendReaction] (lines 1083-1086) *)
Definition sendReaction (msgId emoji_ : string) (s : State) : State :=
  let s := send_if_open (Dreaction emoji_ (Some msgId)) s in
  setMessages (react_mine msgId emoji_ <$> messages s) s.

(** The updater of [editMessage], per message (line 1090). *)
Definition edit_mine (msgId text_ : string) (m : Message) : Message :=
  if bool_decide (m_id m = msgId) then with_edit text_ m else m.

(** [editMessage] (lines 1088-1091) *)
Definition editMessage (msgId text_ : string) (s : State) : State :=
  let s := send_if_open (Dedit_message text_ (Some msgId)) s in
  setMessages (edit_mine msgId text_ <$> messages s) s.

(** [sendTyping] (lines 1093-1095) *)
Definition sendTyping (typing_ : bool) (s : State) : State :=
  send_if_open (Dtyping typing_) s.

(** [sendRecording] (lines 1097-1099) *)
Definition sendRecording (rec : bool) (s : State) : State :=
  send_if_open (Drecording rec) s.

(** [sendVanishMode] (lines 1101-1103) *)
Definition sendVanishMode (val : bool) (s : State) : State :=
  send_if_open (Dvanish_mode val) s.

(** [sendFriendRequest] (lines 1105-1107) *)
Definition sendFriendRequest (s : State) : State :=
  match userProfile s with
  | Some profile => send_if_open (Dfriend_request profile) s
  | None => s
  end.

(** [const conn = directConnsRef.current.get(peerId);
     if (conn?.open) conn.send(data)] *)
Definition send_direct (peerId : string) (data : PeerData) (s : State) : State :=
  match directConnsRef s !! peerId with
  | Some c => if is_open c s then send c data s else s
  | None => s
  end.

(** [sendDirectMessage] (lines 1109-1112) *)
Definition sendDirectMessage (peerId text_ : string) (id : option string)
    (s : State) : State :=
  send_direct peerId
    (Dmessage text_ (Some text) (Some (or_else id (toString (now s))))) s.

(** [sendDirectImage] (lines 1114-1117) *)
Definition sendDirectImage (peerId b64 : string) (id : option string)
    (s : State) : State :=
  send_direct peerId
    (Dmessage b64 (Some image) (Some (or_else id (toString (now s))))) s.

(** [sendDirectAudio] (lines 1119-1122) *)
Definition sendDirectAudio (peerId b64 : string) (id : option string)
    (s : State) : State :=
  send_direct peerId
    (Dmessage b64 (Some audio) (Some (or_else id (toString (now s))))) s.

(** [sendDirectTyping] (lines 1124-1127) *)
Definition sendDirectTyping (peerId : string) (typing_ : bool) (s : State) : State :=
  send_direct peerId (Dtyping typing_) s.

(** [sendDirectReaction] (lines 1129-1132) *)
Definition sendDirectReaction (peerId messageId emoji_ : string) (s : State) : State :=
  send_direct peerId (Dreaction emoji_ (Some messageId)) s.

(** [sendDirectFriendRequest] (lines 1134-1148), the part that runs at
    once; the listener it adds to a fresh connection is
    [onRequestOpen]. *)
Definition sendDirectFriendRequest (peerId : string) (s : State) : State :=
  match userProfile s with
  | None => s
  | Some profile =>
      let fresh (s : State) : State :=
        match peerRef s with
        | Some _ => effect (Connect peerId (Some direct)) s
        | None => s
        end in
      match directConnsRef s !! peerId with
      | Some c =>
          if is_open c s then send c (Dfriend_request profile) s else fresh s
      | None => fresh s
      end
  end.

(** The [open] listener of that connection (lines 1142-1145). *)
Definition onRequestOpen (profile : UserProfile) (tempConn : DataConnection)
    (s : State) : State :=
  Lobby.setupConnection tempConn (Some direct)
    (send tempConn (Dfriend_request profile) s).

(** [callPeer] (lines 1150-1156) *)
Definition callPeer (peerId : string) (profile : option UserProfile)
    (r : ConnectResult) (s : State) : State :=
  let s :=
    match profile with
    | Some p => saveToRecent p peerId s
    | None => s
    end in
  match directConnsRef s !! peerId, peerRef s with
  | None, Some _ =>
      let s := effect (Connect peerId (Some direct)) s in
      match r with
      | Returned ref => Lobby.setupConnection (mkConn ref peerId) (Some direct) s
      | _ => s
      end
  | _, _ => s
  end.

(** [acceptFriendRequest] (lines 1158-1173), the part that runs at once;
    the listener it adds to a fresh connection is [onAcceptOpen].  The
    call of [connect] is not inside a [try]: when it throws, the rest
    of the function does not run. *)
Definition acceptFriendRequest (req : option FriendRequest) (r : ConnectResult)
    (s : State) : State :=
  let target :=
    match req with
    | Some r => Some r
    | None => head (friendRequests s)
    end in
  match target, userProfile s with
  | Some target, Some profile =>
      let s := saveFriend (fr_profile target) (fr_peerId target) s in
      let conn :=
        match directConnsRef s !! fr_peerId target with
        | Some c => Some c
        | None => mainConnRef s
        end in
      let accepted (s : State) : State :=
        setFriendRequests
          (filter (λ r, fr_peerId r ≠ fr_peerId target) (friendRequests s)) s in
      let fresh (s : State) : State :=
        match peerRef s with
        | Some _ =>
            let s := effect (Connect (fr_peerId target) None) s in
            match r with
            | Threw => s
            | _ => accepted s
            end
        | None => accepted s
        end in
      match conn with
      | Some c =>
          if is_open c s && bool_decide (peer c = fr_peerId target)
          then accepted (send c (Dfriend_accept profile) s)
          else fresh s
      | None => fresh s
      end
  | _, _ => s
  end.

(** The [open] listener of that connection (lines 1167-1169). *)
Definition onAcceptOpen (profile : UserProfile) (temp : DataConnection)
    (s : State) : State :=
  send temp (Dfriend_accept profile) s.

(** [isPeerConnected] (lines 1183-1185) *)
Definition isPeerConnected (peerId : string) (s : State) : bool :=
  bool_decide (peerId ∈ activeDirectConnections s).

(** [connect] (lines 1037-1052) *)
Definition connect (s : State) : State :=
  match channelRef s, myPeerIdRef s with
  | Some _, Some myId =>
      if truthy (myPeerIdRef s) then
        let s := setStatus SEARCHING s in
        let s := setMessages [] s in
        effect (Track (mkPresence myId waiting (now s) (userProfile s))) s
      else s
  | _, _ => s
  end.

(** The effect that makes the peer once there is a profile
    (lines 659-696), the part that runs at once.  A peer made with an id
    has that id from the start. *)
Definition initPeer (persistentId : option string) (s : State) : State :=
  match userProfile s, peerRef s with
  | Some _, None =>
      setPeerRef (Some (mkPeer (if truthy persistentId then persistentId else None))) s
  | _, _ => s
  end.

(** The [open] listener of the peer (lines 671-675), and with it the
    lobby effect (lines 700-731), which runs again when [myPeerId]
    changes: it leaves the channel it had joined and, with a profile at
    hand, makes the one keyed by the new id. *)
Definition onPeerOpen (id : string) (s : State) : State :=
  let changed := bool_decide (myPeerId s ≠ Some id) in
  let s := setMyPeerId (Some id) (setMyPeerIdRef (Some id) s) in
  if changed then
    let s :=
      match channelRef s with
      | Some _ => setChannelRef None (effect RemoveChannel (effect Untrack s))
      | None => s
      end in
    match userProfile s with
    | Some _ => if truthy (Some id) then setChannelRef (Some id) s else s
    | None => s
    end
  else s.

(** The [error] listener of the peer (lines 682-691); [unavailable]
    says that [err.type] is ['peer-unavailable'].  The retry it
    schedules while the status it closed over is SEARCHING is [onRetry]. *)
Definition onPeerError (unavailable : bool) (s : State) : State :=
  if unavailable && isMatchmakerRef s then setIsMatchmakerRef false s else s.

(** The callback of that [setTimeout] (line 688). *)
Definition onRetry (s : State) : State := setStatus SEARCHING s.

(** The [subscribe] callback of the lobby effect on ['SUBSCRIBED']
    (lines 715-724); [myPeerId] is the id the effect ran with. *)
Definition onSubscribed (myPeerId_ : string) (s : State) : State :=
  effect (Track (mkPresence myPeerId_ idle (now s) (userProfile s))) s.

Section Callbacks.
(** [INITIAL_GREETING] comes from [constants.ts]. *)
Variable INITIAL_GREETING : Message.

(** The [open] listener of a connection (lines 993-1002). *)
Definition onOpen (conn : DataConnection) (s : State) : State :=
  let s :=
    if is_main conn s
    then setMessages [INITIAL_GREETING] (setStatus CONNECTED s)
    else s in
  match userProfile s with
  | Some profile => send conn (Dprofile profile) s
  | None => s
  end.

(** The [close] listener of a connection (lines 1006-1019).  [status]
    is the value the listener closed over when [setupConnection] was
    made. *)
Definition onClose (status_ : ChatMode) (conn : DataConnection) (s : State) : State :=
  if is_main conn s && bool_decide (status_ = CONNECTED) then
    let s := setStatus DISCONNECTED s in
    let s := setMessages [] s in
    setPartnerPeerId None s
  else
    let s := setDirectConnsRef (delete (peer conn) (directConnsRef s)) s in
    setActiveDirectConnections (activeDirectConnections s ∖ {[peer conn]}) s.

(** The [error] listener of a connection (lines 1021-1030). *)
Definition onError (status_ : ChatMode) (conn : DataConnection) (s : State) : State :=
  if is_main conn s && bool_decide (status_ = SEARCHING)
  then setMainConnRef None (setIsMatchmakerRef false s)
  else s.

(** Everything that can run, one callback at a time.  [SetMessages] is
    the setter of the history, which the hook hands to its caller. *)
Inductive Call :=
| Inbound (e : Event)
| Incoming (conn : DataConnection) (metadata : option ConnectionMetadata)
| Opened (conn : DataConnection)
| Closed (status_ : ChatMode) (conn : DataConnection)
| Failed (status_ : ChatMode) (conn : DataConnection)
| PeerEffect (persistentId : option string)
| PeerOpened (id : string)
| Subscribed (myPeerId_ : string)
| CallConnect
| SendMessage (rnd text_ : string)
| SendImage (rnd b64 : string)
| SendAudio (rnd b64 : string)
| SendReaction (msgId emoji_ : string)
| EditMessage (msgId text_ : string)
| SendTyping (typing_ : bool)
| SendRecording (rec : bool)
| SendVanishMode (val : bool)
| SendFriendRequest
| SendDirectMessage (peerId text_ : string) (id : option string)
| SendDirectImage (peerId b64 : string) (id : option string)
| SendDirectAudio (peerId b64 : string) (id : option string)
| SendDirectTyping (peerId : string) (typing_ : bool)
| SendDirectReaction (peerId messageId emoji_ : string)
| SendDirectFriendRequest (peerId : string)
| RequestOpened (profile : UserProfile) (tempConn : DataConnection)
| CallPeer (peerId : string) (profile : option UserProfile) (r : ConnectResult)
| AcceptFriendRequest (req : option FriendRequest) (r : ConnectResult)
| AcceptOpened (profile : UserProfile) (temp : DataConnection)
| PeerFailed (unavailable : bool)
| Retry
| SetMessages (v : list Message).

Definition call (c : Call) (s : State) : State :=
  match c with
  | Inbound e => Lobby.step e s
  | Incoming conn metadata => Lobby.setupConnection conn metadata s
  | Opened conn => onOpen conn (transport_open conn s)
  | Closed status_ conn => onClose status_ conn (transport_close conn s)
  | Failed status_ conn => onError status_ conn s
  | PeerEffect persistentId => initPeer persistentId s
  | PeerOpened id => onPeerOpen id s
  | Subscribed myPeerId_ => onSubscribed myPeerId_ s
  | CallConnect => connect s
  | SendMessage rnd text_ => sendMessage rnd text_ s
  | SendImage rnd b64 => sendImage rnd b64 s
  | SendAudio rnd b64 => sendAudio rnd b64 s
  | SendReaction msgId emoji_ => sendReaction msgId emoji_ s
  | EditMessage msgId text_ => editMessage msgId text_ s
  | SendTyping typing_ => sendTyping typing_ s
  | SendRecording rec => sendRecording rec s
  | SendVanishMode val => sendVanishMode val s
  | SendFriendRequest => sendFriendRequest s
  | SendDirectMessage peerId text_ id => sendDirectMessage peerId text_ id s
  | SendDirectImage peerId b64 id => sendDirectImage peerId b64 id s
  | SendDirectAudio peerId b64 id => sendDirectAudio peerId b64 id s
  | SendDirectTyping peerId typing_ => sendDirectTyping peerId typing_ s
  | SendDirectReaction peerId messageId emoji_ =>
      sendDirectReaction peerId messageId emoji_ s
  | SendDirectFriendRequest peerId => sendDirectFriendRequest peerId s
  | RequestOpened profile tempConn =>
      onRequestOpen profile tempConn (transport_open tempConn s)
  | CallPeer peerId profile r => callPeer peerId profile r s
  | AcceptFriendRequest req r => acceptFriendRequest req r s
  | AcceptOpened profile temp => onAcceptOpen profile temp (transport_open temp s)
  | PeerFailed unavailable => onPeerError unavailable s
  | Retry => onRetry s
  | SetMessages v => setMessages v s
  end.

Definition calls (cs : list Call) (s : State) : State :=
  fold_left (λ st c, call c st) cs s.

End Callbacks.

End LobbyActions.

(** *** Sending on the main connection *)

(** What a guarded send on the main connection puts on the wire. *)
Definition main_sends (data : PeerData) (s : State) : list Effect :=
  match JoinActions.connected_main s with
  | Some c => [Send (conn_ref c) data]
  | None => []
  end.

Lemma guarded_send_eq data s :
  match JoinActions.connected_main s with
  | Some c => send c data s
  | None => s
  end = setEffects (effects s ++ main_sends data s) s.
Proof.
  unfold main_sends. destruct (JoinActions.connected_main s); [reflexivity|].
  rewrite app_nil_r. by destruct s.
Qed.

(** The message the sending functions append to the own history. *)
Definition outgoing (id payload : string) (dataType : DataType) (t : Z) : Message :=
  mkMessage id me t dataType (Some [])
    (if is_media (Some dataType) then None else Some payload)
    (if is_media (Some dataType) then Some payload else None)
    (Some sent) None.

(** [sendMessage], [sendImage] and [sendAudio], by the [dataType] they
    put into the envelope. *)
Definition Join_send (dataType : DataType) : string → string → State → State :=
  match dataType with
  | text => JoinActions.sendMessage
  | image => JoinActions.sendImage
  | audio => JoinActions.sendAudio
  end.

Definition Lobby_send (dataType : DataType) : string → string → State → State :=
  match dataType with
  | text => LobbyActions.sendMessage
  | image => LobbyActions.sendImage
  | audio => LobbyActions.sendAudio
  end.

Lemma Join_send_eq dataType rnd payload s :
  let id := toString (now s) +:+ rnd in
  Join_send dataType rnd payload s
  = setMessages (messages s ++ [outgoing id payload dataType (now s)])
      (setEffects
         (effects s ++ main_sends (Dmessage payload (Some dataType) (Some id)) s) s).
Proof.
  cbv zeta.
  destruct dataType; unfold Join_send, JoinActions.sendMessage,
    JoinActions.sendImage, JoinActions.sendAudio; cbv zeta;
    rewrite guarded_send_eq; reflexivity.
Qed.

(** What an unguarded-by-status send of the polling variant puts on the
    wire. *)
Definition open_sends (data : PeerData) (s : State) : list Effect :=
  match mainConnRef s with
  | Some c => if is_open c s then [Send (conn_ref c) data] else []
  | None => []
  end.

Lemma send_if_open_eq data s :
  LobbyActions.send_if_open data s = setEffects (effects s ++ open_sends data s) s.
Proof.
  unfold LobbyActions.send_if_open, open_sends.
  destruct (mainConnRef s) as [c|]; [destruct (is_open c s)|];
    first [reflexivity | rewrite app_nil_r; by destruct s].
Qed.

Lemma Lobby_send_open dataType rnd payload c s :
  mainConnRef s = Some c → is_open c s = true →
  let id := toString (now s) +:+ rnd in
  Lobby_send dataType rnd payload s
  = setMessages (messages s ++ [outgoing id payload dataType (now s)])
      (setEffects
         (effects s ++ [Send (conn_ref c) (Dmessage payload (Some dataType) (Some id))])
         s).
Proof.
  intros Hc Ho. cbv zeta.
  destruct dataType; unfold Lobby_send, LobbyActions.sendMessage,
    LobbyActions.sendImage, LobbyActions.sendAudio; rewrite Hc, Ho; reflexivity.
Qed.

Lemma Lobby_send_closed dataType rnd payload s :
  main_open s = false → Lobby_send dataType rnd payload s = s.
Proof.
  unfold main_open. intros Ho.
  destruct dataType; unfold Lobby_send, LobbyActions.sendMessage,
    LobbyActions.sendImage, LobbyActions.sendAudio;
    destruct (mainConnRef s); try done; by rewrite Ho.
Qed.

Lemma connected_main_None s :
  mainConnRef s = None ∨ status s ≠ CONNECTED → JoinActions.connected_main s = None.
Proof.
  unfold JoinActions.connected_main. intros [->|Hs]; [done|].
  destruct (mainConnRef s); [|done]. by rewrite bool_decide_false.
Qed.

Lemma connected_main_Some c s :
  mainConnRef s = Some c → status s = CONNECTED →
  JoinActions.connected_main s = Some c.
Proof.
  unfold JoinActions.connected_main. intros -> Hs. by rewrite bool_decide_true.
Qed.

Lemma main_sends_None data s :
  mainConnRef s = None ∨ status s ≠ CONNECTED → main_sends data s = [].
Proof. intros H. unfold main_sends. by rewrite connected_main_None. Qed.

Lemma main_sends_Some data c s :
  mainConnRef s = Some c → status s = CONNECTED →
  main_sends data s = [Send (conn_ref c) data].
Proof. intros Hc Hs. unfold main_sends. by rewrite (connected_main_Some c). Qed.

Lemma Join_sendReaction_eq messageId emoji_ s :
  JoinActions.sendReaction messageId emoji_ s
  = setEffects (effects s ++ main_sends (Dreaction emoji_ (Some messageId)) s)
      (setMessages (JoinActions.react_mine messageId emoji_ <$> messages s) s).
Proof.
  unfold JoinActions.sendReaction. cbv zeta. by rewrite guarded_send_eq.
Qed.

Lemma Join_editMessage_eq messageId newText s :
  JoinActions.editMessage messageId newText s
  = setEffects (effects s ++ main_sends (Dedit_message newText (Some messageId)) s)
      (setMessages (JoinActions.edit_mine messageId newText <$> messages s) s).
Proof.
  unfold JoinActions.editMessage. cbv zeta. by rewrite guarded_send_eq.
Qed.

(** In the join variant nothing goes out on the main connection unless
    a main connection is recorded and the status is CONNECTED.  The
    typing, recording, vanish-mode and friend-request signals are then
    dropped without a trace, while [sendMessage], [sendImage] and
    [sendAudio] still append the message, with status [sent], to the own
    history, and [sendReaction] and [editMessage] still update it. *)
Theorem Join_offline_send_is_local (s : State) :
  mainConnRef s = None ∨ status s ≠ CONNECTED →
  (∀ dataType rnd payload,
     let s' := Join_send dataType rnd payload s in
     effects s' = effects s
     ∧ messages s'
       = messages s
         ++ [outgoing (toString (now s) +:+ rnd) payload dataType (now s)]
     ∧ m_status <$> last (messages s') = Some (Some sent))
  ∧ (∀ messageId emoji_,
       let s' := JoinActions.sendReaction messageId emoji_ s in
       effects s' = effects s
       ∧ messages s' = JoinActions.react_mine messageId emoji_ <$> messages s)
  ∧ (∀ messageId newText,
       let s' := JoinActions.editMessage messageId newText s in
       effects s' = effects s
       ∧ messages s' = JoinActions.edit_mine messageId newText <$> messages s)
  ∧ (∀ b, JoinActions.sendTyping b s = s
          ∧ JoinActions.sendRecording b s = s
          ∧ JoinActions.sendVanishMode b s = s)
  ∧ JoinActions.sendFriendRequest s = s.
Proof.
  intros Hoff. pose proof (connected_main_None s Hoff) as Hc.
  repeat split.
  - rewrite Join_send_eq. cbn. rewrite main_sends_None by done. apply app_nil_r.
  - by rewrite Join_send_eq.
  - rewrite Join_send_eq. cbn. by rewrite last_snoc.
  - rewrite Join_sendReaction_eq. cbn. rewrite main_sends_None by done. apply app_nil_r.
  - by rewrite Join_sendReaction_eq.
  - rewrite Join_editMessage_eq. cbn. rewrite main_sends_None by done. apply app_nil_r.
  - by rewrite Join_editMessage_eq.
  - unfold JoinActions.sendTyping. by rewrite Hc.
  - unfold JoinActions.sendRecording. by rewrite Hc.
  - unfold JoinActions.sendVanishMode. by rewrite Hc.
  - unfold JoinActions.sendFriendRequest. by rewrite Hc.
Qed.

Lemma Join_offline_send_is_local_witness :
  effects (Join_send text "k3" "hello?" (initial None)) = []
  ∧ m_text <$> messages (Join_send text "k3" "hello?" (initial None))
    = [Some "hello?"].
Proof.
  destruct (Join_offline_send_is_local (initial None)) as (Hsend & _);
    [by left|].
  destruct (Hsend text "k3" "hello?") as (He & Hm & _).
  split; [exact He|]. rewrite Hm. reflexivity.
Defined.

Lemma Lobby_sendReaction_eq msgId emoji_ s :
  LobbyActions.sendReaction msgId emoji_ s
  = setMessages (LobbyActions.react_mine msgId emoji_ <$> messages s)
      (setEffects (effects s ++ open_sends (Dreaction emoji_ (Some msgId)) s) s).
Proof.
  unfold LobbyActions.sendReaction. cbv zeta. by rewrite send_if_open_eq.
Qed.

Lemma Lobby_editMessage_eq msgId text_ s :
  LobbyActions.editMessage msgId text_ s
  = setMessages (LobbyActions.edit_mine msgId text_ <$> messages s)
      (setEffects (effects s ++ open_sends (Dedit_message text_ (Some msgId)) s) s).
Proof.
  unfold LobbyActions.editMessage. cbv zeta. by rewrite send_if_open_eq.
Qed.

Lemma open_sends_closed data s : main_open s = false → open_sends data s = [].
Proof.
  unfold main_open, open_sends. destruct (mainConnRef s); [|done]. by intros ->.
Qed.

Lemma send_if_open_closed data s :
  main_open s = false → LobbyActions.send_if_open data s = s.
Proof.
  unfold main_open, LobbyActions.send_if_open.
  destruct (mainConnRef s); [|done]. by intros ->.
Qed.

(** In the polling variant, while no open main connection is recorded,
    [sendMessage], [sendImage], [sendAudio] and the typing, recording,
    vanish-mode and friend-request signals leave the whole state as it
    is: nothing is sent and nothing is appended.  [sendReaction] and
    [editMessage] send nothing either, but still update the own
    history. *)
Theorem Lobby_closed_send_is_dropped (s : State) :
  main_open s = false →
  (∀ dataType rnd payload, Lobby_send dataType rnd payload s = s)
  ∧ (∀ b, LobbyActions.sendTyping b s = s
          ∧ LobbyActions.sendRecording b s = s
          ∧ LobbyActions.sendVanishMode b s = s)
  ∧ LobbyActions.sendFriendRequest s = s
  ∧ (∀ msgId emoji_,
       let s' := LobbyActions.sendReaction msgId emoji_ s in
       effects s' = effects s
       ∧ messages s' = LobbyActions.react_mine msgId emoji_ <$> messages s)
  ∧ (∀ msgId text_,
       let s' := LobbyActions.editMessage msgId text_ s in
       effects s' = effects s
       ∧ messages s' = LobbyActions.edit_mine msgId text_ <$> messages s).
Proof.
  intros Hclosed. repeat split.
  - intros. by apply Lobby_send_closed.
  - by apply send_if_open_closed.
  - by apply send_if_open_closed.
  - by apply send_if_open_closed.
  - unfold LobbyActions.sendFriendRequest.
    destruct (userProfile s); [|done]. by apply send_if_open_closed.
  - rewrite Lobby_sendReaction_eq. cbn. rewrite open_sends_closed by done.
    apply app_nil_r.
  - by rewrite Lobby_sendReaction_eq.
  - rewrite Lobby_editMessage_eq. cbn. rewrite open_sends_closed by done.
    apply app_nil_r.
  - by rewrite Lobby_editMessage_eq.
Qed.

Lemma Lobby_closed_send_is_dropped_witness :
  LobbyActions.sendMessage "0.5" "hello?" (initial None) = initial None.
Proof.
  destruct (Lobby_closed_send_is_dropped (initial None)) as (Hsend & _);
    [reflexivity|].
  exact (Hsend text "0.5" "hello?").
Defined.

(** *** A message and its acknowledgement *)

Lemma is_main_recorded c s : mainConnRef s = Some c → is_main c s = true.
Proof. unfold is_main. intros ->. by rewrite bool_decide_true. Qed.

Lemma mark_seen_outgoing id payload dataType t :
  mark_seen (Some id) (outgoing id payload dataType t)
  = with_status seen (outgoing id payload dataType t).
Proof. unfold mark_seen, id_matches. simpl. by rewrite bool_decide_true. Qed.

Lemma truthy_generated n rnd : truthy (Some (toString n +:+ rnd)) = true.
Proof.
  unfold truthy. apply bool_decide_eq_true. apply toString_append_nonempty.
Qed.

(** The join variant on both ends.  A client that is connected sends a
    text, an image or a voice note; its partner handles the envelope on
    its main connection; the client handles the acknowledgement that
    comes back.  The partner's history then ends with the message under
    the sender's id, and the sender's copy, which was appended with
    status [sent], has status [seen]; no other message changes unless it
    carries the same id. *)
Theorem Join_delivery_round_trip (dataType : DataType)
    (rnd rnd1 rnd2 payload : string) (ca cb : DataConnection) (a b : State) :
  mainConnRef a = Some ca → status a = CONNECTED → is_main cb b = true →
  let id := toString (now a) +:+ rnd in
  let envelope := Dmessage payload (Some dataType) (Some id) in
  let a1 := Join_send dataType rnd payload a in
  let b1 := Join.handleIncomingData rnd1 envelope cb b in
  let a2 := Join.handleIncomingData rnd2 (Dseen (Some id)) ca a1 in
  effects a1 = effects a ++ [Send (conn_ref ca) envelope]
  ∧ messages a1 = messages a ++ [outgoing id payload dataType (now a)]
  ∧ messages b1 = messages b ++ [inbound id payload (Some dataType) None (now b)]
  ∧ effects b1 = effects b ++ [Send (conn_ref cb) (Dseen (Some id))]
  ∧ messages a2
    = (mark_seen (Some id) <$> messages a)
      ++ [with_status seen (outgoing id payload dataType (now a))]
  ∧ (unreferenced (Some id) (messages a) →
     messages a2
     = messages a ++ [with_status seen (outgoing id payload dataType (now a))]).
Proof.
  intros Hca Hst Hcb. cbv zeta.
  pose proof (toString_append_nonempty (now a) rnd) as Hid.
  destruct (Join_message_main rnd1 payload (Some dataType)
              (Some (toString (now a) +:+ rnd)) cb b Hcb) as (Hb1 & Hb2 & _).
  rewrite or_else_present in Hb1, Hb2 by done.
  assert (messages
            (Join.handleIncomingData rnd2 (Dseen (Some (toString (now a) +:+ rnd)))
               ca (Join_send dataType rnd payload a))
          = (mark_seen (Some (toString (now a) +:+ rnd)) <$> messages a)
            ++ [with_status seen
                  (outgoing (toString (now a) +:+ rnd) payload dataType (now a))])
    as Ha2.
  { rewrite Join_seen_messages, Join_send_eq. cbv zeta.
    match goal with
    | |- context [is_main ca ?x] =>
        assert (is_main ca x = is_main ca a) as -> by reflexivity
    end.
    rewrite (is_main_recorded ca a Hca), truthy_generated. cbn [andb].
    match goal with
    | |- context [messages ?x] =>
        lazymatch x with
        | setMessages ?v _ => assert (messages x = v) as -> by reflexivity
        end
    end.
    by rewrite fmap_app, <- mark_seen_outgoing. }
  split; [|split; [|split; [exact Hb1|split; [exact Hb2|split; [exact Ha2|]]]]].
  - rewrite Join_send_eq. cbn. by rewrite (main_sends_Some _ ca).
  - by rewrite Join_send_eq.
  - intros Hun. rewrite Ha2. by rewrite mark_seen_unreferenced.
Qed.

Definition conn_a : DataConnection := mkConn 3 "peer-a".

(** The partner of [chatting]: connected, its main connection leads
    back to peer-a. *)
Definition chatting_back : State :=
  setNow 40
    (setOpenConns {[3%nat]}
       (setStatus CONNECTED
          (setPartnerPeerId (Some "peer-a")
             (setMainConnRef (Some conn_a) (initial None))))).

Lemma Join_delivery_round_trip_witness :
  let a2 :=
    Join.handleIncomingData "r2" (Dseen (Some "0k3")) conn_b
      (Join_send text "k3" "hi" chatting) in
  let b1 :=
    Join.handleIncomingData "r1" (Dmessage "hi" (Some text) (Some "0k3")) conn_a
      chatting_back in
  (m_status <$> messages a2 = [Some seen])
  ∧ (m_id <$> messages b1 = ["0k3"]).
Proof.
  assert (mainConnRef chatting = Some conn_b) as Hca by reflexivity.
  assert (status chatting = CONNECTED) as Hst by reflexivity.
  assert (is_main conn_a chatting_back = true) as Hcb by reflexivity.
  destruct (Join_delivery_round_trip text "k3" "r1" "r2" "hi" conn_b conn_a
              chatting chatting_back Hca Hst Hcb) as (_ & _ & Hb & _ & Ha & _).
  cbv zeta. split.
  - etrans; [exact (f_equal (fmap m_status) Ha)|]. vm_compute. reflexivity.
  - etrans; [exact (f_equal (fmap m_id) Hb)|]. vm_compute. reflexivity.
Defined.

(** The polling variant on both ends, with an open main connection on
    the sender's side: the same round trip.  The partner's copy is
    appended with status [sent]. *)
Theorem Lobby_delivery_round_trip (dataType : DataType)
    (rnd payload : string) (ca cb : DataConnection) (a b : State) :
  mainConnRef a = Some ca → is_open ca a = true → is_main cb b = true →
  let id := toString (now a) +:+ rnd in
  let envelope := Dmessage payload (Some dataType) (Some id) in
  let a1 := Lobby_send dataType rnd payload a in
  let b1 := Lobby.handleIncomingData envelope cb b in
  let a2 := Lobby.handleIncomingData (Dseen (Some id)) ca a1 in
  effects a1 = effects a ++ [Send (conn_ref ca) envelope]
  ∧ messages a1 = messages a ++ [outgoing id payload dataType (now a)]
  ∧ messages b1
    = messages b ++ [inbound id payload (Some dataType) (Some sent) (now b)]
  ∧ effects b1 = effects b ++ [Send (conn_ref cb) (Dseen (Some id))]
  ∧ messages a2
    = (mark_seen (Some id) <$> messages a)
      ++ [with_status seen (outgoing id payload dataType (now a))]
  ∧ (unreferenced (Some id) (messages a) →
     messages a2
     = messages a ++ [with_status seen (outgoing id payload dataType (now a))]).
Proof.
  intros Hca Hopen Hcb. cbv zeta.
  pose proof (toString_append_nonempty (now a) rnd) as Hid.
  destruct (Lobby_message_main payload (Some dataType)
              (Some (toString (now a) +:+ rnd)) cb b Hcb) as (Hb1 & Hb2 & _).
  rewrite or_else_present in Hb1, Hb2 by done.
  assert (messages
            (Lobby.handleIncomingData (Dseen (Some (toString (now a) +:+ rnd)))
               ca (Lobby_send dataType rnd payload a))
          = (mark_seen (Some (toString (now a) +:+ rnd)) <$> messages a)
            ++ [with_status seen
                  (outgoing (toString (now a) +:+ rnd) payload dataType (now a))])
    as Ha2.
  { rewrite Lobby_seen_messages, (Lobby_send_open _ _ _ ca) by done. cbv zeta.
    match goal with
    | |- context [is_main ca ?x] =>
        assert (is_main ca x = is_main ca a) as -> by reflexivity
    end.
    rewrite (is_main_recorded ca a Hca).
    match goal with
    | |- context [messages ?x] =>
        lazymatch x with
        | setMessages ?v _ => assert (messages x = v) as -> by reflexivity
        end
    end.
    by rewrite fmap_app, <- mark_seen_outgoing. }
  split; [|split; [|split; [exact Hb1|split; [exact Hb2|split; [exact Ha2|]]]]].
  - by rewrite (Lobby_send_open _ _ _ ca).
  - by rewrite (Lobby_send_open _ _ _ ca).
  - intros Hun. rewrite Ha2. by rewrite mark_seen_unreferenced.
Qed.

Lemma Lobby_delivery_round_trip_witness :
  let a2 :=
    Lobby.handleIncomingData (Dseen (Some "00.5")) conn_b
      (Lobby_send text "0.5" "hi" chatting) in
  let b1 :=
    Lobby.handleIncomingData (Dmessage "hi" (Some text) (Some "00.5")) conn_a
      chatting_back in
  (m_status <$> messages a2 = [Some seen])
  ∧ (m_status <$> messages b1 = [Some sent]).
Proof.
  assert (mainConnRef chatting = Some conn_b) as Hca by reflexivity.
  assert (is_open conn_b chatting = true) as Hopen by (vm_compute; reflexivity).
  assert (is_main conn_a chatting_back = true) as Hcb by reflexivity.
  destruct (Lobby_delivery_round_trip text "0.5" "hi" conn_b conn_a
              chatting chatting_back Hca Hopen Hcb) as (_ & _ & Hb & _ & Ha & _).
  cbv zeta. split.
  - etrans; [exact (f_equal (fmap m_status) Ha)|]. vm_compute. reflexivity.
  - etrans; [exact (f_equal (fmap m_status) Hb)|]. vm_compute. reflexivity.
Defined.

(** *** Edits and reactions *)

Lemma Join_message_main_frame rnd payload dataType id conn s :
  mainConnRef (Join.handleIncomingData rnd (Dmessage payload dataType id) conn s)
  = mainConnRef s.
Proof.
  unfold Join.handleIncomingData. cbv zeta. rewrite !clearTimeoutRef_eq.
  by destruct (is_main conn s).
Qed.

Lemma is_main_frame conn s s' : mainConnRef s' = mainConnRef s → is_main conn s' = is_main conn s.
Proof. unfold is_main. by intros ->. Qed.

Lemma edit_mine_outgoing id payload t newText :
  JoinActions.edit_mine id newText (outgoing id payload text t)
  = with_edit newText (outgoing id payload text t).
Proof. unfold JoinActions.edit_mine. simpl. by rewrite bool_decide_true. Qed.

Lemma apply_edit_inbound id payload st t newText :
  id ≠ "" →
  apply_edit newText (Some id) (inbound id payload (Some text) st t)
  = with_edit newText (inbound id payload (Some text) st t).
Proof.
  intros Hid. unfold apply_edit, edit_applies, id_matches. simpl.
  by rewrite !bool_decide_true, orb_true_r.
Qed.

Lemma edit_mine_other messageId newText (l : list Message) :
  (∀ m, m ∈ l → m_id m ≠ messageId) →
  JoinActions.edit_mine messageId newText <$> l = l.
Proof.
  intros Hl. apply fmap_unchanged. intros m Hm.
  unfold JoinActions.edit_mine. by rewrite bool_decide_false by by apply Hl.
Qed.

(** The join variant on both ends.  A connected client sends a text and
    then edits it under the id it was sent with; the partner handles
    both envelopes on its main connection.  Both histories then end
    with that message carrying the new text and the edited mark; on
    either side no message with another id changes. *)
Theorem Join_edit_reaches_partner (rnd rnd1 rnd2 payload newText : string)
    (ca cb : DataConnection) (a b : State) :
  mainConnRef a = Some ca → status a = CONNECTED → is_main cb b = true →
  let id := toString (now a) +:+ rnd in
  let a1 := JoinActions.sendMessage rnd payload a in
  let a2 := JoinActions.editMessage id newText a1 in
  let b1 :=
    Join.handleIncomingData rnd1 (Dmessage payload (Some text) (Some id)) cb b in
  let b2 := Join.handleIncomingData rnd2 (Dedit_message newText (Some id)) cb b1 in
  effects a2
  = effects a ++ [Send (conn_ref ca) (Dmessage payload (Some text) (Some id));
                  Send (conn_ref ca) (Dedit_message newText (Some id))]
  ∧ messages a2
    = (JoinActions.edit_mine id newText <$> messages a)
      ++ [with_edit newText (outgoing id payload text (now a))]
  ∧ messages b2
    = (apply_edit newText (Some id) <$> messages b)
      ++ [with_edit newText (inbound id payload (Some text) None (now b))]
  ∧ ((∀ m, m ∈ messages a → m_id m ≠ id) →
     messages a2 = messages a ++ [with_edit newText (outgoing id payload text (now a))])
  ∧ (unreferenced (Some id) (messages b) →
     messages b2
     = messages b ++ [with_edit newText (inbound id payload (Some text) None (now b))]).
Proof.
  intros Hca Hst Hcb. cbv zeta.
  pose proof (toString_append_nonempty (now a) rnd) as Hid.
  set (id := toString (now a) +:+ rnd) in *.
  destruct (Join_message_main rnd1 payload (Some text) (Some id) cb b Hcb)
    as (Hb1 & _ & _).
  rewrite or_else_present in Hb1 by done.
  assert (messages (JoinActions.editMessage id newText
                      (JoinActions.sendMessage rnd payload a))
          = (JoinActions.edit_mine id newText <$> messages a)
            ++ [with_edit newText (outgoing id payload text (now a))]) as Ha2.
  { rewrite Join_editMessage_eq.
    change (JoinActions.sendMessage rnd payload a) with (Join_send text rnd payload a).
    rewrite Join_send_eq. cbv zeta. fold id.
    etrans; [reflexivity|].
    match goal with
    | |- context [messages ?x] =>
        lazymatch x with
        | setMessages ?v _ => assert (messages x = v) as -> by reflexivity
        end
    end.
    by rewrite fmap_app, <- edit_mine_outgoing. }
  assert (messages
            (Join.handleIncomingData rnd2 (Dedit_message newText (Some id)) cb
               (Join.handleIncomingData rnd1 (Dmessage payload (Some text) (Some id))
                  cb b))
          = (apply_edit newText (Some id) <$> messages b)
            ++ [with_edit newText (inbound id payload (Some text) None (now b))])
    as Hb2.
  { rewrite Join_edit_messages.
    rewrite (is_main_frame cb b) by apply Join_message_main_frame.
    rewrite Hcb, Hb1. by rewrite fmap_app, <- apply_edit_inbound. }
  split; [|split; [exact Ha2|split; [exact Hb2|split]]].
  - rewrite Join_editMessage_eq.
    change (JoinActions.sendMessage rnd payload a) with (Join_send text rnd payload a).
    rewrite Join_send_eq. cbv zeta. fold id.
    etrans; [reflexivity|].
    match goal with
    | |- context [main_sends ?d (setMessages ?v (setEffects ?e a))] =>
        assert (main_sends d (setMessages v (setEffects e a)) = main_sends d a)
          as -> by reflexivity;
        assert (effects (setMessages v (setEffects e a)) = e) as -> by reflexivity
    end.
    rewrite !(main_sends_Some _ ca) by done. by rewrite <- app_assoc.
  - intros Hun. rewrite Ha2. by rewrite edit_mine_other.
  - intros Hun. rewrite Hb2.
    rewrite apply_edit_unreferenced; [done|apply truthy_generated|done].
Qed.

Lemma Join_edit_reaches_partner_witness :
  let a2 :=
    JoinActions.editMessage "0k3" "hello"
      (JoinActions.sendMessage "k3" "helo" chatting) in
  let b2 :=
    Join.handleIncomingData "r2" (Dedit_message "hello" (Some "0k3")) conn_a
      (Join.handleIncomingData "r1" (Dmessage "helo" (Some text) (Some "0k3"))
         conn_a chatting_back) in
  m_text <$> messages a2 = [Some "hello"] ∧ m_text <$> messages b2 = [Some "hello"].
Proof.
  assert (mainConnRef chatting = Some conn_b) as Hca by reflexivity.
  assert (status chatting = CONNECTED) as Hst by reflexivity.
  assert (is_main conn_a chatting_back = true) as Hcb by reflexivity.
  destruct (Join_edit_reaches_partner "k3" "r1" "r2" "helo" "hello" conn_b conn_a
              chatting chatting_back Hca Hst Hcb) as (_ & Ha & Hb & _).
  cbv zeta. split.
  - etrans; [exact (f_equal (fmap m_text) Ha)|]. vm_compute. reflexivity.
  - etrans; [exact (f_equal (fmap m_text) Hb)|]. vm_compute. reflexivity.
Defined.

(** What two [sendReaction] calls with the same arguments make of a
    message of the own history. *)
Definition reacted_twice (messageId emoji_ : string) (m : Message) : Message :=
  if bool_decide (m_id m = messageId)
  then with_reactions
         (default [] (m_reactions m) ++ [mkReaction emoji_ me; mkReaction emoji_ me]) m
  else m.

Lemma react_mine_twice messageId emoji_ m :
  JoinActions.react_mine messageId emoji_ (JoinActions.react_mine messageId emoji_ m)
  = reacted_twice messageId emoji_ m.
Proof.
  unfold JoinActions.react_mine, reacted_twice.
  destruct (decide (m_id m = messageId)) as [Hid|Hid].
  - rewrite (bool_decide_true (m_id m = messageId)) by done.
    simpl. rewrite bool_decide_true by done.
    unfold with_reactions. simpl. by rewrite <- app_assoc.
  - rewrite (bool_decide_false (m_id m = messageId)) by done.
    by rewrite bool_decide_false.
Qed.

Lemma Join_react_fresh payload messageId m :
  id_matches messageId m = true →
  ¬ Exists (λ r, r_sender r = stranger ∧ emoji r = payload)
      (default [] (m_reactions m)) →
  Join.react payload messageId m
  = with_reactions (default [] (m_reactions m) ++ [mkReaction payload stranger]) m.
Proof.
  intros Hid Hnew. unfold Join.react. rewrite Hid. by rewrite decide_False.
Qed.

(** The join variant on both ends.  A connected client reacts twice
    with the same emoji to the same message; the partner handles both
    envelopes on its main connection.  The client's own copy gains the
    reaction twice.  The partner's history after the second envelope is
    what it was after the first, and a message that did not carry this
    reaction of the stranger gains it once. *)
Theorem Join_reaction_tallies_differ (messageId emoji_ rnd1 rnd2 : string)
    (ca cb : DataConnection) (a b : State) :
  mainConnRef a = Some ca → status a = CONNECTED → is_main cb b = true →
  messageId ≠ "" →
  let envelope := Dreaction emoji_ (Some messageId) in
  let a2 :=
    JoinActions.sendReaction messageId emoji_
      (JoinActions.sendReaction messageId emoji_ a) in
  let b1 := Join.handleIncomingData rnd1 envelope cb b in
  let b2 := Join.handleIncomingData rnd2 envelope cb b1 in
  effects a2 = effects a ++ [Send (conn_ref ca) envelope; Send (conn_ref ca) envelope]
  ∧ messages a2 = reacted_twice messageId emoji_ <$> messages a
  ∧ messages b1 = Join.react emoji_ (Some messageId) <$> messages b
  ∧ messages b2 = messages b1
  ∧ (∀ m, m_id m = messageId →
          ¬ Exists (λ r, r_sender r = stranger ∧ emoji r = emoji_)
              (default [] (m_reactions m)) →
          m_reactions (Join.react emoji_ (Some messageId) m)
          = Some (default [] (m_reactions m) ++ [mkReaction emoji_ stranger])).
Proof.
  intros Hca Hst Hcb Hid. cbv zeta.
  assert (truthy (Some messageId) = true) as Ht
    by (by apply bool_decide_eq_true).
  assert (messages (Join.handleIncomingData rnd1 (Dreaction emoji_ (Some messageId)) cb b)
          = Join.react emoji_ (Some messageId) <$> messages b) as Hb1.
  { by rewrite Join_reaction_messages, Ht, Hcb. }
  split; [|split; [|split; [exact Hb1|split]]].
  - rewrite !Join_sendReaction_eq.
    etrans; [reflexivity|].
    match goal with
    | |- context [main_sends ?d (setEffects ?e (setMessages ?v a))] =>
        assert (main_sends d (setEffects e (setMessages v a)) = main_sends d a)
          as -> by reflexivity
    end.
    rewrite !(main_sends_Some _ ca) by done.
    etrans; [|symmetry; apply (app_assoc _ [_] [_])]. reflexivity.
  - rewrite !Join_sendReaction_eq.
    etrans; [reflexivity|].
    match goal with
    | |- context [messages (setEffects ?e (setMessages ?v a))] =>
        assert (messages (setEffects e (setMessages v a)) = v) as -> by reflexivity
    end.
    rewrite <- list_fmap_compose. apply list_fmap_ext.
    intros ? m _. apply react_mine_twice.
  - rewrite Join_reaction_messages, Join_reaction_main, Ht, Hcb, Hb1. cbn [andb].
    rewrite <- list_fmap_compose. apply list_fmap_ext.
    intros ? m _. apply Join_react_idem.
  - intros m Hm Hnew. rewrite Join_react_fresh; [done| |done].
    unfold id_matches. apply bool_decide_eq_true. by rewrite Hm.
Qed.

Lemma Join_reaction_tallies_differ_witness :
  let a2 :=
    JoinActions.sendReaction "m1" "+1"
      (JoinActions.sendReaction "m1" "+1" (setMessages [hello] chatting)) in
  let b2 :=
    Join.handleIncomingData "r2" (Dreaction "+1" (Some "m1")) conn_a
      (Join.handleIncomingData "r1" (Dreaction "+1" (Some "m1")) conn_a
         (setMessages [hello] chatting_back)) in
  m_reactions <$> messages a2
  = [Some [mkReaction "+1" me; mkReaction "+1" me]]
  ∧ m_reactions <$> messages b2 = [Some [mkReaction "+1" stranger]].
Proof.
  assert (mainConnRef (setMessages [hello] chatting) = Some conn_b) as Hca
    by reflexivity.
  assert (status (setMessages [hello] chatting) = CONNECTED) as Hst by reflexivity.
  assert (is_main conn_a (setMessages [hello] chatting_back) = true) as Hcb
    by reflexivity.
  assert ("m1" ≠ "") as Hid by discriminate.
  destruct (Join_reaction_tallies_differ "m1" "+1" "r1" "r2" conn_b conn_a
              (setMessages [hello] chatting) (setMessages [hello] chatting_back)
              Hca Hst Hcb Hid) as (_ & Ha & Hb1 & Hb2 & _).
  cbv zeta. split.
  - etrans; [exact (f_equal (fmap m_reactions) Ha)|]. vm_compute. reflexivity.
  - etrans; [exact (f_equal (fmap m_reactions) (eq_trans Hb2 Hb1))|].
    vm_compute. reflexivity.
Defined.

(** *** Friend requests *)

(** Where [acceptFriendRequest] of the join variant sends the
    acceptance: on an open direct connection to the requester, else on
    the main connection if it leads to the requester, else it asks the
    peer for a fresh connection. *)
Definition Join_accept_wire (peerId : string) (profile : UserProfile) (s : State)
    : list Effect :=
  let via_main :=
    match mainConnRef s with
    | Some c =>
        if bool_decide (peer c = peerId)
        then [Send (conn_ref c) (Dfriend_accept profile)]
        else match peerRef s with Some _ => [Connect peerId None] | None => [] end
    | None => match peerRef s with Some _ => [Connect peerId None] | None => [] end
    end in
  match directConnsRef s !! peerId with
  | Some directConn =>
      if is_open directConn s
      then [Send (conn_ref directConn) (Dfriend_accept profile)]
      else via_main
  | None => via_main
  end.

Lemma Join_accept_eq target profile s :
  userProfile s = Some profile →
  JoinActions.acceptFriendRequest (Some target) s
  = let peerId := fr_peerId target in
    let friendList :=
      mkFriend peerId (fr_profile target) (now s) (now s)
        :: default [] (chat_friends s) in
    setFriendRequests
      (filter (λ req, fr_peerId req ≠ peerId) (friendRequests s))
      (setEffects (effects s ++ Join_accept_wire peerId profile s)
         (setFriends (if friend_saved peerId s then friendList else friends s)
            (setChat_friends
               (if friend_saved peerId s then Some friendList else chat_friends s)
               s))).
Proof.
  intros Hp. unfold JoinActions.acceptFriendRequest. rewrite Hp. cbv zeta.
  rewrite saveFriend_eq. cbv zeta.
  match goal with |- context [directConnsRef ?x !! _] => set (X := x) end.
  assert (directConnsRef X = directConnsRef s) as -> by reflexivity.
  assert (mainConnRef X = mainConnRef s) as -> by reflexivity.
  assert (peerRef X = peerRef s) as -> by reflexivity.
  assert (∀ c, is_open c X = is_open c s) as Hopen by reflexivity.
  assert (friendRequests X
          = if friend_saved (fr_peerId target) s
            then filter (λ req, fr_peerId req ≠ fr_peerId target) (friendRequests s)
            else friendRequests s) as HX by reflexivity.
  assert (filter (λ req, fr_peerId req ≠ fr_peerId target)
            (if friend_saved (fr_peerId target) s
             then filter (λ req, fr_peerId req ≠ fr_peerId target) (friendRequests s)
             else friendRequests s)
          = filter (λ req, fr_peerId req ≠ fr_peerId target) (friendRequests s))
    as Hf.
  { destruct (friend_saved _ _); [|done].
    rewrite list_filter_filter. apply list_filter_iff. tauto. }
  unfold Join_accept_wire. cbv zeta.
  destruct (directConnsRef s !! fr_peerId target) as [dc|];
    [rewrite Hopen; destruct (is_open dc s)|];
    try (destruct (mainConnRef s) as [c|]; [case_bool_decide|]);
    try (destruct (peerRef s));
    rewrite ?app_nil_r; subst X; unfold send, effect;
    cbn [friendRequests effects setEffects setFriendRequests];
    rewrite ?Hf; destruct s; reflexivity.
Qed.





(** *** The guard flags *)

(** The two flags that guard matchmaking and [connect]. *)
Definition guards (s : State) : bool * bool := (isMatchmakerRef s, isConnectingRef s).

Lemma guards_fire_all ts s :
  guards s = (false, false) → guards (fire_all ts s) = (false, false).
Proof.
  revert s. induction ts as [|t ts IH]; intros s Hs; [done|].
  unfold fire_all in *. cbn [fold_left]. apply IH.
  destruct (action t); cbn [fire]; try exact Hs.
  - by rewrite close_main_eq.
  - injection Hs as Hm Hc. rewrite Hm. exact (f_equal2 pair Hm Hc).
Qed.

Lemma guards_advance dt s :
  guards s = (false, false) → guards (advance dt s) = (false, false).
Proof. intros Hs. unfold advance. cbv zeta. by apply guards_fire_all. Qed.

Lemma guards_Join_data rnd data conn s :
  guards (Join.handleIncomingData rnd data conn s) = guards s.
Proof.
  destruct data as [|messageId|b|b| | |? messageId|? messageId| | | |];
    unfold Join.handleIncomingData; cbv zeta;
    try (destruct messageId; [destruct (truthy _)|]);
    try (destruct b);
    try (destruct (is_main conn s)); cbn [andb];
    normal_forms; reflexivity.
Qed.

Lemma guards_Join_cleanupMain s : guards (Join.cleanupMain s) = (false, false).
Proof.
  unfold Join.cleanupMain. cbv zeta. normal_forms.
  destruct (channelRef s); read_fields;
    destruct (mainConnRef s); read_fields;
    destruct (connectionTimeoutRef s); reflexivity.
Qed.

Lemma guards_Join_setup conn md s :
  guards s = (false, false) → guards (Join.setupConnection conn md s) = (false, false).
Proof.
  intros Hs. unfold Join.setupConnection. cbv zeta.
  destruct (connectionTimeoutRef s); read_fields;
    (case_match; normal_forms; [reflexivity|exact Hs]).
Qed.

Lemma guards_Join_setup_random conn s :
  guards (Join.setupConnection conn (Some random) s) = (false, false).
Proof.
  unfold Join.setupConnection. cbv zeta.
  destruct (connectionTimeoutRef s); read_fields; cbn [orb bool_decide];
    rewrite bool_decide_true by done; cbn [orb]; normal_forms; reflexivity.
Qed.

Lemma guards_arm a d ref s :
  guards (let '(k, s0) := setTimeout a d (clearTimeoutRef ref s) in
          setConnectionTimeoutRef (Some k) s0) = guards s.
Proof. by rewrite clearTimeoutRef_eq. Qed.

Lemma guards_Join_sync myId allUsers r s :
  guards s = (false, false) →
  guards (Join.onPresenceSync myId allUsers r s) = (false, false).
Proof.
  intros Hs. unfold Join.onPresenceSync. cbv zeta. case_match; [exact Hs|].
  destruct (head _); [|exact Hs]. case_match; [|exact Hs]. read_fields.
  destruct (peerRef s); [|injection Hs as _ Hc; exact (f_equal (pair false) Hc)].
  destruct r.
  - rewrite guards_arm. apply guards_Join_setup_random.
  - injection Hs as _ Hc. exact (f_equal (pair false) Hc).
  - injection Hs as _ Hc. exact (f_equal (pair false) Hc).
Qed.

Lemma guards_setMessages v s : guards (setMessages v s) = guards s.
Proof. reflexivity. Qed.

Lemma guards_Join_step e s :
  guards s = (false, false) → guards (Join.step e s) = (false, false).
Proof.
  intros Hs. destruct e; cbn [Join.step].
  - by rewrite guards_Join_data.
  - by apply guards_advance.
  - unfold Join.disconnect. cbv zeta.
    rewrite guards_setMessages. apply guards_Join_cleanupMain.
  - by apply guards_Join_sync.
  - exact Hs.
  - destruct (updateFriendsPresence_eq s) as [fs [[-> _]| ->]]; exact Hs.
  - by rewrite saveToRecent_eq.
  - by rewrite saveFriend_eq.
  - by rewrite removeFriend_eq.
  - exact Hs.
  - exact Hs.
Qed.

Lemma guards_guarded_send data s :
  guards match JoinActions.connected_main s with
         | Some c => send c data s
         | None => s
         end = guards s.
Proof. by rewrite guarded_send_eq. Qed.

Lemma guards_connect_direct target r s :
  guards s = (false, false) →
  guards (JoinActions.connect_direct target r s).2 = (false, false).
Proof.
  intros Hs. unfold JoinActions.connect_direct. cbv zeta.
  destruct r; cbn [snd]; [|exact Hs..].
  apply guards_Join_setup. exact Hs.
Qed.

Lemma guards_fold_send (l : list (string * DataConnection)) data s :
  guards (fold_left (λ st kc, send kc.2 data st) l s) = guards s.
Proof.
  revert s. induction l as [|kc l IH]; intros s; [done|].
  cbn [fold_left]. by rewrite IH.
Qed.

Lemma guards_initPeer persistentId s :
  guards (JoinActions.initPeer persistentId s) = guards s.
Proof. unfold JoinActions.initPeer. by destruct (peerRef s). Qed.

Lemma guards_joinLobby myId s : guards (JoinActions.joinLobby myId s) = guards s.
Proof.
  unfold JoinActions.joinLobby. cbv zeta. read_fields. by destruct (channelRef s).
Qed.

Lemma guards_join_when_ready (x : State) :
  guards match peerRef x with
         | Some p =>
             match peer_id p with
             | Some id => if truthy (peer_id p) then JoinActions.joinLobby id x else x
             | None => x
             end
         | None => x
         end = guards x.
Proof.
  destruct (peerRef x) as [p|]; [|done].
  destruct (peer_id p); [|done].
  destruct (truthy _); [|done]. apply guards_joinLobby.
Qed.

Lemma guards_session_reset (w : State) :
  guards (setIsMatchmakerRef false
            (setFriendRequests []
               (setRemoteVanishMode None
                  (setPartnerProfile None (setMessages [] w)))))
  = (false, isConnectingRef w).
Proof. reflexivity. Qed.

Lemma guards_snd (x : State) : isConnectingRef x = (guards x).2.
Proof. reflexivity. Qed.

Lemma guards_fst (x : State) : isMatchmakerRef x = (guards x).1.
Proof. reflexivity. Qed.

Lemma isConnectingRef_Join_cleanupMain s : isConnectingRef (Join.cleanupMain s) = false.
Proof. by rewrite guards_snd, guards_Join_cleanupMain. Qed.

Lemma guards_Join_connect persistentId s :
  guards s = (false, false) →
  guards (JoinActions.connect persistentId s) = (false, false).
Proof.
  intros Hs. unfold JoinActions.connect.
  destruct (isConnectingRef s); [exact Hs|]. cbv zeta.
  rewrite guards_join_when_ready, guards_initPeer, guards_session_reset.
  by rewrite isConnectingRef_Join_cleanupMain.
Qed.

Lemma guards_Join_accept request s :
  guards (JoinActions.acceptFriendRequest request s) = guards s.
Proof.
  unfold JoinActions.acceptFriendRequest. cbv zeta.
  destruct (match request with Some req => Some req | None => head (friendRequests s) end)
    as [target|]; [|done].
  destruct (userProfile s) as [profile|] eqn:Hp; [|done].
  pose proof (Join_accept_eq target profile s Hp) as Heq.
  unfold JoinActions.acceptFriendRequest in Heq. rewrite Hp in Heq.
  cbv zeta in Heq. rewrite Heq. reflexivity.
Qed.

Lemma guards_Join_onOpen greeting conn s :
  guards (JoinActions.onOpen greeting conn s) = guards s.
Proof.
  unfold JoinActions.onOpen. cbv zeta.
  destruct (is_main conn s); read_through userProfile; by destruct (userProfile s).
Qed.

Lemma guards_Join_onClose status_ conn s :
  guards (JoinActions.onClose status_ conn s) = guards s.
Proof. unfold JoinActions.onClose. by case_match. Qed.

Lemma guards_Join_call greeting c s :
  guards s = (false, false) → guards (JoinActions.call greeting c s) = (false, false).
Proof.
  intros Hs. destruct c; cbn [JoinActions.call].
  - by apply guards_Join_step.
  - by apply guards_Join_setup.
  - by rewrite guards_Join_onOpen.
  - by rewrite guards_Join_onClose.
  - unfold JoinActions.onError. case_match; [|done].
    injection Hs as _ Hc. exact (f_equal (pair false) Hc).
  - unfold JoinActions.onPeerOpen. cbv zeta. by destruct (peerRef s).
  - unfold JoinActions.onPeerError. case_match; [|done].
    injection Hs as _ Hc. exact (f_equal (pair false) Hc).
  - unfold JoinActions.onSubscribed. cbv zeta.
    injection Hs as Hm _. exact (f_equal (λ x, (x, false)) Hm).
  - by rewrite guards_joinLobby.
  - by apply guards_Join_connect.
  - change (JoinActions.sendMessage rnd text_ s) with (Join_send text rnd text_ s).
    by rewrite Join_send_eq.
  - change (JoinActions.sendImage rnd base64Image s)
      with (Join_send image rnd base64Image s).
    by rewrite Join_send_eq.
  - change (JoinActions.sendAudio rnd base64Audio s)
      with (Join_send audio rnd base64Audio s).
    by rewrite Join_send_eq.
  - by rewrite Join_sendReaction_eq.
  - by rewrite Join_editMessage_eq.
  - unfold JoinActions.sendTyping. by rewrite guards_guarded_send.
  - unfold JoinActions.sendRecording. by rewrite guards_guarded_send.
  - unfold JoinActions.sendVanishMode. by rewrite guards_guarded_send.
  - unfold JoinActions.sendFriendRequest.
    destruct (JoinActions.connected_main s); [|done]. by destruct (userProfile s).
  - unfold JoinActions.sendDirectMessage.
    destruct (directConnsRef s !! targetPeerId) as [dc|]; [done|].
    destruct (peerRef s); [|done].
    pose proof (guards_connect_direct targetPeerId r s Hs) as Hd.
    destruct (JoinActions.connect_direct targetPeerId r s) as [[c|] s'];
      cbn [snd] in Hd; [|done]. exact Hd.
  - unfold JoinActions.sendDirectImage. by destruct (directConnsRef s !! _).
  - unfold JoinActions.sendDirectAudio. by destruct (directConnsRef s !! _).
  - unfold JoinActions.sendDirectTyping. by destruct (directConnsRef s !! _).
  - unfold JoinActions.sendDirectFriendRequest.
    destruct (userProfile s); [|done].
    destruct (directConnsRef s !! targetPeerId) as [dc|];
      [destruct (is_open dc s); [done|]|];
      (destruct (peerRef s); [by apply guards_connect_direct|done]).
  - done.
  - unfold JoinActions.callPeer. cbv zeta.
    pose proof (guards_initPeer persistentId s) as Hi. rewrite Hs in Hi.
    remember (JoinActions.initPeer persistentId s) as Y eqn:HY. clear HY.
    assert (guards match targetProfile with
                   | Some p => saveToRecent p targetPeerId Y
                   | None => Y
                   end = (false, false)) as Hz.
    { destruct targetProfile; [by rewrite saveToRecent_eq|done]. }
    match goal with
    | |- context [directConnsRef ?x !! _] => remember x as Z eqn:HZ; clear HZ
    end.
    destruct (directConnsRef Z !! targetPeerId); [done|].
    destruct r; [|done..]. by apply guards_Join_setup.
  - by rewrite guards_Join_accept.
  - unfold JoinActions.updateMyProfile. cbv zeta.
    assert (∀ x, guards match channelRef x, myPeerIdRef x with
                        | Some _, Some myId =>
                            effect
                              (Track (mkPresence myId
                                 (if bool_decide (status x = CONNECTED)
                                  then busy else waiting)
                                 (now x) (Some newProfile))) x
                        | _, _ => x
                        end = guards x) as Htrack.
    { intros x. by destruct (channelRef x), (myPeerIdRef x). }
    rewrite Htrack, guards_fold_send, guards_guarded_send. exact Hs.
  - done.
  - done.
  - done.
Qed.

Lemma guards_Join_calls greeting cs s :
  guards s = (false, false) → guards (JoinActions.calls greeting cs s) = (false, false).
Proof.
  revert s. induction cs as [|c cs IH]; intros s Hs; [done|].
  unfold JoinActions.calls in *. cbn [fold_left]. apply IH.
  by apply guards_Join_call.
Qed.

(** The join variant, from a fresh hook, after any sequence of
    callbacks and calls (inbound data, presence syncs, timers, incoming
    connections, open, close and error events, and every function the
    hook hands out): [isMatchmakerRef] and [isConnectingRef] are both
    false.  So the connection-establishment timeout, which acts only
    while [isMatchmakerRef] is set, changes nothing when it fires, and a
    presence sync is never held back by an attempt in flight: whenever
    the main connection is not open it calls [connect] on the oldest
    waiter that is another peer. *)
Theorem Join_guards_never_hold (greeting : Message) (profile : option UserProfile)
    (cs : list JoinActions.Call) :
  let s := JoinActions.calls greeting cs (initial profile) in
  isMatchmakerRef s = false
  ∧ isConnectingRef s = false
  ∧ fire MatchTimeout s = s
  ∧ (∀ myId allUsers r,
       main_open s = false → is_Some (peerRef s) →
       connect_calls (effects (Join.onPresenceSync myId allUsers r s))
       = connect_calls (effects s) ++ Join_attempt myId allUsers).
Proof.
  cbv zeta.
  pose proof (guards_Join_calls greeting cs (initial profile) eq_refl) as Hg.
  remember (JoinActions.calls greeting cs (initial profile)) as s eqn:Hs. clear Hs.
  assert (isMatchmakerRef s = false) as Hm by (by rewrite guards_fst, Hg).
  assert (isConnectingRef s = false) as Hc by (by rewrite guards_snd, Hg).
  split; [exact Hm|]. split; [exact Hc|]. split.
  - unfold fire. by rewrite Hm.
  - intros myId allUsers r Ho Hp. by apply Join_sync_attempt.
Qed.

Definition greet : Message :=
  mkMessage "init-1" system 0 text None (Some "Say hello!") None None None.

Lemma Join_guards_never_hold_witness :
  let s :=
    JoinActions.calls greet
      [JoinActions.PeerOpened "me"; JoinActions.CallConnect None;
       JoinActions.Inbound
         (PresenceSync "me" [mkPresence "p1" waiting 1 None] (Returned 4))]
      (initial None) in
  connect_calls
    (effects (Join.onPresenceSync "me" [mkPresence "p1" waiting 1 None] (Returned 5) s))
  = [("p1", Some random); ("p1", Some random)].
Proof.
  cbv zeta.
  destruct (Join_guards_never_hold greet None
              [JoinActions.PeerOpened "me"; JoinActions.CallConnect None;
               JoinActions.Inbound
                 (PresenceSync "me" [mkPresence "p1" waiting 1 None] (Returned 4))])
    as (_ & _ & _ & Hsync).
  rewrite Hsync.
  - vm_compute. reflexivity.
  - vm_compute. reflexivity.
  - vm_compute. eauto.
Defined.

Lemma guards_Lobby_data data conn s :
  guards (Lobby.handleIncomingData data conn s) = guards s.
Proof.
  destruct data as [| | | | | |? messageId|? messageId| | | |];
    unfold Lobby.handleIncomingData; cbv zeta;
    try (destruct messageId; [destruct (truthy _)|]);
    try (destruct (is_main conn s));
    normal_forms; reflexivity.
Qed.

Lemma guards_Lobby_cleanupMain s :
  guards s = (false, false) → guards (Lobby.cleanupMain s) = (false, false).
Proof.
  intros Hs. unfold Lobby.cleanupMain. cbv zeta. normal_forms.
  destruct (mainConnRef s); injection Hs as _ Hc; exact (f_equal (pair false) Hc).
Qed.

Lemma guards_Lobby_setup conn md s :
  guards s = (false, false) → guards (Lobby.setupConnection conn md s) = (false, false).
Proof.
  intros Hs. unfold Lobby.setupConnection.
  destruct md as [[]|]; normal_forms; try exact Hs.
  injection Hs as _ Hc. exact (f_equal (pair false) Hc).
Qed.

Lemma guards_Lobby_matchTick r s :
  guards s = (false, false) → guards (Lobby.matchTick r s) = (false, false).
Proof.
  intros Hs. unfold Lobby.matchTick.
  destruct (myPeerId s); [|exact Hs]. case_match; [|exact Hs].
  destruct (Lobby.waiters _ _); [exact Hs|]. cbv zeta. read_fields.
  assert (guards (setIsMatchmakerRef false (setIsMatchmakerRef true s)) = (false, false))
    as Hoff.
  { injection Hs as _ Hc. exact (f_equal (pair false) Hc). }
  destruct (peerRef s); [|exact Hoff].
  destruct r; [|exact Hoff..].
  rewrite guards_arm. unfold Lobby.setupConnection. normal_forms.
  injection Hs as _ Hc. exact (f_equal (pair false) Hc).
Qed.

Lemma guards_Lobby_step e s :
  guards s = (false, false) → guards (Lobby.step e s) = (false, false).
Proof.
  intros Hs. destruct e; cbn [Lobby.step].
  - by rewrite guards_Lobby_data.
  - by apply guards_advance.
  - unfold Lobby.disconnect. rewrite guards_setMessages.
    by apply guards_Lobby_cleanupMain.
  - exact Hs.
  - by apply guards_Lobby_matchTick.
  - exact Hs.
  - by rewrite saveToRecent_eq.
  - by rewrite saveFriend_eq.
  - by rewrite removeFriend_eq.
  - exact Hs.
  - exact Hs.
Qed.

Lemma guards_send_if_open data s : guards (LobbyActions.send_if_open data s) = guards s.
Proof. by rewrite send_if_open_eq. Qed.

Lemma guards_send_direct peerId data s :
  guards (LobbyActions.send_direct peerId data s) = guards s.
Proof.
  unfold LobbyActions.send_direct.
  destruct (directConnsRef s !! peerId) as [c|]; [|done]. by destruct (is_open c s).
Qed.

(** Where [acceptFriendRequest] of the polling variant sends the
    acceptance: on the direct connection to the requester, or without
    one on the main connection, provided that connection is open and
    leads to the requester; else it asks the peer for a fresh
    connection. *)
Definition Lobby_accept_wire (peerId : string) (profile : UserProfile) (s : State)
    : list Effect :=
  let fresh := match peerRef s with Some _ => [Connect peerId None] | None => [] end in
  match match directConnsRef s !! peerId with
        | Some c => Some c
        | None => mainConnRef s
        end with
  | Some c =>
      if is_open c s && bool_decide (peer c = peerId)
      then [Send (conn_ref c) (Dfriend_accept profile)]
      else fresh
  | None => fresh
  end.

(** Whether [acceptFriendRequest] of the polling variant is cut short by
    a throwing [connect]. *)
Definition Lobby_accept_aborts (peerId : string) (r : ConnectResult) (s : State)
    : bool :=
  match r with
  | Threw =>
      match peerRef s with
      | Some _ =>
          negb match match directConnsRef s !! peerId with
                     | Some c => Some c
                     | None => mainConnRef s
                     end with
               | Some c => is_open c s && bool_decide (peer c = peerId)
               | None => false
               end
      | None => false
      end
  | _ => false
  end.

Lemma Lobby_accept_eq target profile r s :
  userProfile s = Some profile →
  LobbyActions.acceptFriendRequest (Some target) r s
  = let peerId := fr_peerId target in
    let friendList :=
      mkFriend peerId (fr_profile target) (now s) (now s)
        :: default [] (chat_friends s) in
    setFriendRequests
      (if Lobby_accept_aborts peerId r s && negb (friend_saved peerId s)
       then friendRequests s
       else filter (λ req, fr_peerId req ≠ peerId) (friendRequests s))
      (setEffects (effects s ++ Lobby_accept_wire peerId profile s)
         (setFriends (if friend_saved peerId s then friendList else friends s)
            (setChat_friends
               (if friend_saved peerId s then Some friendList else chat_friends s)
               s))).
Proof.
  intros Hp. unfold LobbyActions.acceptFriendRequest. rewrite Hp. cbv zeta.
  rewrite saveFriend_eq. cbv zeta.
  match goal with |- context [directConnsRef ?x !! _] => set (X := x) end.
  assert (directConnsRef X = directConnsRef s) as -> by reflexivity.
  assert (mainConnRef X = mainConnRef s) as -> by reflexivity.
  assert (peerRef X = peerRef s) as -> by reflexivity.
  assert (∀ c, is_open c X = is_open c s) as Hopen by reflexivity.
  assert (filter (λ req, fr_peerId req ≠ fr_peerId target)
            (if friend_saved (fr_peerId target) s
             then filter (λ req, fr_peerId req ≠ fr_peerId target) (friendRequests s)
             else friendRequests s)
          = filter (λ req, fr_peerId req ≠ fr_peerId target) (friendRequests s))
    as Hf.
  { destruct (friend_saved _ _); [|done].
    rewrite list_filter_filter. apply list_filter_iff. tauto. }
  unfold Lobby_accept_wire, Lobby_accept_aborts. cbv zeta.
  destruct (directConnsRef s !! fr_peerId target) as [dc|];
    [|destruct (mainConnRef s) as [dc|]];
    try (rewrite Hopen; destruct (is_open dc s && bool_decide (peer dc = fr_peerId target)));
    try (destruct (peerRef s));
    destruct r; cbn [negb andb];
    rewrite ?app_nil_r; subst X; unfold send, effect;
    cbn [friendRequests effects setEffects setFriendRequests];
    rewrite ?Hf; destruct (friend_saved (fr_peerId target) s); cbn [negb andb];
    destruct s; reflexivity.
Qed.

Lemma guards_Lobby_accept req r s :
  guards (LobbyActions.acceptFriendRequest req r s) = guards s.
Proof.
  unfold LobbyActions.acceptFriendRequest. cbv zeta.
  destruct (match req with Some x => Some x | None => head (friendRequests s) end)
    as [target|]; [|done].
  destruct (userProfile s) as [profile|] eqn:Hp; [|done].
  pose proof (Lobby_accept_eq target profile r s Hp) as Heq.
  unfold LobbyActions.acceptFriendRequest in Heq. rewrite Hp in Heq.
  cbv zeta in Heq. rewrite Heq. reflexivity.
Qed.

Lemma guards_Lobby_onOpen greeting conn s :
  guards (LobbyActions.onOpen greeting conn s) = guards s.
Proof.
  unfold LobbyActions.onOpen. cbv zeta.
  destruct (is_main conn s); read_through userProfile; by destruct (userProfile s).
Qed.

Lemma guards_Lobby_onClose status_ conn s :
  guards (LobbyActions.onClose status_ conn s) = guards s.
Proof. unfold LobbyActions.onClose. by case_match. Qed.

Lemma guards_Lobby_call greeting c s :
  guards s = (false, false) → guards (LobbyActions.call greeting c s) = (false, false).
Proof.
  intros Hs. destruct c; cbn [LobbyActions.call].
  - by apply guards_Lobby_step.
  - by apply guards_Lobby_setup.
  - by rewrite guards_Lobby_onOpen.
  - by rewrite guards_Lobby_onClose.
  - unfold LobbyActions.onError. case_match; [|done].
    injection Hs as _ Hc. exact (f_equal (pair false) Hc).
  - unfold LobbyActions.initPeer. destruct (userProfile s); [|done].
    by destruct (peerRef s).
  - unfold LobbyActions.onPeerOpen. cbv zeta. case_match; [|done].
    read_fields.
    assert (guards match channelRef s with
                   | Some _ =>
                       setChannelRef None
                         (effect RemoveChannel
                            (effect Untrack
                               (setMyPeerId (Some id) (setMyPeerIdRef (Some id) s))))
                   | None => setMyPeerId (Some id) (setMyPeerIdRef (Some id) s)
                   end = (false, false)) as Hx by (by destruct (channelRef s)).
    match goal with
    | |- context [userProfile ?x] => remember x as X eqn:HX; clear HX
    end.
    destruct (userProfile X); [|done]. by destruct (truthy _).
  - done.
  - unfold LobbyActions.connect.
    destruct (channelRef s); [|done]. destruct (myPeerIdRef s); [|done].
    by case_match.
  - change (LobbyActions.sendMessage rnd text_ s) with (Lobby_send text rnd text_ s).
    destruct (main_open s) eqn:Ho; [|by rewrite Lobby_send_closed].
    unfold main_open in Ho. destruct (mainConnRef s) as [c|] eqn:Hc; [|done].
    by rewrite (Lobby_send_open _ _ _ c).
  - change (LobbyActions.sendImage rnd b64 s) with (Lobby_send image rnd b64 s).
    destruct (main_open s) eqn:Ho; [|by rewrite Lobby_send_closed].
    unfold main_open in Ho. destruct (mainConnRef s) as [c|] eqn:Hc; [|done].
    by rewrite (Lobby_send_open _ _ _ c).
  - change (LobbyActions.sendAudio rnd b64 s) with (Lobby_send audio rnd b64 s).
    destruct (main_open s) eqn:Ho; [|by rewrite Lobby_send_closed].
    unfold main_open in Ho. destruct (mainConnRef s) as [c|] eqn:Hc; [|done].
    by rewrite (Lobby_send_open _ _ _ c).
  - by rewrite Lobby_sendReaction_eq.
  - by rewrite Lobby_editMessage_eq.
  - unfold LobbyActions.sendTyping. by rewrite guards_send_if_open.
  - unfold LobbyActions.sendRecording. by rewrite guards_send_if_open.
  - unfold LobbyActions.sendVanishMode. by rewrite guards_send_if_open.
  - unfold LobbyActions.sendFriendRequest.
    destruct (userProfile s); [|done]. by rewrite guards_send_if_open.
  - unfold LobbyActions.sendDirectMessage. by rewrite guards_send_direct.
  - unfold LobbyActions.sendDirectImage. by rewrite guards_send_direct.
  - unfold LobbyActions.sendDirectAudio. by rewrite guards_send_direct.
  - unfold LobbyActions.sendDirectTyping. by rewrite guards_send_direct.
  - unfold LobbyActions.sendDirectReaction. by rewrite guards_send_direct.
  - unfold LobbyActions.sendDirectFriendRequest.
    destruct (userProfile s); [|done]. cbv zeta.
    destruct (directConnsRef s !! peerId) as [dc|];
      [destruct (is_open dc s); [done|]|]; by destruct (peerRef s).
  - unfold LobbyActions.onRequestOpen. by apply guards_Lobby_setup.
  - unfold LobbyActions.callPeer. cbv zeta.
    assert (guards match profile with
                   | Some p => saveToRecent p peerId s
                   | None => s
                   end = (false, false)) as Hz.
    { destruct profile; [by rewrite saveToRecent_eq|done]. }
    match goal with
    | |- context [directConnsRef ?x !! _] => remember x as Z eqn:HZ; clear HZ
    end.
    destruct (directConnsRef Z !! peerId); [done|].
    destruct (peerRef Z); [|done].
    destruct r; [|done..]. by apply guards_Lobby_setup.
  - by rewrite guards_Lobby_accept.
  - done.
  - unfold LobbyActions.onPeerError. case_match; [|done].
    injection Hs as _ Hc. exact (f_equal (pair false) Hc).
  - done.
  - done.
Qed.

Lemma guards_Lobby_calls greeting cs s :
  guards s = (false, false) → guards (LobbyActions.calls greeting cs s) = (false, false).
Proof.
  revert s. induction cs as [|c cs IH]; intros s Hs; [done|].
  unfold LobbyActions.calls in *. cbn [fold_left]. apply IH.
  by apply guards_Lobby_call.
Qed.

(** The polling variant, from a fresh hook, after any sequence of
    callbacks and calls: [isMatchmakerRef] is false, so the safety
    timeout of a connection attempt, which acts only while the flag is
    set, changes nothing when it fires. *)
Theorem Lobby_timeout_is_idle (greeting : Message) (profile : option UserProfile)
    (cs : list LobbyActions.Call) :
  let s := LobbyActions.calls greeting cs (initial profile) in
  isMatchmakerRef s = false ∧ fire MatchTimeout s = s.
Proof.
  cbv zeta.
  pose proof (guards_Lobby_calls greeting cs (initial profile) eq_refl) as Hg.
  remember (LobbyActions.calls greeting cs (initial profile)) as s eqn:Hs. clear Hs.
  assert (isMatchmakerRef s = false) as Hm by (by rewrite guards_fst, Hg).
  split; [exact Hm|]. unfold fire. by rewrite Hm.
Qed.

(** *** The main slot of the polling variant *)

(** The part of the state a connection attempt is about. *)
Definition slot (s : State) : bool * option DataConnection * list Effect :=
  (isMatchmakerRef s, mainConnRef s, effects s).

(** No delayed close of the main connection is pending. *)
Definition no_close_pending (ts : list Timer) : Prop :=
  Forall (λ t, action t ≠ CloseMain) ts.

(** The events of a client that waits: the matchmaking interval, the
    clock, the presence snapshots. *)
Definition waits (e : Event) : Prop :=
  match e with
  | MatchTick _ | Advance _ | PresenceSync _ _ _ => True
  | _ => False
  end.

Lemma slot_fire_all ts s :
  isMatchmakerRef s = false → no_close_pending ts →
  slot (fire_all ts s) = slot s ∧ timers (fire_all ts s) = timers s.
Proof.
  revert s. induction ts as [|t ts IH]; intros s Hm Hts; [done|].
  apply Forall_cons in Hts as [Ht Hts].
  unfold fire_all in *. cbn [fold_left].
  assert (slot (fire (action t) s) = slot s
          ∧ timers (fire (action t) s) = timers s
          ∧ isMatchmakerRef (fire (action t) s) = false) as (Hs1 & Ht1 & Hm1).
  { destruct (action t); cbn [fire]; try done. by rewrite Hm. }
  destruct (IH (fire (action t) s) Hm1 Hts) as [-> ->]. done.
Qed.

Lemma slot_advance dt s :
  isMatchmakerRef s = false → no_close_pending (timers s) →
  slot (advance dt s) = slot s ∧ no_close_pending (timers (advance dt s)).
Proof.
  intros Hm Hts. unfold advance. cbv zeta.
  match goal with
  | |- context [fire_all ?ts ?x] =>
      destruct (slot_fire_all ts x) as [-> ->]; [exact Hm| |]
  end.
  - unfold no_close_pending in *. rewrite Forall_forall in *.
    intros t Ht. apply Hts.
    rewrite sort_by_perm in Ht. by apply list_elem_of_filter in Ht as [_ Ht].
  - split; [reflexivity|]. cbn [timers setTimers].
    unfold no_close_pending in *. rewrite Forall_forall in *.
    intros t Ht. apply Hts. by apply list_elem_of_filter in Ht as [_ Ht].
Qed.

Lemma Lobby_matchTick_taken r c s :
  mainConnRef s = Some c → Lobby.matchTick r s = s.
Proof.
  intros Hc. unfold Lobby.matchTick. destruct (myPeerId s); [|done].
  rewrite Hc. rewrite (bool_decide_false (Some c = None)) by done.
  by rewrite andb_false_r.
Qed.

Lemma Lobby_run_cons e es s : Lobby.run (e :: es) s = Lobby.run es (Lobby.step e s).
Proof. reflexivity. Qed.

Lemma Lobby_waiting_keeps_slot es c s :
  isMatchmakerRef s = false → mainConnRef s = Some c →
  no_close_pending (timers s) → Forall waits es →
  slot (Lobby.run es s) = slot s.
Proof.
  intros Hm Hc Hts Hes. revert s Hm Hc Hts.
  induction Hes as [|e es He Hes IH]; intros s Hm Hc Hts; [done|].
  rewrite Lobby_run_cons.
  assert (slot (Lobby.step e s) = slot s
          ∧ no_close_pending (timers (Lobby.step e s))) as [Hs1 Ht1].
  { destruct e; try done; cbn [Lobby.step].
    - by apply slot_advance.
    - by rewrite (Lobby_matchTick_taken r c). }
  rewrite <- Hs1. apply IH; [| |exact Ht1].
  - change (isMatchmakerRef (Lobby.step e s)) with (slot (Lobby.step e s)).1.1.
    by rewrite Hs1.
  - change (mainConnRef (Lobby.step e s)) with (slot (Lobby.step e s)).1.2.
    by rewrite Hs1.
Qed.

(** The polling variant, in any state reached from a fresh hook in which
    a main connection is recorded and no delayed close is pending:
    however often the matchmaking interval runs, however much time
    passes and whatever the presence snapshots say, the connection stays
    recorded and the hook calls nothing, whether or not the connection
    has opened.  An attempt that never opens is never given up and never
    repeated. *)
Theorem Lobby_attempt_is_never_retried (greeting : Message)
    (profile : option UserProfile) (cs : list LobbyActions.Call)
    (es : list Event) (c : DataConnection) :
  let s := LobbyActions.calls greeting cs (initial profile) in
  mainConnRef s = Some c → no_close_pending (timers s) → Forall waits es →
  let s' := Lobby.run es s in
  mainConnRef s' = Some c ∧ effects s' = effects s ∧ isMatchmakerRef s' = false.
Proof.
  cbv zeta.
  pose proof (guards_Lobby_calls greeting cs (initial profile) eq_refl) as Hg.
  remember (LobbyActions.calls greeting cs (initial profile)) as s eqn:Hs. clear Hs.
  intros Hc Hts Hes.
  assert (isMatchmakerRef s = false) as Hm by (by rewrite guards_fst, Hg).
  pose proof (Lobby_waiting_keeps_slot es c s Hm Hc Hts Hes) as Hslot.
  remember (Lobby.run es s) as s' eqn:Hs'. clear Hs'.
  unfold slot in Hslot. injection Hslot as -> -> ->. done.
Qed.

Lemma Lobby_attempt_is_never_retried_witness :
  let s :=
    LobbyActions.calls greet
      [LobbyActions.PeerEffect None; LobbyActions.PeerOpened "me";
       LobbyActions.CallConnect;
       LobbyActions.Inbound (PresenceSync "me" [mkPresence "p1" waiting 1 None] Threw);
       LobbyActions.Inbound (MatchTick (Returned 4))]
      (initial (Some bee)) in
  connect_calls
    (effects
       (Lobby.run
          [Advance 5000; MatchTick (Returned 5); Advance 60000; MatchTick (Returned 6)]
          s))
  = [("p1", Some random)].
Proof.
  cbv zeta.
  destruct (Lobby_attempt_is_never_retried greet (Some bee)
              [LobbyActions.PeerEffect None; LobbyActions.PeerOpened "me";
               LobbyActions.CallConnect;
               LobbyActions.Inbound
                 (PresenceSync "me" [mkPresence "p1" waiting 1 None] Threw);
               LobbyActions.Inbound (MatchTick (Returned 4))]
              [Advance 5000; MatchTick (Returned 5); Advance 60000;
               MatchTick (Returned 6)]
              (mkConn 4 "p1")) as (_ & -> & _).
  - vm_compute. reflexivity.
  - vm_compute. repeat constructor; discriminate.
  - repeat constructor.
  - vm_compute. reflexivity.
Defined.

(** *** The delayed close *)

(** Firing timers closes nothing but the connection that is recorded as
    the main one. *)
Lemma fire_all_effects ts s e :
  e ∈ effects (fire_all ts s) →
  e ∈ effects s ∨ ∃ c, mainConnRef s = Some c ∧ e = Close (conn_ref c).
Proof.
  revert s. induction ts as [|t ts IH]; intros s He; [by left|].
  unfold fire_all in *. cbn [fold_left] in He. apply IH in He.
  destruct (action t); cbn [fire] in He.
  - exact He.
  - exact He.
  - rewrite close_main_eq in He.
    destruct He as [He|(c & Hc & _)]; [|discriminate Hc].
    cbn [effects setMainConnRef setOpenConns setEffects] in He.
    apply elem_of_app in He as [He|He]; [by left|].
    unfold closed_main in He. destruct (mainConnRef s) as [c|]; [|by apply elem_of_nil in He].
    apply list_elem_of_singleton in He. right. eauto.
  - destruct (isMatchmakerRef s && negb (main_open s)); [|exact He].
    destruct He as [He|(c & Hc & _)]; [by left|discriminate Hc].
Qed.

Lemma advance_effects dt s e :
  e ∈ effects (advance dt s) →
  e ∈ effects s ∨ ∃ c, mainConnRef s = Some c ∧ e = Close (conn_ref c).
Proof. unfold advance. cbv zeta. intros He. by apply fire_all_effects in He. Qed.

Lemma Lobby_cleanupMain_slot c s :
  mainConnRef s = Some c →
  let s' := Lobby.cleanupMain s in
  isMatchmakerRef s' = false ∧ mainConnRef s' = Some c ∧ now s' = now s
  ∧ timers s' = timers_after_cleanup s
  ∧ effects s' = effects s ++ Send (conn_ref c) Ddisconnect :: tracked idle s
  ∧ openConns s' = openConns s.
Proof.
  intros Hc. cbv zeta. unfold Lobby.cleanupMain. cbv zeta.
  rewrite Hc. normal_forms. unfold tracked. read_fields.
  repeat split; try reflexivity; try exact Hc.
  cbn. by rewrite <- app_assoc.
Qed.

Lemma Join_setup_random_slot conn s :
  connectionTimeoutRef s = None →
  let s' := Join.setupConnection conn (Some random) s in
  isMatchmakerRef s' = false ∧ mainConnRef s' = Some conn ∧ now s' = now s
  ∧ timers s' = timers s ∧ effects s' = effects s ++ tracked busy s
  ∧ openConns s' = openConns s.
Proof.
  intros Hk. cbv zeta. unfold Join.setupConnection. cbv zeta. rewrite Hk.
  rewrite bool_decide_true by done. cbn [orb]. normal_forms.
  by repeat split.
Qed.

Lemma Lobby_setup_random_slot conn s :
  let s' := Lobby.setupConnection conn (Some random) s in
  isMatchmakerRef s' = false ∧ mainConnRef s' = Some conn ∧ now s' = now s
  ∧ timers s' = timers s ∧ effects s' = effects s ++ tracked busy s
  ∧ openConns s' = openConns s.
Proof.
  cbv zeta. unfold Lobby.setupConnection. normal_forms. by repeat split.
Qed.

Lemma Join_cleanupMain_timeout s : connectionTimeoutRef (Join.cleanupMain s) = None.
Proof.
  unfold Join.cleanupMain. cbv zeta. normal_forms.
  destruct (channelRef s); read_fields;
    destruct (mainConnRef s); read_fields;
    destruct (connectionTimeoutRef s) eqn:Hk; read_fields; first [reflexivity|exact Hk].
Qed.

Lemma not_close_in_tracked st s c : Close c ∉ tracked st s.
Proof.
  unfold tracked. destruct (channelRef s), (myPeerIdRef s);
    intros H; repeat (apply elem_of_cons in H as [H|H]; [discriminate|]);
    by apply elem_of_nil in H.
Qed.

Lemma successor_closed c c' s :
  isMatchmakerRef s = false → mainConnRef s = Some c' →
  (∃ tm, tm ∈ timers s ∧ action tm = CloseMain ∧ due tm ≤ now s + 100) →
  conn_ref c ≠ conn_ref c' → Close (conn_ref c) ∉ effects s →
  main_closed c' (advance 100 s) ∧ Close (conn_ref c) ∉ effects (advance 100 s).
Proof.
  intros Hm Hc (tm & Htm & Ha & Hdue) Hne Hnot. split.
  - by apply (delayed_close c' tm).
  - intros [He|(x & Hx & Heq)]%advance_effects; [done|].
    rewrite Hc in Hx. injection Hx as <-. injection Heq as Heq. done.
Qed.

Lemma close_timer_due s :
  action (close_timer s) = CloseMain ∧ due (close_timer s) = now s + 100.
Proof. done. Qed.

Lemma setMessages_frame v x :
  connectionTimeoutRef (setMessages v x) = connectionTimeoutRef x
  ∧ mainConnRef (setMessages v x) = mainConnRef x
  ∧ now (setMessages v x) = now x
  ∧ timers (setMessages v x) = timers x
  ∧ effects (setMessages v x) = effects x.
Proof. done. Qed.

(** Either variant.  The user disconnects while a main connection [c]
    is recorded, and before the 100 ms of the delayed close are over a
    new main connection [c'] is set up (an incoming connection with
    metadata [random], or the own matchmaking attempt).  When the
    delayed close fires it closes [c'] and empties the main slot; [c]
    itself is never closed. *)
Theorem delayed_close_hits_successor (c c' : DataConnection) (s : State) :
  mainConnRef s = Some c → refs_below s →
  conn_ref c ≠ conn_ref c' → Close (conn_ref c) ∉ effects s →
  let J :=
    advance 100 (Join.setupConnection c' (Some random) (Join.disconnect s)) in
  let L :=
    advance 100 (Lobby.setupConnection c' (Some random) (Lobby.disconnect s)) in
  (main_closed c' J ∧ Close (conn_ref c) ∉ effects J)
  ∧ (main_closed c' L ∧ Close (conn_ref c) ∉ effects L).
Proof.
  intros Hc Hb Hne Hnot. cbv zeta.
  pose proof (close_timer_pending s Hb) as Hpend.
  destruct (close_timer_due s) as [Hact Hdue].
  split.
  - destruct (Join_disconnect_fields c s Hc)
      as (_ & _ & _ & _ & _ & _ & _ & He1 & _ & _ & Hn1 & Ht1).
    assert (connectionTimeoutRef (Join.disconnect s) = None) as Hk.
    { unfold Join.disconnect. cbv zeta.
      rewrite (proj1 (setMessages_frame _ _)). apply Join_cleanupMain_timeout. }
    remember (Join.disconnect s) as s1 eqn:Hs1. clear Hs1.
    destruct (Join_setup_random_slot c' s1 Hk) as (Hm2 & Hc2 & Hn2 & Ht2 & He2 & _).
    remember (Join.setupConnection c' (Some random) s1) as s2 eqn:Hs2. clear Hs2.
    apply successor_closed; [exact Hm2|exact Hc2| |exact Hne|].
    + exists (close_timer s). rewrite Ht2, Ht1, Hn2, Hn1, Hdue. done.
    + rewrite He2, He1. intros He.
      repeat (apply elem_of_app in He as [He|He]); try done.
      * destruct (channelRef s);
          repeat (apply elem_of_cons in He as [He|He]; [discriminate|]);
          by apply elem_of_nil in He.
      * apply list_elem_of_singleton in He. discriminate.
      * by apply not_close_in_tracked in He.
  - destruct (Lobby_cleanupMain_slot c s Hc) as (_ & Hc1 & Hn1 & Ht1 & He1 & _).
    unfold Lobby.disconnect.
    destruct (setMessages_frame [] (Lobby.cleanupMain s))
      as (_ & Hf1 & Hf2 & Hf3 & Hf4).
    rewrite <- Hf1 in Hc1. rewrite <- Hf2 in Hn1. rewrite <- Hf3 in Ht1.
    rewrite <- Hf4 in He1. clear Hf1 Hf2 Hf3 Hf4.
    remember (setMessages [] (Lobby.cleanupMain s)) as s1 eqn:Hs1. clear Hs1.
    destruct (Lobby_setup_random_slot c' s1) as (Hm2 & Hc2 & Hn2 & Ht2 & He2 & _).
    remember (Lobby.setupConnection c' (Some random) s1) as s2 eqn:Hs2. clear Hs2.
    apply successor_closed; [exact Hm2|exact Hc2| |exact Hne|].
    + exists (close_timer s). rewrite Ht2, Ht1, Hn2, Hn1, Hdue. done.
    + rewrite He2, He1. intros He.
      repeat (apply elem_of_app in He as [He|He]); try done.
      * apply elem_of_cons in He as [He|He]; [discriminate|].
        by apply not_close_in_tracked in He.
      * by apply not_close_in_tracked in He.
Qed.

Lemma delayed_close_hits_successor_witness :
  mainConnRef
    (advance 100 (Join.setupConnection conn_a (Some random) (Join.disconnect chatting)))
  = None
  ∧ Close 3
    ∈ effects
        (advance 100
           (Join.setupConnection conn_a (Some random) (Join.disconnect chatting))).
Proof.
  assert (mainConnRef chatting = Some conn_b) as Hc by reflexivity.
  assert (refs_below chatting) as Hb.
  { intros k [Hk|[Hk|Hk]]; discriminate Hk. }
  assert (conn_ref conn_b ≠ conn_ref conn_a) as Hne by discriminate.
  assert (Close (conn_ref conn_b) ∉ effects chatting) as Hnot.
  { intros H. by apply elem_of_nil in H. }
  destruct (delayed_close_hits_successor conn_b conn_a chatting Hc Hb Hne Hnot)
    as [[(H1 & _ & H3) _] _].
  split; [exact H1|exact H3].
Defined.

(** *** Taking over the main slot *)

Lemma Join_setup_random_eq conn s :
  Join.setupConnection conn (Some random) s
  = let ts := cleared (connectionTimeoutRef s) (timers s) in
    setEffects (effects s ++ tracked busy s)
      (setPartnerPeerId (Some (peer conn))
         (setIsConnectingRef false
            (setIsMatchmakerRef false
               (setMainConnRef (Some conn)
                  (setConnectionTimeoutRef None (setTimers ts s)))))).
Proof.
  unfold Join.setupConnection. cbv zeta.
  rewrite bool_decide_true by done. cbn [orb].
  destruct (connectionTimeoutRef s) as [k|] eqn:Hk; read_fields; normal_forms.
  - unfold tracked. reflexivity.
  - cbn [cleared].
    assert (setConnectionTimeoutRef None (setTimers (timers s) s) = s) as ->.
    { destruct s. cbn in Hk. by subst. }
    unfold tracked. reflexivity.
Qed.

Lemma Lobby_setup_random_eq conn s :
  Lobby.setupConnection conn (Some random) s
  = setEffects (effects s ++ tracked busy s)
      (setIsMatchmakerRef false
         (setPartnerPeerId (Some (peer conn)) (setMainConnRef (Some conn) s))).
Proof. unfold Lobby.setupConnection. cbv zeta. by normal_forms. Qed.

Lemma is_main_other c c' s :
  mainConnRef s = Some c' → conn_ref c ≠ conn_ref c' → is_main c s = false.
Proof.
  unfold is_main. intros -> Hne. apply bool_decide_eq_false. congruence.
Qed.

(** Either variant.  While a main connection [c] is recorded, a
    connection [c'] with metadata [random] is set up (any peer can open
    one).  [c'] takes the main slot; the history, the status and the
    partner's profile stay as they are; [c] is neither closed nor told.
    From then on a message arriving on [c] no longer enters the history
    but surfaces as a direct message of [c]'s peer, and a message
    arriving on [c'] is appended to the history the earlier partner
    wrote to. *)
Theorem main_slot_is_taken_over (rnd payload : string) (dataType : option DataType)
    (id : option string) (c c' : DataConnection) (s : State) :
  mainConnRef s = Some c → conn_ref c ≠ conn_ref c' →
  let J := Join.setupConnection c' (Some random) s in
  let L := Lobby.setupConnection c' (Some random) s in
  let d := Dmessage payload dataType id in
  (mainConnRef J = Some c' ∧ partnerPeerId J = Some (peer c')
   ∧ messages J = messages s ∧ status J = status s
   ∧ partnerProfile J = partnerProfile s
   ∧ effects J = effects s ++ tracked busy s
   ∧ messages (Join.handleIncomingData rnd d c J) = messages s
   ∧ dm_peerId <$> incomingDirectMessage (Join.handleIncomingData rnd d c J)
     = Some (peer c)
   ∧ messages (Join.handleIncomingData rnd d c' J)
     = messages s
       ++ [inbound (or_else id (toString (now s) +:+ rnd)) payload dataType None
             (now s)])
  ∧ (mainConnRef L = Some c' ∧ partnerPeerId L = Some (peer c')
     ∧ messages L = messages s ∧ status L = status s
     ∧ partnerProfile L = partnerProfile s
     ∧ effects L = effects s ++ tracked busy s
     ∧ messages (Lobby.handleIncomingData d c L) = messages s
     ∧ dm_peerId <$> incomingDirectMessage (Lobby.handleIncomingData d c L)
       = Some (peer c)
     ∧ messages (Lobby.handleIncomingData d c' L)
       = messages s
         ++ [inbound (or_else id (toString (now s))) payload dataType (Some sent)
               (now s)]).
Proof.
  intros Hc Hne. cbv zeta.
  assert (conn_ref c ≠ conn_ref c') as Hne' by done.
  split.
  - pose proof (Join_setup_random_eq c' s) as Heq. cbv zeta in Heq.
    assert (mainConnRef (Join.setupConnection c' (Some random) s) = Some c'
            ∧ partnerPeerId (Join.setupConnection c' (Some random) s) = Some (peer c')
            ∧ messages (Join.setupConnection c' (Some random) s) = messages s
            ∧ status (Join.setupConnection c' (Some random) s) = status s
            ∧ partnerProfile (Join.setupConnection c' (Some random) s)
              = partnerProfile s
            ∧ effects (Join.setupConnection c' (Some random) s)
              = effects s ++ tracked busy s
            ∧ now (Join.setupConnection c' (Some random) s) = now s)
      as (H1 & H2 & H3 & H4 & H5 & H6 & H7) by (by rewrite Heq).
    clear Heq.
    remember (Join.setupConnection c' (Some random) s) as J eqn:HJ. clear HJ.
    destruct (Join_message_direct rnd payload dataType id c J
                (is_main_other c c' J H1 Hne)) as (Hd1 & _ & Hd3).
    destruct (Join_message_main rnd payload dataType id c' J
                (is_main_recorded c' J H1)) as (Hm1 & _ & _).
    rewrite Hd3, Hd1, Hm1, H3, H7. done.
  - pose proof (Lobby_setup_random_eq c' s) as Heq.
    assert (mainConnRef (Lobby.setupConnection c' (Some random) s) = Some c'
            ∧ partnerPeerId (Lobby.setupConnection c' (Some random) s) = Some (peer c')
            ∧ messages (Lobby.setupConnection c' (Some random) s) = messages s
            ∧ status (Lobby.setupConnection c' (Some random) s) = status s
            ∧ partnerProfile (Lobby.setupConnection c' (Some random) s)
              = partnerProfile s
            ∧ effects (Lobby.setupConnection c' (Some random) s)
              = effects s ++ tracked busy s
            ∧ now (Lobby.setupConnection c' (Some random) s) = now s)
      as (H1 & H2 & H3 & H4 & H5 & H6 & H7) by (by rewrite Heq).
    clear Heq.
    remember (Lobby.setupConnection c' (Some random) s) as L eqn:HL. clear HL.
    destruct (Lobby_message_direct payload dataType id c L
                (is_main_other c c' L H1 Hne)) as (Hd1 & _ & Hd3).
    destruct (Lobby_message_main payload dataType id c' L
                (is_main_recorded c' L H1)) as (Hm1 & _ & _).
    rewrite Hd3, Hd1, Hm1, H3, H7. done.
Qed.

Lemma main_slot_is_taken_over_witness :
  let J := Join.setupConnection conn_a (Some random) (setMessages [hello] chatting) in
  m_text <$> messages (Join.handleIncomingData "r" (Dmessage "psst" None None) conn_a J)
  = [Some "hi"; Some "psst"]
  ∧ m_text <$> messages (Join.handleIncomingData "r" (Dmessage "wait" None None) conn_b J)
    = [Some "hi"].
Proof.
  assert (mainConnRef (setMessages [hello] chatting) = Some conn_b) as Hc
    by reflexivity.
  assert (conn_ref conn_b ≠ conn_ref conn_a) as Hne by discriminate.
  destruct (main_slot_is_taken_over "r" "psst" None None conn_b conn_a
              (setMessages [hello] chatting) Hc Hne)
    as [(_ & _ & _ & _ & _ & _ & _ & _ & Hnew) _].
  destruct (main_slot_is_taken_over "r" "wait" None None conn_b conn_a
              (setMessages [hello] chatting) Hc Hne)
    as [(_ & _ & _ & _ & _ & _ & Hold & _) _].
  cbv zeta. split.
  - etrans; [exact (f_equal (fmap m_text) Hnew)|]. vm_compute. reflexivity.
  - etrans; [exact (f_equal (fmap m_text) Hold)|]. vm_compute. reflexivity.
Defined.

(** *** The direct connections of the polling variant *)

(** The set behind [isPeerConnected] and the map of direct
    connections. *)
Definition directs (s : State) : gset string * gmap string DataConnection :=
  (activeDirectConnections s, directConnsRef s).

(** Every peer of the set has a connection in the map, and the other
    way round. *)
Definition directs_ok (s : State) : Prop :=
  activeDirectConnections s = dom (directConnsRef s).

Lemma directs_ok_frame s s' : directs s' = directs s → directs_ok s → directs_ok s'.
Proof. unfold directs, directs_ok. by intros [= -> ->]. Qed.

Lemma directs_fire_all ts s : directs (fire_all ts s) = directs s.
Proof.
  revert s. induction ts as [|t ts IH]; intros s; [done|].
  unfold fire_all in *. cbn [fold_left]. rewrite IH.
  destruct (action t); cbn [fire]; try done.
  - by rewrite close_main_eq.
  - by destruct (isMatchmakerRef s && negb (main_open s)).
Qed.

Lemma directs_advance dt s : directs (advance dt s) = directs s.
Proof. unfold advance. cbv zeta. by rewrite directs_fire_all. Qed.

Lemma directs_ok_Lobby_data data conn s :
  directs_ok s → directs_ok (Lobby.handleIncomingData data conn s).
Proof.
  intros Hs.
  destruct data as [| | | | | |? messageId|? messageId| | | |];
    unfold Lobby.handleIncomingData; cbv zeta;
    try (destruct messageId; [destruct (truthy _)|]);
    try (destruct (is_main conn s));
    normal_forms;
    try (apply (directs_ok_frame s); [reflexivity|exact Hs]).
  unfold directs_ok in *.
  cbn [activeDirectConnections directConnsRef setActiveDirectConnections
         setDirectConnsRef].
  by rewrite dom_delete_L, Hs.
Qed.

Lemma directs_Lobby_cleanupMain s : directs (Lobby.cleanupMain s) = directs s.
Proof.
  unfold Lobby.cleanupMain. cbv zeta. normal_forms. by destruct (mainConnRef s).
Qed.

Lemma directs_ok_Lobby_setup conn md s :
  directs_ok s → directs_ok (Lobby.setupConnection conn md s).
Proof.
  intros Hs. unfold Lobby.setupConnection.
  destruct md as [[]|]; normal_forms;
    try (apply (directs_ok_frame s); [reflexivity|exact Hs]);
    unfold directs_ok in *;
    cbn [activeDirectConnections directConnsRef setActiveDirectConnections
           setDirectConnsRef];
    by rewrite dom_insert_L, Hs.
Qed.

Lemma directs_arm a d ref s :
  directs (let '(k, s0) := setTimeout a d (clearTimeoutRef ref s) in
           setConnectionTimeoutRef (Some k) s0) = directs s.
Proof. by rewrite clearTimeoutRef_eq. Qed.

Lemma directs_Lobby_matchTick r s : directs (Lobby.matchTick r s) = directs s.
Proof.
  unfold Lobby.matchTick.
  destruct (myPeerId s); [|done]. case_match; [|done].
  destruct (Lobby.waiters _ _); [done|]. cbv zeta. read_fields.
  destruct (peerRef s); [|done].
  destruct r; try done.
  rewrite directs_arm. unfold Lobby.setupConnection. by normal_forms.
Qed.

Lemma directs_setMessages v s : directs (setMessages v s) = directs s.
Proof. reflexivity. Qed.

Lemma directs_ok_Lobby_step e s : directs_ok s → directs_ok (Lobby.step e s).
Proof.
  intros Hs. destruct e; cbn [Lobby.step].
  - by apply directs_ok_Lobby_data.
  - apply (directs_ok_frame s); [apply directs_advance|exact Hs].
  - apply (directs_ok_frame s); [|exact Hs]. unfold Lobby.disconnect.
    by rewrite directs_setMessages, directs_Lobby_cleanupMain.
  - exact Hs.
  - apply (directs_ok_frame s); [apply directs_Lobby_matchTick|exact Hs].
  - exact Hs.
  - apply (directs_ok_frame s); [by rewrite saveToRecent_eq|exact Hs].
  - apply (directs_ok_frame s); [by rewrite saveFriend_eq|exact Hs].
  - apply (directs_ok_frame s); [by rewrite removeFriend_eq|exact Hs].
  - exact Hs.
  - exact Hs.
Qed.

Lemma directs_send_if_open data s :
  directs (LobbyActions.send_if_open data s) = directs s.
Proof. by rewrite send_if_open_eq. Qed.

Lemma directs_send_direct peerId data s :
  directs (LobbyActions.send_direct peerId data s) = directs s.
Proof.
  unfold LobbyActions.send_direct.
  destruct (directConnsRef s !! peerId) as [c|]; [|done]. by destruct (is_open c s).
Qed.

Lemma directs_Lobby_accept req r s :
  directs (LobbyActions.acceptFriendRequest req r s) = directs s.
Proof.
  unfold LobbyActions.acceptFriendRequest. cbv zeta.
  destruct (match req with Some x => Some x | None => head (friendRequests s) end)
    as [target|]; [|done].
  destruct (userProfile s) as [profile|] eqn:Hp; [|done].
  pose proof (Lobby_accept_eq target profile r s Hp) as Heq.
  unfold LobbyActions.acceptFriendRequest in Heq. rewrite Hp in Heq.
  cbv zeta in Heq. rewrite Heq. reflexivity.
Qed.

Lemma directs_Lobby_onOpen greeting conn s :
  directs (LobbyActions.onOpen greeting conn s) = directs s.
Proof.
  unfold LobbyActions.onOpen. cbv zeta.
  destruct (is_main conn s); read_through userProfile; by destruct (userProfile s).
Qed.

Lemma directs_ok_Lobby_call greeting c s :
  directs_ok s → directs_ok (LobbyActions.call greeting c s).
Proof.
  intros Hs.
  assert (∀ s', directs s' = directs s → directs_ok s') as framed.
  { intros s' Hs'. by apply (directs_ok_frame s). }
  destruct c; cbn [LobbyActions.call].
  - by apply directs_ok_Lobby_step.
  - by apply directs_ok_Lobby_setup.
  - apply framed. by rewrite directs_Lobby_onOpen.
  - unfold LobbyActions.onClose. case_match.
    + apply (directs_ok_frame s); [reflexivity|exact Hs].
    + unfold directs_ok in *. cbv zeta.
      cbn [activeDirectConnections directConnsRef setActiveDirectConnections
             setDirectConnsRef transport_close setOpenConns].
      by rewrite dom_delete_L, Hs.
  - apply framed. unfold LobbyActions.onError. by case_match.
  - apply framed. unfold LobbyActions.initPeer. destruct (userProfile s); [|done].
    by destruct (peerRef s).
  - apply framed. unfold LobbyActions.onPeerOpen. cbv zeta. case_match; [|done].
    read_fields.
    assert (directs match channelRef s with
                    | Some _ =>
                        setChannelRef None
                          (effect RemoveChannel
                             (effect Untrack
                                (setMyPeerId (Some id) (setMyPeerIdRef (Some id) s))))
                    | None => setMyPeerId (Some id) (setMyPeerIdRef (Some id) s)
                    end = directs s) as Hx by (by destruct (channelRef s)).
    match goal with
    | |- context [userProfile ?x] => remember x as X eqn:HX; clear HX
    end.
    rewrite <- Hx. destruct (userProfile X); [|done]. by destruct (truthy _).
  - apply framed. done.
  - apply framed. unfold LobbyActions.connect.
    destruct (channelRef s); [|done]. destruct (myPeerIdRef s); [|done].
    by case_match.
  - apply framed. change (LobbyActions.sendMessage rnd text_ s) with (Lobby_send text rnd text_ s).
    destruct (main_open s) eqn:Ho; [|by rewrite Lobby_send_closed].
    unfold main_open in Ho. destruct (mainConnRef s) as [c|] eqn:Hc; [|done].
    by rewrite (Lobby_send_open _ _ _ c).
  - apply framed. change (LobbyActions.sendImage rnd b64 s) with (Lobby_send image rnd b64 s).
    destruct (main_open s) eqn:Ho; [|by rewrite Lobby_send_closed].
    unfold main_open in Ho. destruct (mainConnRef s) as [c|] eqn:Hc; [|done].
    by rewrite (Lobby_send_open _ _ _ c).
  - apply framed. change (LobbyActions.sendAudio rnd b64 s) with (Lobby_send audio rnd b64 s).
    destruct (main_open s) eqn:Ho; [|by rewrite Lobby_send_closed].
    unfold main_open in Ho. destruct (mainConnRef s) as [c|] eqn:Hc; [|done].
    by rewrite (Lobby_send_open _ _ _ c).
  - apply framed. by rewrite Lobby_sendReaction_eq.
  - apply framed. by rewrite Lobby_editMessage_eq.
  - apply framed. unfold LobbyActions.sendTyping. by rewrite directs_send_if_open.
  - apply framed. unfold LobbyActions.sendRecording. by rewrite directs_send_if_open.
  - apply framed. unfold LobbyActions.sendVanishMode. by rewrite directs_send_if_open.
  - apply framed. unfold LobbyActions.sendFriendRequest.
    destruct (userProfile s); [|done]. by rewrite directs_send_if_open.
  - apply framed. unfold LobbyActions.sendDirectMessage. by rewrite directs_send_direct.
  - apply framed. unfold LobbyActions.sendDirectImage. by rewrite directs_send_direct.
  - apply framed. unfold LobbyActions.sendDirectAudio. by rewrite directs_send_direct.
  - apply framed. unfold LobbyActions.sendDirectTyping. by rewrite directs_send_direct.
  - apply framed. unfold LobbyActions.sendDirectReaction. by rewrite directs_send_direct.
  - apply framed. unfold LobbyActions.sendDirectFriendRequest.
    destruct (userProfile s); [|done]. cbv zeta.
    destruct (directConnsRef s !! peerId) as [dc|];
      [destruct (is_open dc s); [done|]|]; by destruct (peerRef s).
  - unfold LobbyActions.onRequestOpen. apply directs_ok_Lobby_setup.
    apply (directs_ok_frame s); [reflexivity|exact Hs].
  - unfold LobbyActions.callPeer. cbv zeta.
    assert (directs_ok match profile with
                       | Some p => saveToRecent p peerId s
                       | None => s
                       end) as Hz.
    { destruct profile; [|done].
      apply (directs_ok_frame s); [by rewrite saveToRecent_eq|exact Hs]. }
    match goal with
    | |- context [directConnsRef ?x !! _] => remember x as Z eqn:HZ; clear HZ
    end.
    destruct (directConnsRef Z !! peerId); [done|].
    destruct (peerRef Z); [|done].
    destruct r; [|apply (directs_ok_frame Z); [reflexivity|exact Hz]..].
    apply directs_ok_Lobby_setup.
    apply (directs_ok_frame Z); [reflexivity|exact Hz].
  - apply framed. by rewrite directs_Lobby_accept.
  - apply framed. done.
  - apply framed. unfold LobbyActions.onPeerError. by case_match.
  - apply framed. done.
  - apply framed. done.
Qed.

(** In the polling variant, from a fresh hook, after any sequence of
    callbacks and calls: [isPeerConnected] answers true for exactly the
    peers that have a connection in the map of direct connections. *)
Theorem Lobby_isPeerConnected_follows_map (greeting : Message)
    (profile : option UserProfile) (cs : list LobbyActions.Call) (peerId : string) :
  let s := LobbyActions.calls greeting cs (initial profile) in
  LobbyActions.isPeerConnected peerId s = true ↔ is_Some (directConnsRef s !! peerId).
Proof.
  cbv zeta.
  assert (directs_ok (LobbyActions.calls greeting cs (initial profile))) as Hok.
  { assert (directs_ok (initial profile)) as H0.
    { unfold directs_ok. cbn. by rewrite dom_empty_L. }
    revert H0. generalize (initial profile).
    induction cs as [|c cs IH]; intros s Hs; [done|].
    unfold LobbyActions.calls in *. cbn [fold_left]. apply IH.
    by apply directs_ok_Lobby_call. }
  remember (LobbyActions.calls greeting cs (initial profile)) as s eqn:Hs. clear Hs.
  unfold LobbyActions.isPeerConnected. rewrite bool_decide_eq_true, Hok.
  apply elem_of_dom.
Qed.

(** *** Pending friend requests *)


(** No peer has two requests pending, no request is from a peer on the
    shown friend list, and the shown friend list names the peers of the
    stored one. *)
Definition requests_ok (s : State) : Prop :=
  NoDup (fr_peerId <$> friendRequests s)
  ∧ (∀ req, req ∈ friendRequests s → fr_peerId req ∉ f_id <$> friends s)
  ∧ f_id <$> friends s = f_id <$> default [] (chat_friends s).


Lemma NoDup_peers_filter (P : FriendRequest → Prop) `{∀ r, Decision (P r)} l :
  NoDup (fr_peerId <$> l) → NoDup (fr_peerId <$> filter P l).
Proof.
  intros Hnd. eapply sublist_NoDup; [exact Hnd|]. apply fmap_sublist, sublist_filter.
Qed.






Lemma requests_ok_filtered (P : FriendRequest → Prop) `{∀ r, Decision (P r)} s :
  requests_ok s → requests_ok (setFriendRequests (filter P (friendRequests s)) s).
Proof.
  intros (Hnd & Hnf & Hids). unfold requests_ok.
  cbn [friendRequests friends chat_friends setFriendRequests].
  split; [by apply NoDup_peers_filter|]. split; [|done].
  intros req [_ Hreq]%list_elem_of_filter. by apply Hnf.
Qed.







































(** *** Last seen *)

(** A friend whose [lastSeen] the presence effect renews: online, and
    not seen for more than a minute. *)
Definition stale (s : State) (f : Friend) : bool :=
  bool_decide (f_id f ∈ p_peerId <$> onlineUsers s)
  && bool_decide (60000 < now s - lastSeen f).








(** *** Direct messages of the join variant *)

Lemma Join_setup_direct_eq conn s :
  Join.setupConnection conn (Some direct) s
  = setDirectConnsRef (<[peer conn := conn]> (directConnsRef s))
      (setConnectionTimeoutRef None
         (setTimers (cleared (connectionTimeoutRef s) (timers s)) s)).
Proof.
  unfold Join.setupConnection. cbv zeta.
  rewrite bool_decide_false by done. rewrite (bool_decide_false (Some direct = None)) by done.
  cbn [orb andb].
  destruct (connectionTimeoutRef s) as [k|] eqn:Hk; read_fields.
  - reflexivity.
  - cbn [cleared].
    assert (setConnectionTimeoutRef None (setTimers (timers s) s) = s) as ->.
    { destruct s. cbn in Hk. by subst. }
    reflexivity.
Qed.

Lemma Join_sendDirectMessage_known targetPeerId text_ id r c s :
  directConnsRef s !! targetPeerId = Some c →
  JoinActions.sendDirectMessage targetPeerId text_ id r s
  = send c (Dmessage text_ (Some text) (Some (or_else id (toString (now s))))) s.
Proof. intros Hc. unfold JoinActions.sendDirectMessage. by rewrite Hc. Qed.

Lemma Join_sendDirectMessage_fresh targetPeerId text_ id ref s :
  directConnsRef s !! targetPeerId = None → is_Some (peerRef s) →
  JoinActions.sendDirectMessage targetPeerId text_ id (Returned ref) s
  = setEffects
      (effects s
       ++ [Connect targetPeerId (Some direct);
           Send ref (Dmessage text_ (Some text) (Some (or_else id (toString (now s)))))])
      (setDirectConnsRef (<[targetPeerId := mkConn ref targetPeerId]> (directConnsRef s))
         (setConnectionTimeoutRef None
            (setTimers (cleared (connectionTimeoutRef s) (timers s)) s))).
Proof.
  intros Hc [p Hp]. unfold JoinActions.sendDirectMessage, JoinActions.connect_direct.
  rewrite Hc, Hp. cbv zeta. rewrite Join_setup_direct_eq.
  unfold send, effect. cbn [conn_ref peer].
  match goal with
  | |- setEffects (effects ?x ++ _) ?x = _ =>
      assert (effects x = effects s ++ [Connect targetPeerId (Some direct)]) as ->
        by reflexivity;
      assert (now x = now s) as -> by reflexivity
  end.
  rewrite <- app_assoc. cbn [app]. by destruct s.
Qed.

(** The join variant.  A direct message to a peer without a recorded
    direct connection asks the peer object for one, records it, and
    sends the message on it at once, before it has opened; the next
    direct message to that peer goes out on the recorded connection and
    asks for none.  When the peer object hands back no connection, or
    throws, the message is dropped: nothing is sent and nothing is
    recorded.  A message without id is sent under the clock reading. *)
Theorem Join_direct_message_connects_once (targetPeerId text1 text2 : string)
    (id1 id2 : option string) (ref : nat) (r r' : ConnectResult) (s : State) :
  directConnsRef s !! targetPeerId = None → is_Some (peerRef s) →
  let envelope t i := Dmessage t (Some text) (Some (or_else i (toString (now s)))) in
  let s1 := JoinActions.sendDirectMessage targetPeerId text1 id1 (Returned ref) s in
  let s2 := JoinActions.sendDirectMessage targetPeerId text2 id2 r s1 in
  let failed := JoinActions.sendDirectMessage targetPeerId text1 id1 r' s in
  directConnsRef s1 !! targetPeerId = Some (mkConn ref targetPeerId)
  ∧ effects s1
    = effects s ++ [Connect targetPeerId (Some direct); Send ref (envelope text1 id1)]
  ∧ effects s2 = effects s1 ++ [Send ref (envelope text2 id2)]
  ∧ directConnsRef s2 = directConnsRef s1
  ∧ ((r' = ReturnedUndefined ∨ r' = Threw) →
     effects failed = effects s ++ [Connect targetPeerId (Some direct)]
     ∧ directConnsRef failed = directConnsRef s).
Proof.
  intros Hc Hp. cbv zeta.
  pose proof (Join_sendDirectMessage_fresh targetPeerId text1 id1 ref s Hc Hp) as H1.
  assert (directConnsRef
            (JoinActions.sendDirectMessage targetPeerId text1 id1 (Returned ref) s)
          !! targetPeerId = Some (mkConn ref targetPeerId)) as Hd1.
  { rewrite H1. cbn [directConnsRef setEffects setDirectConnsRef].
    apply lookup_insert_eq. }
  assert (effects
            (JoinActions.sendDirectMessage targetPeerId text1 id1 (Returned ref) s)
          = effects s
            ++ [Connect targetPeerId (Some direct);
                Send ref (Dmessage text1 (Some text)
                            (Some (or_else id1 (toString (now s)))))]
          ∧ now (JoinActions.sendDirectMessage targetPeerId text1 id1 (Returned ref) s)
            = now s) as [He1 Hn1].
  { by rewrite H1. }
  clear H1.
  remember (JoinActions.sendDirectMessage targetPeerId text1 id1 (Returned ref) s)
    as s1 eqn:Hs1. clear Hs1.
  split; [exact Hd1|]. split; [exact He1|].
  rewrite (Join_sendDirectMessage_known _ _ _ _ _ s1 Hd1), Hn1.
  split; [reflexivity|]. split; [reflexivity|].
  intros Hr. unfold JoinActions.sendDirectMessage, JoinActions.connect_direct.
  destruct Hp as [p Hp]. rewrite Hc, Hp. cbv zeta.
  by destruct Hr as [-> | ->].
Qed.

Definition with_peer : State := setPeerRef (Some (mkPeer (Some "me"))) (initial None).

Lemma Join_direct_message_connects_once_witness :
  connect_calls
    (effects
       (JoinActions.sendDirectMessage "peer-b" "again" None Threw
          (JoinActions.sendDirectMessage "peer-b" "hi" None (Returned 7) with_peer)))
  = [("peer-b", Some direct)].
Proof.
  assert (directConnsRef with_peer !! "peer-b" = None) as Hc by reflexivity.
  assert (is_Some (peerRef with_peer)) as Hp by (vm_compute; eauto).
  destruct (Join_direct_message_connects_once "peer-b" "hi" "again" None None 7
              Threw Threw with_peer Hc Hp) as (_ & He1 & He2 & _ & Hfail).
  destruct (Hfail (or_intror eq_refl)) as [_ _].
  rewrite He2, He1. vm_compute. reflexivity.
Defined.

(** *** Opening a connection *)

(** The [profile] envelope the [open] listener sends. *)
Definition profile_sent (conn : DataConnection) (s : State) : list Effect :=
  match userProfile s with
  | Some profile => [Send (conn_ref conn) (Dprofile profile)]
  | None => []
  end.

Lemma Join_onOpen_main greeting conn s :
  is_main conn s = true →
  JoinActions.onOpen greeting conn s
  = setEffects (effects s ++ profile_sent conn s)
      (setMessages [greeting] (setStatus CONNECTED s)).
Proof.
  intros Hm. unfold JoinActions.onOpen, profile_sent. cbv zeta. rewrite Hm.
  read_through userProfile.
  destruct (userProfile s); [reflexivity|]. rewrite app_nil_r. by destruct s.
Qed.

Lemma Lobby_onOpen_main greeting conn s :
  is_main conn s = true →
  LobbyActions.onOpen greeting conn s
  = setEffects (effects s ++ profile_sent conn s)
      (setMessages [greeting] (setStatus CONNECTED s)).
Proof.
  intros Hm. unfold LobbyActions.onOpen, profile_sent. cbv zeta. rewrite Hm.
  read_through userProfile.
  destruct (userProfile s); [reflexivity|]. rewrite app_nil_r. by destruct s.
Qed.

Lemma Join_profile_main rnd p conn s :
  is_main conn s = true →
  Join.handleIncomingData rnd (Dprofile p) conn s
  = setMessages (patch_greeting p <$> messages s)
      (setRecent_peers
         (if storageFull s then recent_peers s
          else Some (recents_after p (peer conn) (now s) (default [] (recent_peers s))))
         (setPartnerProfile (Some p) s)).
Proof.
  intros Hm. unfold Join.handleIncomingData. rewrite Hm. cbv zeta.
  rewrite saveToRecent_eq. reflexivity.
Qed.

Lemma Lobby_profile_main p conn s :
  is_main conn s = true →
  Lobby.handleIncomingData (Dprofile p) conn s
  = setMessages (patch_greeting p <$> messages s)
      (setPartnerProfile (Some p)
         (setRecent_peers
            (if storageFull s then recent_peers s
             else Some (recents_after p (peer conn) (now s)
                          (default [] (recent_peers s))))
            s)).
Proof.
  intros Hm. unfold Lobby.handleIncomingData. cbv zeta. rewrite Hm, saveToRecent_eq.
  reflexivity.
Qed.

Lemma patch_greeting_text p greeting :
  m_id greeting = "init-1" →
  m_text (patch_greeting p greeting)
  = Some ("Connected with " +:+ username p +:+ ". Say hello!").
Proof. intros Hid. unfold patch_greeting. by rewrite bool_decide_true. Qed.

(** Either variant.  When the main connection opens, the status becomes
    CONNECTED, the history is replaced by the greeting alone, and the
    own profile, if there is one, is sent.  When the partner's profile
    then arrives on that connection, it becomes the partner profile, the
    greeting, provided its id is ['init-1'], reads "Connected with
    <username>. Say hello!", and, storage permitting, the partner is on
    top of the recent peers. *)
Theorem open_then_profile (greeting : Message) (rnd : string) (p : UserProfile)
    (conn : DataConnection) (s : State) :
  is_main conn s = true →
  let J1 := JoinActions.onOpen greeting conn s in
  let J2 := Join.handleIncomingData rnd (Dprofile p) conn J1 in
  let L1 := LobbyActions.onOpen greeting conn s in
  let L2 := Lobby.handleIncomingData (Dprofile p) conn L1 in
  (status J1 = CONNECTED ∧ messages J1 = [greeting]
   ∧ effects J1 = effects s ++ profile_sent conn s
   ∧ status J2 = CONNECTED ∧ partnerProfile J2 = Some p
   ∧ messages J2 = [patch_greeting p greeting]
   ∧ (m_id greeting = "init-1" →
      m_text <$> messages J2
      = [Some ("Connected with " +:+ username p +:+ ". Say hello!")])
   ∧ (storageFull s = false →
      head (default [] (recent_peers J2)) = Some (new_entry p (peer conn) (now s))))
  ∧ (status L1 = CONNECTED ∧ messages L1 = [greeting]
     ∧ effects L1 = effects s ++ profile_sent conn s
     ∧ status L2 = CONNECTED ∧ partnerProfile L2 = Some p
     ∧ messages L2 = [patch_greeting p greeting]
     ∧ (m_id greeting = "init-1" →
        m_text <$> messages L2
        = [Some ("Connected with " +:+ username p +:+ ". Say hello!")])
     ∧ (storageFull s = false →
        head (default [] (recent_peers L2))
        = Some (new_entry p (peer conn) (now s)))).
Proof.
  intros Hm. cbv zeta.
  rewrite (Join_onOpen_main greeting conn s Hm), (Lobby_onOpen_main greeting conn s Hm).
  set (s1 := setEffects _ _).
  assert (is_main conn s1 = true) as Hm1 by exact Hm.
  rewrite (Join_profile_main rnd p conn s1 Hm1), (Lobby_profile_main p conn s1 Hm1).
  assert (storageFull s1 = storageFull s) as -> by reflexivity.
  assert (messages s1 = [greeting]) as -> by reflexivity.
  assert (now s1 = now s) as -> by reflexivity.
  assert (status s1 = CONNECTED) as Hst by reflexivity.
  assert (effects s1 = effects s ++ profile_sent conn s) as Hef by reflexivity.
  clearbody s1.
  split.
  - split; [exact Hst|]. split; [reflexivity|]. split; [exact Hef|].
    split; [exact Hst|]. split; [reflexivity|]. split; [reflexivity|].
    split.
    + intros Hid. cbn [messages setMessages fmap list_fmap].
      by rewrite patch_greeting_text.
    + intros Hfull. rewrite Hfull.
      cbn [recent_peers setMessages setRecent_peers default].
      unfold recents_after, new_entry. reflexivity.
  - split; [exact Hst|]. split; [reflexivity|]. split; [exact Hef|].
    split; [exact Hst|]. split; [reflexivity|]. split; [reflexivity|].
    split.
    + intros Hid. cbn [messages setMessages fmap list_fmap].
      by rewrite patch_greeting_text.
    + intros Hfull. rewrite Hfull.
      cbn [recent_peers setMessages setPartnerProfile setRecent_peers default].
      unfold recents_after, new_entry. reflexivity.
Qed.

Lemma open_then_profile_witness :
  m_text
  <$> messages
        (Join.handleIncomingData "r" (Dprofile bee) conn_b
           (JoinActions.onOpen greet conn_b chatting))
  = [Some "Connected with bee. Say hello!"].
Proof.
  assert (is_main conn_b chatting = true) as Hm by reflexivity.
  destruct (open_then_profile greet "r" bee conn_b chatting Hm)
    as [(_ & _ & _ & _ & _ & _ & Htext & _) _].
  rewrite Htext by reflexivity. reflexivity.
Defined.

(** *** [connect] of the join variant *)

(** What a session leaves behind. *)
Definition session (s : State) :=
  (messages s, partnerProfile s, remoteVanishMode s, friendRequests s,
   partnerPeerId s, partnerTyping s, partnerRecording s).

(** Where the client stands in the lobby. *)
Definition standing (s : State) : ChatMode * option string * option Peer :=
  (status s, channelRef s, peerRef s).

Lemma Join_cleanupMain_standing s :
  standing (Join.cleanupMain s) = (DISCONNECTED, None, peerRef s)
  ∧ partnerPeerId (Join.cleanupMain s) = None
  ∧ partnerTyping (Join.cleanupMain s) = false
  ∧ partnerRecording (Join.cleanupMain s) = false.
Proof.
  unfold Join.cleanupMain. cbv zeta. normal_forms.
  destruct (channelRef s) eqn:Hch; read_fields;
    destruct (mainConnRef s); read_fields;
    destruct (connectionTimeoutRef s); unfold standing;
    (split; [|split; [reflexivity|split; reflexivity]]);
    first [reflexivity | by rewrite <- Hch].
Qed.

Lemma session_reset (w : State) :
  session (setIsMatchmakerRef false
             (setFriendRequests []
                (setRemoteVanishMode None
                   (setPartnerProfile None (setMessages [] w)))))
  = ([], None, None, [], partnerPeerId w, partnerTyping w, partnerRecording w)
  ∧ standing (setIsMatchmakerRef false
                (setFriendRequests []
                   (setRemoteVanishMode None
                      (setPartnerProfile None (setMessages [] w)))))
    = standing w.
Proof. done. Qed.

Lemma session_initPeer persistentId s :
  session (JoinActions.initPeer persistentId s) = session s
  ∧ standing (JoinActions.initPeer persistentId s)
    = (status s, channelRef s,
       Some (default (mkPeer (if truthy persistentId then persistentId else None))
               (peerRef s))).
Proof.
  unfold JoinActions.initPeer, standing, session.
  destruct (peerRef s) eqn:Hp; (split; [reflexivity|]); [by rewrite Hp|reflexivity].
Qed.

Lemma session_joinLobby myId s :
  session (JoinActions.joinLobby myId s) = session s
  ∧ standing (JoinActions.joinLobby myId s) = (SEARCHING, Some myId, peerRef s).
Proof.
  unfold JoinActions.joinLobby. cbv zeta. read_fields. by destruct (channelRef s).
Qed.

Lemma joinLobby_standing myId s :
  status (JoinActions.joinLobby myId s) = SEARCHING
  ∧ channelRef (JoinActions.joinLobby myId s) = Some myId.
Proof.
  unfold JoinActions.joinLobby. cbv zeta. read_fields. by destruct (channelRef s).
Qed.

(** The id [connect] finds on the peer: that of the peer at hand, or of
    the one it makes. *)
Definition peer_id_at_connect (persistentId : option string) (s : State)
    : option string :=
  match peerRef s with
  | Some p => peer_id p
  | None => if truthy persistentId then persistentId else None
  end.

(** What [connect] does after [cleanupMain], on any state. *)
Lemma Join_connect_tail persistentId (w : State) :
  let x := setIsMatchmakerRef false
             (setFriendRequests []
                (setRemoteVanishMode None
                   (setPartnerProfile None (setMessages [] w)))) in
  let y := JoinActions.initPeer persistentId x in
  let z := match peerRef y with
           | Some p =>
               match peer_id p with
               | Some id => if truthy (peer_id p) then JoinActions.joinLobby id y else y
               | None => y
               end
           | None => y
           end in
  session z = ([], None, None, [], partnerPeerId w, partnerTyping w, partnerRecording w)
  ∧ match match peerRef w with
          | Some p => peer_id p
          | None => if truthy persistentId then persistentId else None
          end with
    | Some id =>
        if truthy (Some id)
        then status z = SEARCHING ∧ channelRef z = Some id
        else status z = status w ∧ channelRef z = channelRef w
    | None => status z = status w ∧ channelRef z = channelRef w
    end.
Proof.
  intros x y z.
  destruct (session_reset w) as [Hx1 Hx2]. fold x in Hx1, Hx2.
  destruct (session_initPeer persistentId x) as [Hy1 Hy2]. fold y in Hy1, Hy2.
  rewrite Hx1 in Hy1. clearbody x.
  injection Hx2 as Hxs Hxc Hxp. rewrite Hxs, Hxc, Hxp in Hy2.
  clearbody y. injection Hy2 as Hys Hyc Hyp.
  subst z. rewrite Hyp.
  destruct (peerRef w) as [p|]; cbn [default from_option peer_id]; unfold id.
  - destruct (peer_id p) as [id|]; [|by rewrite Hys, Hyc].
    destruct (truthy (Some id)); [|by rewrite Hys, Hyc].
    rewrite (proj1 (session_joinLobby id y)). split; [done|].
    apply joinLobby_standing.
  - destruct (truthy persistentId) eqn:Htr; [|by rewrite Hys, Hyc].
    destruct persistentId as [id|]; [|by rewrite Hys, Hyc]. rewrite Htr.
    rewrite (proj1 (session_joinLobby id y)). split; [done|].
    apply joinLobby_standing.
Qed.

Lemma standing_fields (x : State) a b c :
  standing x = (a, b, c) → status x = a ∧ channelRef x = b ∧ peerRef x = c.
Proof. unfold standing. by intros [= -> -> ->]. Qed.

Lemma session_fields (x : State) a b c d e f g :
  session x = (a, b, c, d, e, f, g) →
  messages x = a ∧ partnerProfile x = b ∧ remoteVanishMode x = c
  ∧ friendRequests x = d ∧ partnerPeerId x = e ∧ partnerTyping x = f
  ∧ partnerRecording x = g.
Proof. unfold session. by intros [= -> -> -> -> -> -> ->]. Qed.

Lemma Join_connect_fresh (persistentId : option string) (s : State) :
  isConnectingRef s = false →
  let s' := JoinActions.connect persistentId s in
  session s' = ([], None, None, [], None, false, false)
  ∧ isConnectingRef s' = false
  ∧ match peer_id_at_connect persistentId s with
    | Some id =>
        if truthy (Some id)
        then status s' = SEARCHING ∧ channelRef s' = Some id
        else status s' = DISCONNECTED ∧ channelRef s' = None
    | None => status s' = DISCONNECTED ∧ channelRef s' = None
    end.
Proof.
  intros Hc. cbv zeta.
  assert (guards (JoinActions.connect persistentId s) = (false, false)) as Hg.
  { unfold JoinActions.connect. rewrite Hc. cbv zeta.
    rewrite guards_join_when_ready, guards_initPeer, guards_session_reset.
    by rewrite isConnectingRef_Join_cleanupMain. }
  split; [|split; [by rewrite guards_snd, Hg|]];
    unfold JoinActions.connect; rewrite Hc; cbv zeta;
    pose proof (Join_connect_tail persistentId
                  (Join.cleanupMain (setIsConnectingRef true s))) as Ht;
    cbv zeta in Ht;
    destruct (Join_cleanupMain_standing (setIsConnectingRef true s))
      as (Hst & Hp & Hty & Hr);
    apply standing_fields in Hst; destruct Hst as (Hs & Hch & Hpr);
    rewrite Hp, Hty, Hr, Hs, Hch, Hpr in Ht;
    destruct Ht as [Ht1 Ht2]; [exact Ht1|exact Ht2].
Qed.

(** [connect] of the join variant, when it is not held back by
    [isConnectingRef]: the history, the partner's profile and
    indicators, the remote vanish flag and the pending friend requests
    are gone, and [isConnectingRef] is false again when it returns.  If
    the peer has an id the client is SEARCHING in a channel keyed by
    that id; if the peer has no id yet the client is left DISCONNECTED
    and in no channel.  While [isConnectingRef] is set, [connect] does
    nothing. *)
Theorem Join_connect_starts_over (persistentId : option string) (s : State) :
  (isConnectingRef s = true → JoinActions.connect persistentId s = s)
  ∧ (isConnectingRef s = false →
     let s' := JoinActions.connect persistentId s in
     session s' = ([], None, None, [], None, false, false)
     ∧ isConnectingRef s' = false
     ∧ match peer_id_at_connect persistentId s with
       | Some id =>
           if truthy (Some id)
           then status s' = SEARCHING ∧ channelRef s' = Some id
           else status s' = DISCONNECTED ∧ channelRef s' = None
       | None => status s' = DISCONNECTED ∧ channelRef s' = None
       end).
Proof.
  split.
  - intros Hc. unfold JoinActions.connect. by rewrite Hc.
  - apply Join_connect_fresh.
Qed.

Lemma Join_connect_starts_over_witness :
  status (JoinActions.connect None (initial None)) = DISCONNECTED
  ∧ JoinActions.connect None (setIsConnectingRef true (initial None))
    = setIsConnectingRef true (initial None).
Proof.
  destruct (Join_connect_starts_over None (initial None)) as [_ Hgo].
  destruct (Hgo eq_refl) as (_ & _ & Hst).
  destruct (Join_connect_starts_over None (setIsConnectingRef true (initial None)))
    as [Hskip _].
  split; [exact (proj1 Hst)|exact (Hskip eq_refl)].
Defined.

(** ** The page: [App] (part_001, first document) *)

Module App.

(** What the page reads of [window]: the two [localStorage] keys and the
    two media queries.  [None] for a [Window] is the server side, where
    [typeof window] is ['undefined']. *)
Record Window := mkWindow {
  chat_user_id : option string;
  chat_theme : option string;
  prefers_dark : bool;
  prefers_light : bool
}.

(** [getStoredUserId] (lines 19-27); [rnd] is
    [Math.random().toString(36).substr(2, 9)]. *)
Definition getStoredUserId (rnd : string) (w : option Window)
    : string * option Window :=
  match w with
  | None => ("server_user", None)
  | Some w =>
      if truthy (chat_user_id w)
      then (default "" (chat_user_id w), Some w)
      else
        let id := "user_" +:+ rnd in
        (id, Some (mkWindow (Some id) (chat_theme w) (prefers_dark w) (prefers_light w)))
  end.

(** [getInitialTheme] (lines 30-41).  The stored value is cast, not
    checked, so a theme is a string. *)
Definition getInitialTheme (w : option Window) : string :=
  match w with
  | Some w =>
      if truthy (chat_theme w) then default "" (chat_theme w)
      else if prefers_dark w then "dark"
      else if prefers_light w then "light"
      else "dark"
  | None => "dark"
  end.

(** [toggleTheme] (lines 174-180): the updater of [setTheme], with its
    write to [localStorage]. *)
Definition toggleTheme (prev : string) (w : Window) : string * Window :=
  let newTheme := if bool_decide (prev = "dark") then "light" else "dark" in
  (newTheme, mkWindow (chat_user_id w) (Some newTheme) (prefers_dark w) (prefers_light w)).

(** [handleNewChat] (lines 273-279) with nothing else happening during
    its 150 ms: [disconnect], the delay, then [connect], both as the
    hook hands them out.  [setSessionType] writes a cell of the page
    that the hook does not read. *)
Definition handleNewChat (disconnect connect : State → State) (s : State) : State :=
  connect (advance 150 (disconnect s)).

(** The cells of the friend-online notification: the notification
    shown, the ref [prevOnlineUserIds], the clock, and the pending
    [setTimeout] callbacks that clear the notification, by due time. *)
Record Notice := mkNotice {
  friendNotification : option string;
  prevOnlineUserIds : gset string;
  clears : list Z;
  n_now : Z
}.

(** The body of [friends.forEach] (lines 191-198). *)
Definition announce (currentOnlineIds : gset string) (a : Notice) (friend : Friend)
    : Notice :=
  if bool_decide (f_id friend ∈ currentOnlineIds)
     && negb (bool_decide (f_id friend ∈ prevOnlineUserIds a))
  then mkNotice (Some (username (f_profile friend) +:+ " is now online!"))
         (prevOnlineUserIds a) (clears a ++ [n_now a + 4000]) (n_now a)
  else a.

(** The effect that runs when [onlineUsers], [friends] or [userProfile]
    change (lines 183-202). *)
Definition friendOnlineEffect (userProfile : option UserProfile)
    (onlineUsers : list PresenceState) (friends : list Friend) (a : Notice) : Notice :=
  match userProfile with
  | None => a
  | Some _ =>
      let currentOnlineIds : gset string := list_to_set (p_peerId <$> onlineUsers) in
      let a :=
        if decide (0 < length friends)%nat
        then fold_left (announce currentOnlineIds) friends a
        else a in
      mkNotice (friendNotification a) currentOnlineIds (clears a) (n_now a)
  end.

(** The clock moves on by [dt] milliseconds; each callback that has come
    due runs [setFriendNotification(null)]. *)
Definition elapse (dt : N) (a : Notice) : Notice :=
  let t := n_now a + Z.of_N dt in
  mkNotice
    (if decide (filter (λ x, x ≤ t) (clears a) = []) then friendNotification a else None)
    (prevOnlineUserIds a) (filter (λ x, ¬ x ≤ t) (clears a)) t.

Inductive NoticeEvent :=
| Online (userProfile : option UserProfile) (onlineUsers : list PresenceState)
    (friends : list Friend)
| Wait (dt : N).

Definition notice_step (a : Notice) (e : NoticeEvent) : Notice :=
  match e with
  | Online userProfile onlineUsers friends =>
      friendOnlineEffect userProfile onlineUsers friends a
  | Wait dt => elapse dt a
  end.

Definition notice_run (es : list NoticeEvent) (a : Notice) : Notice :=
  fold_left notice_step es a.

(** The cells when [App] mounts. *)
Definition notice_initial : Notice := mkNotice None ∅ [] 0.

End App.

(** The user id is stable: whatever [localStorage] holds, the id a call
    of [getStoredUserId] returns is the id every later call returns, and
    a later call writes nothing. *)
Theorem stored_user_id_is_stable (rnd rnd' : string) (w : option App.Window) :
  App.getStoredUserId rnd' (App.getStoredUserId rnd w).2
  = App.getStoredUserId rnd w.
Proof.
  destruct w as [w|]; [|reflexivity].
  unfold App.getStoredUserId at 2 3.
  destruct (truthy (App.chat_user_id w)) eqn:Ht; cbn [snd App.getStoredUserId].
  - by rewrite Ht.
  - cbn [App.chat_user_id truthy]. rewrite bool_decide_true; [done|].
    by destruct rnd.
Qed.

(** The theme survives a reload: after [toggleTheme] the theme
    [getInitialTheme] finds is the one just set, whatever the system
    prefers, and it is ["dark"] or ["light"].  Toggling twice gives
    ["dark"] back for ["dark"] and ["light"] for anything else. *)
Theorem theme_survives_reload (prev : string) (w : App.Window) :
  let t := (App.toggleTheme prev w).1 in
  let w' := (App.toggleTheme prev w).2 in
  App.getInitialTheme (Some w') = t
  ∧ (t = "dark" ∨ t = "light")
  ∧ (App.toggleTheme t w').1 = (if bool_decide (prev = "dark") then "dark" else "light").
Proof.
  unfold App.toggleTheme. cbn [fst snd App.getInitialTheme App.chat_theme].
  destruct (bool_decide_reflect (prev = "dark")) as [->|Hd].
  - split; [reflexivity|]. split; [by right|reflexivity].
  - split; [reflexivity|]. split; [by left|].
    by rewrite (bool_decide_true ("dark" = "dark")).
Qed.

(** *** Starting a new chat *)

(** What no timer callback touches. *)
Definition calm (s : State) :=
  (channelRef s, myPeerIdRef s, userProfile s, peerRef s, messages s, status s,
   partnerPeerId s, isConnectingRef s, timers s, now s).

Lemma calm_fire_all ts s : calm (fire_all ts s) = calm s.
Proof.
  revert s. induction ts as [|t ts IH]; intros s; [done|].
  unfold fire_all in *. cbn [fold_left]. rewrite IH.
  destruct (action t); cbn [fire]; rewrite ?close_main_eq; try reflexivity.
  by destruct (isMatchmakerRef s && negb (main_open s)).
Qed.

Lemma calm_advance dt s :
  calm (advance dt s)
  = (channelRef s, myPeerIdRef s, userProfile s, peerRef s, messages s, status s,
     partnerPeerId s, isConnectingRef s,
     filter (λ x, ¬ due x ≤ now s + Z.of_N dt) (timers s), now s + Z.of_N dt).
Proof. unfold advance. cbv zeta. by rewrite calm_fire_all. Qed.

Lemma calm_fields (x : State) a b c d e f g h i j :
  calm x = (a, b, c, d, e, f, g, h, i, j) →
  channelRef x = a ∧ myPeerIdRef x = b ∧ userProfile x = c ∧ peerRef x = d
  ∧ messages x = e ∧ status x = f ∧ partnerPeerId x = g ∧ isConnectingRef x = h
  ∧ timers x = i ∧ now x = j.
Proof. unfold calm. by intros [= -> -> -> -> -> -> -> -> -> ->]. Qed.

Lemma cleared_subset r ts t : t ∈ cleared r ts → t ∈ ts.
Proof.
  destruct r as [k|]; simpl; [|done]. by intros [_ Ht]%list_elem_of_filter.
Qed.

(** 150 ms after a cleanup, its delayed close is no longer pending. *)
Lemma close_timer_gone s :
  no_close_pending (timers s) →
  no_close_pending (filter (λ x, ¬ due x ≤ now s + Z.of_N 150) (timers_after_cleanup s)).
Proof.
  unfold no_close_pending. rewrite !Forall_forall. intros Hs t Ht.
  apply list_elem_of_filter in Ht as [Hdue Ht].
  unfold timers_after_cleanup in Ht. do 3 apply cleared_subset in Ht.
  apply elem_of_app in Ht as [Ht|Ht]; [by apply Hs|].
  apply list_elem_of_singleton in Ht as ->. cbn in Hdue. lia.
Qed.

Lemma no_close_pending_cleared r ts :
  no_close_pending ts → no_close_pending (cleared r ts).
Proof.
  unfold no_close_pending. rewrite !Forall_forall. intros Hs t Ht.
  by apply Hs, (cleared_subset r).
Qed.

(** The state 150 ms after [disconnect], in either variant. *)
Lemma after_disconnect c s1 s :
  isMatchmakerRef s1 = false → mainConnRef s1 = Some c → now s1 = now s →
  timers s1 = timers_after_cleanup s →
  refs_below s → no_close_pending (timers s) →
  main_closed c (advance 150 s1)
  ∧ no_close_pending (timers (advance 150 s1))
  ∧ now (advance 150 s1) = now s + 150
  ∧ channelRef (advance 150 s1) = channelRef s1
  ∧ myPeerIdRef (advance 150 s1) = myPeerIdRef s1
  ∧ userProfile (advance 150 s1) = userProfile s1
  ∧ peerRef (advance 150 s1) = peerRef s1
  ∧ isConnectingRef (advance 150 s1) = isConnectingRef s1.
Proof.
  intros Hm Hc Hnow Htm Hb Hnc.
  split.
  { apply (delayed_close c (close_timer s)); [exact Hm|exact Hc| |done|].
    - rewrite Htm. by apply close_timer_pending.
    - rewrite Hnow. cbn. lia. }
  destruct (calm_fields _ _ _ _ _ _ _ _ _ _ _ (calm_advance 150 s1))
    as (Hch & Hid & Hp & Hpr & _ & _ & _ & Hic & Ht & Hn).
  rewrite Ht, Hn, Htm, Hnow. split; [by apply close_timer_gone|]. done.
Qed.

Lemma Lobby_disconnect_calm s :
  channelRef (Lobby.disconnect s) = channelRef s
  ∧ myPeerIdRef (Lobby.disconnect s) = myPeerIdRef s
  ∧ userProfile (Lobby.disconnect s) = userProfile s.
Proof.
  unfold Lobby.disconnect, Lobby.cleanupMain. cbv zeta. normal_forms.
  destruct (mainConnRef s); done.
Qed.

(** [connect] of the polling variant when a channel and a peer id are at
    hand. *)
Lemma Lobby_connect_eq ch myId x :
  channelRef x = Some ch → myPeerIdRef x = Some myId → myId ≠ "" →
  LobbyActions.connect x
  = effect (Track (mkPresence myId waiting (now x) (userProfile x)))
      (setMessages [] (setStatus SEARCHING x)).
Proof.
  intros Hch Hid Hne. unfold LobbyActions.connect. rewrite Hch, Hid.
  cbn [truthy]. by rewrite bool_decide_true.
Qed.

(** [cleanupMain] of the join variant with no main connection
    recorded. *)
Lemma Join_cleanupMain_idle x :
  mainConnRef x = None →
  mainConnRef (Join.cleanupMain x) = None
  ∧ openConns (Join.cleanupMain x) = openConns x
  ∧ effects (Join.cleanupMain x)
    = effects x ++ match channelRef x with Some _ => [Untrack; RemoveChannel] | None => [] end
  ∧ timers (Join.cleanupMain x)
    = cleared (recordingTimeoutRef x)
        (cleared (typingTimeoutRef x) (cleared (connectionTimeoutRef x) (timers x))).
Proof.
  intros Hc. unfold Join.cleanupMain. cbv zeta.
  destruct (channelRef x) as [ch|] eqn:Hch; read_fields; rewrite Hc; cbv iota;
    read_fields;
    destruct (connectionTimeoutRef x) as [k|] eqn:Hk; read_fields;
    normal_forms; read_fields; rewrite ?Hk;
    (repeat split; try reflexivity; try exact Hc);
    cbn; by rewrite ?app_nil_r, <- ?app_assoc.
Qed.

(** The connection side of a state. *)
Definition wire (s : State) := (mainConnRef s, openConns s, timers s, effects s).

Lemma wire_fields (x : State) a b c d :
  wire x = (a, b, c, d) →
  mainConnRef x = a ∧ openConns x = b ∧ timers x = c ∧ effects x = d.
Proof. unfold wire. by intros [= -> -> -> ->]. Qed.

Lemma wire_reset (w : State) :
  wire (setIsMatchmakerRef false
          (setFriendRequests []
             (setRemoteVanishMode None
                (setPartnerProfile None (setMessages [] w)))))
  = wire w.
Proof. done. Qed.

Lemma wire_initPeer persistentId s : wire (JoinActions.initPeer persistentId s) = wire s.
Proof. unfold JoinActions.initPeer. by destruct (peerRef s). Qed.

Lemma wire_join_when_ready (x : State) :
  ∃ l, wire match peerRef x with
            | Some p =>
                match peer_id p with
                | Some id => if truthy (peer_id p) then JoinActions.joinLobby id x else x
                | None => x
                end
            | None => x
            end = (mainConnRef x, openConns x, timers x, effects x ++ l).
Proof.
  assert (wire x = (mainConnRef x, openConns x, timers x, effects x ++ [])) as Hx.
  { by rewrite app_nil_r. }
  destruct (peerRef x) as [p|]; [|by exists []].
  destruct (peer_id p) as [id|]; [|by exists []].
  destruct (truthy _); [|by exists []].
  unfold JoinActions.joinLobby. cbv zeta. read_fields.
  destruct (channelRef x); [by exists [RemoveChannel]|by exists []].
Qed.

Lemma Join_connect_wire persistentId c x :
  main_closed c x → no_close_pending (timers x) →
  main_closed c (JoinActions.connect persistentId x)
  ∧ no_close_pending (timers (JoinActions.connect persistentId x)).
Proof.
  intros (Hc & Ho & He) Hnc. unfold JoinActions.connect.
  destruct (isConnectingRef x); [done|]. cbv zeta.
  assert (mainConnRef (setIsConnectingRef true x) = None) as Hc' by exact Hc.
  destruct (Join_cleanupMain_idle _ Hc') as (H1 & H2 & H3 & H4).
  match goal with
  | |- context [JoinActions.initPeer persistentId ?y] =>
      pose proof (wire_initPeer persistentId y) as Hi;
      rewrite wire_reset in Hi
  end.
  match goal with
  | |- context [peerRef ?y] =>
      destruct (wire_join_when_ready y) as [l Hl];
      apply wire_fields in Hi; destruct Hi as (Hi1 & Hi2 & Hi3 & Hi4);
      rewrite Hi1, Hi2, Hi3, Hi4 in Hl
  end.
  apply wire_fields in Hl. destruct Hl as (Hl1 & Hl2 & Hl3 & Hl4).
  unfold main_closed. rewrite Hl1, Hl2, Hl3, Hl4, H1, H2, H3, H4.
  split; [split; [done|split; [exact Ho|]]|].
  - apply elem_of_app. left. apply elem_of_app. by left.
  - by do 3 apply no_close_pending_cleared.
Qed.

Lemma Join_disconnect_shape s :
  ∃ v, Join.disconnect s = setMessages [] (Join.cleanupMain (setRecent_peers v s)).
Proof.
  unfold Join.disconnect. cbv zeta.
  destruct (partnerProfile s); [destruct (mainConnRef s); [case_bool_decide|]|].
  - rewrite saveToRecent_eq. eauto.
  - exists (recent_peers s). by destruct s.
  - exists (recent_peers s). by destruct s.
  - exists (recent_peers s). by destruct s.
Qed.

Lemma setMessages_calm v (x : State) :
  peerRef (setMessages v x) = peerRef x
  ∧ isConnectingRef (setMessages v x) = isConnectingRef x.
Proof. done. Qed.

Lemma Join_disconnect_calm s :
  peerRef (Join.disconnect s) = peerRef s
  ∧ isConnectingRef (Join.disconnect s) = false.
Proof.
  destruct (Join_disconnect_shape s) as [v ->].
  rewrite (proj1 (setMessages_calm _ _)), (proj2 (setMessages_calm _ _)).
  rewrite isConnectingRef_Join_cleanupMain.
  destruct (Join_cleanupMain_standing (setRecent_peers v s)) as (Hst & _).
  apply standing_fields in Hst. destruct Hst as (_ & _ & Hp).
  by rewrite Hp.
Qed.

Lemma peer_id_at_connect_ext persistentId (x y : State) :
  peerRef x = peerRef y →
  peer_id_at_connect persistentId x = peer_id_at_connect persistentId y.
Proof. unfold peer_id_at_connect. by intros ->. Qed.

Lemma Lobby_connect_fields ch myId x :
  channelRef x = Some ch → myPeerIdRef x = Some myId → myId ≠ "" →
  let L := LobbyActions.connect x in
  mainConnRef L = mainConnRef x ∧ openConns L = openConns x ∧ timers L = timers x
  ∧ messages L = [] ∧ status L = SEARCHING
  ∧ effects L = effects x ++ [Track (mkPresence myId waiting (now x) (userProfile x))].
Proof. intros Hch Hid Hne. cbv zeta. by rewrite (Lobby_connect_eq ch myId). Qed.

Lemma handleNewChat_eq (disconnect connect : State → State) s :
  App.handleNewChat disconnect connect s = connect (advance 150 (disconnect s)).
Proof. reflexivity. Qed.

(** "Find New Stranger", in either variant.  The user starts a new chat
    while a main connection [c] is recorded and no earlier delayed
    close is pending, and nothing else happens during the 150 ms
    before [connect] runs.  By then [c] has been closed and the main
    slot is empty, so no delayed close is left over for the next
    partner; the history is empty.  In the polling variant, with a
    channel and a peer id at hand, the client is SEARCHING and its last
    call announces it as waiting.  In the join variant the client is
    SEARCHING in a channel keyed by the peer's id, if the peer has one,
    and DISCONNECTED otherwise. *)
Theorem new_chat_closes_before_searching (persistentId : option string)
    (c : DataConnection) (s : State) :
  mainConnRef s = Some c → refs_below s → no_close_pending (timers s) →
  let L := App.handleNewChat Lobby.disconnect LobbyActions.connect s in
  let J := App.handleNewChat Join.disconnect (JoinActions.connect persistentId) s in
  (main_closed c J ∧ no_close_pending (timers J) ∧ messages J = []
   ∧ match peer_id_at_connect persistentId s with
     | Some id =>
         if truthy (Some id)
         then status J = SEARCHING ∧ channelRef J = Some id
         else status J = DISCONNECTED ∧ channelRef J = None
     | None => status J = DISCONNECTED ∧ channelRef J = None
     end)
  ∧ (∀ ch myId,
       channelRef s = Some ch → myPeerIdRef s = Some myId → myId ≠ "" →
       main_closed c L ∧ no_close_pending (timers L) ∧ messages L = []
       ∧ status L = SEARCHING
       ∧ last (effects L)
         = Some (Track (mkPresence myId waiting (now s + 150) (userProfile s)))).
Proof.
  intros Hc Hb Hnc. cbv zeta. rewrite !handleNewChat_eq. split.
  - destruct (Join_disconnect_fields c s Hc)
      as (_ & _ & _ & _ & _ & _ & _ & _ & Hm & Hc1 & Hn & Ht).
    destruct (Join_disconnect_calm s) as [Hp Hi].
    destruct (after_disconnect c (Join.disconnect s) s Hm Hc1 Hn Ht Hb Hnc)
      as (Hcl & Hnc2 & _ & _ & _ & _ & Hp2 & Hi2).
    rewrite Hp in Hp2. rewrite Hi in Hi2.
    remember (advance 150 (Join.disconnect s)) as x eqn:Hx. clear Hx.
    destruct (Join_connect_wire persistentId c x Hcl Hnc2) as [Hw1 Hw2].
    destruct (Join_connect_fresh persistentId x Hi2) as (Hs & _ & Hst).
    rewrite (peer_id_at_connect_ext _ _ _ Hp2) in Hst.
    split; [exact Hw1|]. split; [exact Hw2|].
    split; [|exact Hst].
    apply session_fields in Hs. by destruct Hs as (-> & _).
  - intros ch myId Hch Hid Hne.
    destruct (Lobby_disconnect_fields c ch myId s Hc Hch Hid)
      as (_ & _ & _ & _ & _ & _ & _ & _ & Hm & Hc1 & Hn & Ht).
    destruct (Lobby_disconnect_calm s) as (Hch1 & Hid1 & Hp1).
    destruct (after_disconnect c (Lobby.disconnect s) s Hm Hc1 Hn Ht Hb Hnc)
      as (Hcl & Hnc2 & Hn2 & Hch2 & Hid2 & Hp2 & _ & _).
    rewrite Hch1, Hch in Hch2. rewrite Hid1, Hid in Hid2. rewrite Hp1 in Hp2.
    remember (advance 150 (Lobby.disconnect s)) as x eqn:Hx. clear Hx.
    destruct (Lobby_connect_fields ch myId x Hch2 Hid2 Hne)
      as (Hl1 & Hl2 & Hl3 & Hl4 & Hl5 & Hl6).
    unfold main_closed. rewrite Hl1, Hl2, Hl3, Hl4, Hl5, Hl6, Hn2, Hp2.
    destruct Hcl as (Hx1 & Hx2 & Hx3).
    split; [split; [exact Hx1|split; [exact Hx2|]]|].
    + apply elem_of_app. by left.
    + split; [exact Hnc2|]. split; [reflexivity|]. split; [reflexivity|].
      apply last_snoc.
Qed.

Lemma new_chat_closes_before_searching_witness :
  Close 7
  ∈ effects (App.handleNewChat Join.disconnect (JoinActions.connect (Some "me")) chatting)
  ∧ status (App.handleNewChat Join.disconnect (JoinActions.connect (Some "me")) chatting)
    = SEARCHING.
Proof.
  assert (mainConnRef chatting = Some conn_b) as Hc by reflexivity.
  assert (refs_below chatting) as Hb.
  { intros k [Hk|[Hk|Hk]]; discriminate Hk. }
  assert (no_close_pending (timers chatting)) as Hnc by constructor.
  destruct (new_chat_closes_before_searching (Some "me") conn_b chatting Hc Hb Hnc)
    as [((_ & _ & Hcl) & _ & _ & Hst) _].
  split; [exact Hcl|exact (proj1 Hst)].
Defined.

(** *** The friend-online notification *)

Lemma announce_keeps cur a friend :
  App.prevOnlineUserIds (App.announce cur a friend) = App.prevOnlineUserIds a
  ∧ App.n_now (App.announce cur a friend) = App.n_now a.
Proof. unfold App.announce. by case_match. Qed.

Lemma fold_announce_keeps cur fs a :
  App.prevOnlineUserIds (fold_left (App.announce cur) fs a) = App.prevOnlineUserIds a
  ∧ App.n_now (fold_left (App.announce cur) fs a) = App.n_now a.
Proof.
  revert a. induction fs as [|f fs IH]; intros a; [done|].
  cbn [fold_left]. destruct (IH (App.announce cur a f)) as [-> ->].
  apply announce_keeps.
Qed.

Lemma fold_announce_quiet cur fs a :
  App.prevOnlineUserIds a = cur → fold_left (App.announce cur) fs a = a.
Proof.
  intros Hp. induction fs as [|f fs IH]; [done|].
  cbn [fold_left]. unfold App.announce at 2. rewrite Hp.
  by destruct (bool_decide (f_id f ∈ cur)).
Qed.

(** The friends an effect announces: online now, not online before. *)
Definition newly_online (cur : gset string) (a : App.Notice) (friend : Friend) : Prop :=
  f_id friend ∈ cur ∧ f_id friend ∉ App.prevOnlineUserIds a.

Lemma fold_announce_names cur fs a :
  let a' := fold_left (App.announce cur) fs a in
  (Forall (λ friend, ¬ newly_online cur a friend) fs ∧ a' = a)
  ∨ (∃ friend,
       friend ∈ fs ∧ newly_online cur a friend
       ∧ App.friendNotification a'
         = Some (username (f_profile friend) +:+ " is now online!")
       ∧ last (App.clears a') = Some (App.n_now a + 4000)).
Proof.
  cbv zeta. induction fs as [|f fs IH] using rev_ind; [by left|].
  rewrite fold_left_app. cbn [fold_left].
  destruct (fold_announce_keeps cur fs a) as [Hp Hn].
  remember (fold_left (App.announce cur) fs a) as A eqn:HA. clear HA.
  unfold App.announce. rewrite Hp, Hn.
  destruct (bool_decide_reflect (f_id f ∈ cur)) as [Hin|Hin]; cbn [andb].
  - destruct (bool_decide_reflect (f_id f ∈ App.prevOnlineUserIds a)) as [Hq|Hq];
      cbn [negb].
    + destruct IH as [[Hall ->]|(friend & Hf & Hnew & Hnote & Hcl)].
      * left. split; [|done]. apply Forall_app. split; [done|].
        constructor; [|done]. by intros [_ ?].
      * right. exists friend. split; [|done]. apply elem_of_app. by left.
    + right. exists f. split; [apply elem_of_app; right; by left|].
      split; [done|]. split; [done|]. cbn. apply last_snoc.
  - destruct IH as [[Hall ->]|(friend & Hf & Hnew & Hnote & Hcl)].
    + left. split; [|done]. apply Forall_app. split; [done|].
      constructor; [|done]. by intros [? _].
    + right. exists friend. split; [|done]. apply elem_of_app. by left.
Qed.

(** The notification names only friends who came online between two
    runs of the effect, and the same presence never announces twice.
    Without a profile the effect does nothing, not even remember who is
    online.  With one, it remembers exactly the peers that are online;
    either no friend is newly online and nothing else changes, or the
    notification names a friend who is online now and was not at the
    previous run, and a clear is armed for 4000 ms later.  Run again on
    the same presence, with whatever friend list, the effect changes
    nothing: a friend added while online is not announced. *)
Theorem friend_online_announced_once (onlineUsers : list PresenceState)
    (friends : list Friend) (a : App.Notice) :
  App.friendOnlineEffect None onlineUsers friends a = a
  ∧ ∀ p,
      let cur : gset string := list_to_set (p_peerId <$> onlineUsers) in
      let a' := App.friendOnlineEffect (Some p) onlineUsers friends a in
      App.prevOnlineUserIds a' = cur
      ∧ ((Forall (λ friend, ¬ newly_online cur a friend) friends
          ∧ App.friendNotification a' = App.friendNotification a
          ∧ App.clears a' = App.clears a)
         ∨ (∃ friend,
              friend ∈ friends ∧ newly_online cur a friend
              ∧ App.friendNotification a'
                = Some (username (f_profile friend) +:+ " is now online!")
              ∧ last (App.clears a') = Some (App.n_now a + 4000)))
      ∧ (∀ p' friends',
           App.friendOnlineEffect (Some p') onlineUsers friends' a' = a').
Proof.
  split; [reflexivity|]. intros p. cbv zeta. unfold App.friendOnlineEffect.
  set (cur := list_to_set (p_peerId <$> onlineUsers) : gset string).
  split; [reflexivity|]. split.
  - destruct (decide (0 < length friends)%nat) as [Hl|Hl].
    + destruct (fold_announce_names cur friends a)
        as [[Hall ->]|(friend & Hf & Hnew & Hnote & Hcl)]; [by left|].
      right. by exists friend.
    + left. destruct friends; [|simpl in Hl; lia]. done.
  - intros p' friends'. cbn [App.prevOnlineUserIds App.friendNotification App.clears App.n_now].
    match goal with
    | |- context [fold_left _ friends' ?x] =>
        rewrite (fold_announce_quiet cur friends' x) by reflexivity
    end.
    by destruct (decide (0 < length friends')%nat).
Qed.

(** A notification on show has a clear pending that comes due within
    4000 ms. *)
Definition covered (a : App.Notice) : Prop :=
  App.friendNotification a ≠ None →
  Exists (λ t, t ≤ App.n_now a + 4000) (App.clears a).

Lemma covered_announce cur a friend : covered a → covered (App.announce cur a friend).
Proof.
  intros Ha. unfold App.announce. case_match; [|done].
  intros _. cbn. apply Exists_app. right. by constructor.
Qed.

Lemma covered_fold cur fs a : covered a → covered (fold_left (App.announce cur) fs a).
Proof.
  revert a. induction fs as [|f fs IH]; intros a Ha; [done|].
  cbn [fold_left]. by apply IH, covered_announce.
Qed.

Lemma covered_effect p u fs a : covered a → covered (App.friendOnlineEffect p u fs a).
Proof.
  intros Ha. unfold App.friendOnlineEffect. destruct p; [|done]. cbv zeta.
  set (cur := list_to_set (p_peerId <$> u) : gset string).
  assert (covered (if decide (0 < length fs)%nat
                   then fold_left (App.announce cur) fs a else a)) as Hc.
  { case_match; [by apply covered_fold|done]. }
  exact Hc.
Qed.

Lemma covered_elapse dt a : covered a → covered (App.elapse dt a).
Proof.
  intros Ha. unfold App.elapse, covered. cbv zeta.
  cbn [App.friendNotification App.clears App.n_now].
  case_match; [|done]. intros Hn. specialize (Ha Hn).
  apply Exists_exists in Ha as (t & Ht & Hle).
  apply Exists_exists. exists t. split; [|lia].
  apply list_elem_of_filter. split; [|done].
  intros Hdue.
  assert (t ∈ filter (λ x, x ≤ App.n_now a + Z.of_N dt) (App.clears a)) as Hin.
  { by apply list_elem_of_filter. }
  match goal with H : filter _ _ = [] |- _ => rewrite H in Hin end.
  by apply elem_of_nil in Hin.
Qed.

Lemma covered_run es a : covered a → covered (App.notice_run es a).
Proof.
  revert a. induction es as [|e es IH]; intros a Ha; [done|].
  unfold App.notice_run in *. cbn [fold_left]. apply IH.
  destruct e; [by apply covered_effect|by apply covered_elapse].
Qed.

(** No notification outlives 4000 ms.  From the mount of [App], after
    any sequence of presence changes, friend-list changes and waits,
    once another 4000 ms have passed without the effect running the
    notification is gone. *)
Theorem friend_notification_expires (es : list App.NoticeEvent) :
  App.friendNotification (App.elapse 4000 (App.notice_run es App.notice_initial))
  = None.
Proof.
  assert (covered (App.notice_run es App.notice_initial)) as Hc.
  { apply covered_run. by intros H. }
  remember (App.notice_run es App.notice_initial) as a eqn:Ha. clear Ha.
  unfold App.elapse. cbv zeta. cbn [App.friendNotification].
  case_match; [|done].
  destruct (App.friendNotification a) as [n|] eqn:Hn; [|done].
  exfalso. unfold covered in Hc. rewrite Hn in Hc.
  apply Exists_exists in Hc as (t & Ht & Hle); [|done].
  assert (t ∈ filter (λ x, x ≤ App.n_now a + Z.of_N 4000) (App.clears a)) as Hin.
  { apply list_elem_of_filter. split; [|done]. cbn. lia. }
  match goal with H : filter _ _ = [] |- _ => rewrite H in Hin end.
  by apply elem_of_nil in Hin.
Qed.
